(** * GreenVerse backend: cart checkout, inventory and cluster utilization

    A shallow embedding of the order, production and cluster route handlers
    ([routes/orders.js], [routes/production.js], [routes/clusters.js]) over an
    explicit model of the relational store they talk to.

    - A handler is a computation over the store that may answer early
      ([return res.status(..).json(..)]); writes made before an early answer
      stay in the store, as in the source, which wraps nothing in a
      transaction.
    - JavaScript numbers that hold integers (quantities, stock, capacity, the
      [INTEGER] columns) are [Z]; request quantities are taken to be integers,
      on which [parseInt] is the identity.  Numbers that come from [DECIMAL]
      columns or from a division (prices, amounts, the utilization ratio) are
      IEEE-754 binary64 values, Rocq's primitive [float].  A [DECIMAL(10,2)]
      column keeps of a double it is sent the hundredth that the number's
      JSON text rounds to, and hands that back.  Values beyond the range of an [INTEGER] or [DECIMAL(10,2)]
      column are not modelled.
    - What the datastore decides on its own (generated identifiers, whether a
      write is refused) is read from an environment [Env].  It covers the
      calls whose [error] a handler inspects.
    - Where a handler deletes rows that other rows reference
      ([DELETE /api/clusters/:id], [DELETE /api/orders/:id]), the foreign
      keys of the schema between the modelled tables decide with it: a
      reference without [ON DELETE] refuses the delete, one with
      [ON DELETE CASCADE] takes the referencing rows along.  The other
      constraints are the datastore's business and are left to [Env]. *)

From Stdlib Require Import ZArith Sorted.
From Stdlib Require Import Floats.PrimFloat Floats.FloatOps Floats.SpecFloat
  Floats.FloatAxioms.
From stdpp Require Import base strings gmap list pretty.

Close Scope Q_scope.
Open Scope Z_scope.

(** ** JavaScript numbers *)

Module JS.

(** The number a JSON integer literal parses to: the nearest binary64. *)
Definition of_Z (z : Z) : float :=
  SF2Prim (binary_normalize prec emax z 0 false).

(** [Math.round]: the nearest integer, ties towards +infinity.  The value of
    a finite double is [n * 2^e]; the rounding is done on that exact value.
    Zeros give 0; the non-finite values have no integer to give and are
    mapped to 0 as well. *)
Definition Math_round (x : float) : Z :=
  match Prim2SF x with
  | S754_finite s m e =>
      let n := if s then Z.neg m else Z.pos m in
      if 0 <=? e then n * 2 ^ e
      else (2 * n + 2 ^ (- e)) / 2 ^ (- e + 1)
  | _ => 0
  end.

(** The number a [DECIMAL(10,2)] value of [cents] hundredths parses to: the
    binary64 nearest to [cents / 100]. *)
Definition of_cents (cents : Z) : float :=
  PrimFloat.div (of_Z cents) (of_Z 100).

(** The integer nearest to [n * 2^e], ties away from zero, as [numeric]
    rounds. *)
Definition round_half_away (n e : Z) : Z :=
  let a := Z.abs n in
  let r := if 0 <=? e then a * 2 ^ e
           else (2 * a + 2 ^ (- e)) / 2 ^ (- e + 1) in
  if n <? 0 then - r else r.

(** The hundredths nearest to the exact value of a double, halves away from
    zero. *)
Definition nearest_cents (x : float) : Z :=
  match Prim2SF x with
  | S754_finite s m e =>
      round_half_away (100 * (if s then Z.neg m else Z.pos m)) e
  | _ => 0
  end.

(** A number travels to the datastore as JSON text, the shortest decimal
    that reads back as the same double, and the column rounds that text.
    For a double in the range of the column the text lies on a half
    hundredth exactly when the half hundredth of the hundredths cell the
    double is in reads back as the double: 1.005 is sent as [1.005], though
    the double is a little less.  [half_cent] gives, for such a double, what
    that text rounds to: the next hundredth away from zero. *)
Definition half_cent (x : float) : option Z :=
  match Prim2SF x with
  | S754_finite s m e =>
      let k := if 0 <=? e then 100 * Z.pos m * 2 ^ e
               else (100 * Z.pos m) / 2 ^ (- e) in
      if PrimFloat.eqb (PrimFloat.abs x)
           (PrimFloat.div (of_Z (2 * k + 1)) (of_Z 200))
      then Some (if s then - (k + 1) else k + 1)
      else None
  | _ => None
  end.

(** The hundredths a [DECIMAL(10,2)] column keeps of a double it is sent:
    those its text rounds to, halves away from zero.  Off the half
    hundredths the text rounds as the exact value of the double does.  The
    non-finite values, which the handlers' arithmetic does not produce, are
    mapped to 0. *)
Definition cents (x : float) : Z :=
  match half_cent x with
  | Some c => c
  | None => nearest_cents x
  end.

(** A double as a [DECIMAL(10,2)] column stores it and hands it back. *)
Definition numeric_10_2 (x : float) : float := of_cents (cents x).

(** Truthiness of a string: only the empty string is falsy.  A field that
    is missing from a request body is modelled as the empty string. *)
Definition truthy (s : string) : bool := bool_decide (s ≠ "").

End JS.

(** ** The data model (database/schema.sql and its migrations) *)

Abbreviation uuid := string (only parsing).

Inductive Role : Set := role_admin | role_client | role_cluster.

#[global] Instance Role_eq_dec : EqDecision Role.
Proof. solve_decision. Defined.

(** [req.user]: the decoded bearer token. *)
Record AuthUser := {
  auth_id : uuid;
  auth_role : Role;
  auth_cluster_id : option uuid
}.

Record User := {
  email : string;
  password_hash : string;
  user_name : string;
  role : Role;
  user_location : string;
  cluster_id : option uuid
}.

Record Product := {
  product_name : string;
  price : float;
  stock : Z
}.

Record Cluster := {
  cluster_name : string;
  manager_name : string;
  location : string;
  capacity : option Z;
  utilization : Z;
  cluster_status : string;
  manager_id : option uuid
}.

Record Order := {
  order_user_id : uuid;
  order_product_id : uuid;
  order_quantity : Z;
  amount : float;
  delivery_date : string;
  status : string
}.

Record OrderItem := {
  order_id : uuid;
  item_product_id : uuid;
  item_quantity : Z;
  unit_price : float;
  total_price : float
}.

(** A [DATE] is kept as its day number. *)
Record Production := {
  production_cluster_id : uuid;
  production_product_id : uuid;
  quantity : Z;
  shift : string;
  date : Z
}.

Record ClientProfile := {
  phone : option string;
  city : option string;
  district : option string;
  state : option string;
  address_line : option string
}.

Record Employee := {
  employee_name : string;
  employee_cluster_id : uuid
}.

(** Tables with a primary key the handlers address rows by are finite maps
    from that key; [client_profiles] is keyed by its unique [user_id].
    Tables the handlers only append to and filter are lists of rows. *)
Record Db := {
  users : gmap uuid User;
  products : gmap uuid Product;
  clusters : gmap uuid Cluster;
  orders : gmap uuid Order;
  order_items : list OrderItem;
  production : list Production;
  client_profiles : gmap uuid ClientProfile;
  employees : list Employee
}.

Definition set_users (t : gmap uuid User) (db : Db) : Db :=
  {| users := t; products := products db; clusters := clusters db;
     orders := orders db; order_items := order_items db;
     production := production db; client_profiles := client_profiles db;
     employees := employees db |}.

Definition set_products (t : gmap uuid Product) (db : Db) : Db :=
  {| users := users db; products := t; clusters := clusters db;
     orders := orders db; order_items := order_items db;
     production := production db; client_profiles := client_profiles db;
     employees := employees db |}.

Definition set_clusters (t : gmap uuid Cluster) (db : Db) : Db :=
  {| users := users db; products := products db; clusters := t;
     orders := orders db; order_items := order_items db;
     production := production db; client_profiles := client_profiles db;
     employees := employees db |}.

Definition set_orders (t : gmap uuid Order) (db : Db) : Db :=
  {| users := users db; products := products db; clusters := clusters db;
     orders := t; order_items := order_items db;
     production := production db; client_profiles := client_profiles db;
     employees := employees db |}.

Definition set_order_items (t : list OrderItem) (db : Db) : Db :=
  {| users := users db; products := products db; clusters := clusters db;
     orders := orders db; order_items := t;
     production := production db; client_profiles := client_profiles db;
     employees := employees db |}.

Definition set_production (t : list Production) (db : Db) : Db :=
  {| users := users db; products := products db; clusters := clusters db;
     orders := orders db; order_items := order_items db;
     production := t; client_profiles := client_profiles db;
     employees := employees db |}.

Definition set_client_profiles (t : gmap uuid ClientProfile) (db : Db) : Db :=
  {| users := users db; products := products db; clusters := clusters db;
     orders := orders db; order_items := order_items db;
     production := production db; client_profiles := t;
     employees := employees db |}.

Definition set_employees (t : list Employee) (db : Db) : Db :=
  {| users := users db; products := products db; clusters := clusters db;
     orders := orders db; order_items := order_items db;
     production := production db; client_profiles := client_profiles db;
     employees := t |}.

Definition set_stock (v : Z) (p : Product) : Product :=
  {| product_name := product_name p; price := price p; stock := v |}.

Definition set_utilization (v : Z) (c : Cluster) : Cluster :=
  {| cluster_name := cluster_name c; manager_name := manager_name c;
     location := location c; capacity := capacity c; utilization := v;
     cluster_status := cluster_status c; manager_id := manager_id c |}.

Definition set_manager_id (v : option uuid) (c : Cluster) : Cluster :=
  {| cluster_name := cluster_name c; manager_name := manager_name c;
     location := location c; capacity := capacity c;
     utilization := utilization c;
     cluster_status := cluster_status c; manager_id := v |}.

(** ** What the datastore and the runtime decide *)

Record Env := {
  (** [new Date().toISOString().split('T')[0]] *)
  today : Z;
  (** [uuid_generate_v4()] for the row a handler inserts *)
  new_order_id : uuid;
  new_cluster_id : uuid;
  new_user_id : uuid;
  (** whether the datastore answers a write with an [error] *)
  orders_insert_error : bool;
  order_items_insert_error : bool;
  production_insert_error : bool;
  clusters_insert_error : bool;
  users_insert_error : bool;
  users_delete_error : bool;
  clusters_delete_error : bool;
  (** [bcrypt.hash(password, 10)] *)
  bcrypt_hash : string → string
}.

(** ** Responses *)

Inductive Body :=
  (** [{ error }] *)
  | Error (error : string)
  (** [{ error, profileIncomplete: true }] *)
  | ProfileIncomplete (error : string)
  (** the answer of the role guard *)
  | Forbidden
  (** [{ message }] *)
  | Message (message : string)
  (** [{ message, order: { ...order, items } }] *)
  | CartOrderPlaced (message : string) (id : uuid) (order : Order)
      (items : list OrderItem)
  (** [{ message, order }] *)
  | OrderPlaced (message : string) (id : uuid) (order : Order)
  (** [{ message, production }] *)
  | ProductionCreated (message : string) (production : Production)
  (** [{ message, cluster: { ...cluster, manager_id }, credentials }] *)
  | ClusterCreated (message : string) (id : uuid) (cluster : Cluster)
      (credentials_email : string)
  (** [{ clusters }] and [{ cluster }]: each cluster with its
      [employees_count] and displayed [utilization] *)
  | ClusterList (clusters : gmap uuid (Cluster * Z))
  | ClusterDetail (cluster : Cluster) (employees_count : Z).

Record Response := {
  http_status : Z;
  body : Body
}.

(** ** Handlers: store passing with early answers *)

Definition Handler (A : Type) : Type := Db → (Response + A) * Db.

#[global] Instance Handler_ret : MRet Handler :=
  λ A a db, (inr a, db).

#[global] Instance Handler_bind : MBind Handler :=
  λ A B k m db,
    match m db with
    | (inl r, db') => (inl r, db')
    | (inr a, db') => k a db'
    end.

(** [return res.status(code).json(body)] *)
Definition reply {A} (code : Z) (b : Body) : Handler A :=
  λ db, (inl {| http_status := code; body := b |}, db).

Definition gets {A} (f : Db → A) : Handler A := λ db, (inr (f db), db).

Definition modify (f : Db → Db) : Handler unit := λ db, (inr tt, f db).

Definition run (h : Handler Response) (db : Db) : Response * Db :=
  match h db with
  | (inl r, db') => (r, db')
  | (inr r, db') => (r, db')
  end.

(** ** Datastore calls *)

(** [.single()]: the row when the query matched exactly one, else no data. *)
Definition single {A} (rows : list A) : option A :=
  match rows with
  | [row] => Some row
  | _ => None
  end.

(** An insert under a generated primary key: refused when the datastore says
    so, or when the key is taken. *)
Definition insert_row {A} (error : bool) (k : uuid) (row : A)
    (table : gmap uuid A) : option (gmap uuid A) :=
  if error then None
  else match table !! k with
       | Some _ => None
       | None => Some (<[k := row]> table)
       end.

(** [from('products').update({ stock }).eq('id', id)]: the result is not
    inspected by any caller. *)
Definition products_update_stock (id : uuid) (v : Z) : Handler unit :=
  modify (λ db, set_products (alter (set_stock v) id (products db)) db).

(** An order row as the table keeps it: [amount] is [DECIMAL(10,2)]. *)
Definition stored_order (row : Order) : Order :=
  {| order_user_id := order_user_id row;
     order_product_id := order_product_id row;
     order_quantity := order_quantity row;
     amount := JS.numeric_10_2 (amount row);
     delivery_date := delivery_date row;
     status := status row |}.

(** An item row as the table keeps it: [unit_price] and [total_price] are
    [DECIMAL(10,2)]. *)
Definition stored_item (row : OrderItem) : OrderItem :=
  {| order_id := order_id row;
     item_product_id := item_product_id row;
     item_quantity := item_quantity row;
     unit_price := JS.numeric_10_2 (unit_price row);
     total_price := JS.numeric_10_2 (total_price row) |}.

(** [from('orders').insert([row]).select().single()]: the id and the row as
    the table holds it. *)
Definition orders_insert (env : Env) (row : Order) :
    Handler (option (uuid * Order)) :=
  λ db,
    match insert_row (orders_insert_error env) (new_order_id env)
            (stored_order row) (orders db) with
    | Some t =>
        (inr (Some (new_order_id env, stored_order row)), set_orders t db)
    | None => (inr None, db)
    end.

(** [from('order_items').insert(rows)]: [true] when it reported an error. *)
Definition order_items_insert (env : Env) (rows : list OrderItem) :
    Handler bool :=
  λ db,
    if order_items_insert_error env then (inr true, db)
    else (inr false,
          set_order_items (order_items db ++ map stored_item rows) db).

(** ** Request guard *)

(** Modelled from the spec: [authorizeRole] of [middleware/auth.js], which is
    not among the sources.  Section 4.2: the resolved role must be in the
    allowed set, else the request fails with [Forbidden] (HTTP 403). *)
Definition authorizeRole (allowed : list Role) (user : AuthUser) :
    Handler unit :=
  if bool_decide (auth_role user ∈ allowed) then mret tt
  else reply 403 Forbidden.

(** ** POST /api/orders/cart (routes/orders.js) *)

Record CartLine := {
  product_id : string;
  line_quantity : Z
}.

(** [items] is [None] when the body has no [items] or it is not an array. *)
Record CartBody := {
  items : option (list CartLine);
  cart_delivery_date : string
}.

Record ProductDetail := {
  pd_product_id : uuid;
  pd_product_name : string;
  pd_quantity : Z;
  pd_unit_price : float;
  pd_total_price : float;
  current_stock : Z
}.

(** [!profile || !profile.phone || ... || !profile.address_line] *)
Definition falsy_field (f : option string) : bool :=
  match f with
  | Some s => negb (JS.truthy s)
  | None => true
  end.

Definition profile_incomplete (profile : option ClientProfile) : bool :=
  match profile with
  | None => true
  | Some p =>
      falsy_field (phone p) || falsy_field (city p) || falsy_field (district p)
      || falsy_field (state p) || falsy_field (address_line p)
  end.

Definition insufficient_stock_message (product : Product) : string :=
  "Insufficient stock for " +:+ product_name product +:+ ". Available: "
    +:+ pretty (stock product).

Definition product_detail (id : uuid) (product : Product) (quantity : Z) :
    ProductDetail :=
  {| pd_product_id := id;
     pd_product_name := product_name product;
     pd_quantity := quantity;
     pd_unit_price := price product;
     pd_total_price := PrimFloat.mul (price product) (JS.of_Z quantity);
     current_stock := stock product |}.

(** The validation loop [for (const item of items)], with its two
    accumulators. *)
Fixpoint check_items (items : list CartLine) (totalAmount : float)
    (productDetails : list ProductDetail) :
    Handler (float * list ProductDetail) :=
  match items with
  | [] => mret (totalAmount, productDetails)
  | item :: rest =>
      let quantity := line_quantity item in
      if negb (JS.truthy (product_id item)) || (quantity =? 0)
         || (quantity <=? 0)
      then reply 400 (Error "Invalid product or quantity")
      else
        product ← gets (λ db, products db !! product_id item);
        match product with
        | None =>
            reply 404 (Error ("Product not found: " +:+ product_id item))
        | Some product =>
            if stock product <? quantity
            then reply 400 (Error (insufficient_stock_message product))
            else
              let detail := product_detail (product_id item) product quantity in
              check_items rest
                (PrimFloat.add totalAmount (pd_total_price detail))
                (productDetails ++ [detail])
        end
  end.

Definition order_item_of (order : uuid) (item : ProductDetail) : OrderItem :=
  {| order_id := order;
     item_product_id := pd_product_id item;
     item_quantity := pd_quantity item;
     unit_price := pd_unit_price item;
     total_price := pd_total_price item |}.

(** The write loop [for (const item of productDetails)]. *)
Fixpoint update_stocks (productDetails : list ProductDetail) : Handler unit :=
  match productDetails with
  | [] => mret tt
  | item :: rest =>
      products_update_stock (pd_product_id item)
        (current_stock item - pd_quantity item);;
      update_stocks rest
  end.

(** The row of the main order: [product_id] is the first line's product, kept
    for reference, and [quantity] the total quantity. *)
Definition cart_order (user : AuthUser) (req : CartBody) (totalAmount : float)
    (first : ProductDetail) (productDetails : list ProductDetail) : Order :=
  {| order_user_id := auth_id user;
     order_product_id := pd_product_id first;
     order_quantity :=
       fold_left (λ sum item, sum + pd_quantity item) productDetails 0;
     amount := totalAmount;
     delivery_date := cart_delivery_date req;
     status := "Pending" |}.

Definition post_cart (env : Env) (user : AuthUser) (req : CartBody) :
    Handler Response :=
  let throw := reply 500 (Error "Failed to create order") in
  match items req with
  | None | Some [] => reply 400 (Error "Cart items are required")
  | Some items =>
      profile ← gets (λ db, client_profiles db !! auth_id user);
      if profile_incomplete profile
      then reply 400
             (ProfileIncomplete
                "Please complete your profile before placing an order")
      else
        '(totalAmount, productDetails) ← check_items items (JS.of_Z 0) [];
        match productDetails with
        | [] => throw
        | first :: _ =>
            inserted ← orders_insert env
              (cart_order user req totalAmount first productDetails);
            match inserted with
            | None => throw
            | Some (id, order) =>
                let orderItems := map (order_item_of id) productDetails in
                itemsError ← order_items_insert env orderItems;
                if itemsError : bool then throw
                else
                  update_stocks productDetails;;
                  mret {| http_status := 201;
                          body := CartOrderPlaced "Order placed successfully"
                                    id order orderItems |}
            end
        end
  end.

(** ** POST /api/orders, the single-product order kept for older clients *)

Record OrderBody := {
  ob_product_id : string;
  ob_quantity : Z;
  ob_delivery_date : string
}.

Definition post_order (env : Env) (user : AuthUser) (req : OrderBody) :
    Handler Response :=
  let throw := reply 500 (Error "Failed to create order") in
  let product_id := ob_product_id req in
  let quantity := ob_quantity req in
  if negb (JS.truthy product_id) || (quantity =? 0)
  then reply 400 (Error "Product and quantity are required")
  else
    product ← gets (λ db, products db !! product_id);
    match product with
    | None => reply 404 (Error "Product not found")
    | Some product =>
        if stock product <? quantity
        then reply 400 (Error "Insufficient stock")
        else
          let amount := PrimFloat.mul (price product) (JS.of_Z quantity) in
          inserted ← orders_insert env
            {| order_user_id := auth_id user;
               order_product_id := product_id;
               order_quantity := quantity;
               amount := amount;
               delivery_date := ob_delivery_date req;
               status := "Pending" |};
          match inserted with
          | None => throw
          | Some (id, order) =>
              products_update_stock product_id (stock product - quantity);;
              mret {| http_status := 201;
                      body := OrderPlaced "Order placed successfully" id order |}
          end
    end.

(** ** Utilization (routes/production.js, routes/clusters.js) *)

(** [cluster.capacity || 1000] *)
Definition dailyCapacity (cluster : Cluster) : Z :=
  match capacity cluster with
  | None | Some 0 => 1000
  | Some c => c
  end.

(** [rows.reduce((sum, p) => sum + p.quantity, 0)] *)
Definition sum_quantity (rows : list Production) : Z :=
  fold_left (λ sum p, sum + quantity p) rows 0.

(** [from('production').select(..).eq('cluster_id', id)] *)
Definition production_of (id : uuid) (db : Db) : list Production :=
  filter (λ p, production_cluster_id p = id) (production db).

(** [.eq('date', day)] *)
Definition dated (day : Z) (rows : list Production) : list Production :=
  filter (λ p, date p = day) rows.

(** [Math.min(Math.round((total / dailyCapacity) * 100), 100)] *)
Definition utilization_of (total capacity : Z) : Z :=
  Z.min
    (JS.Math_round
       (PrimFloat.mul (PrimFloat.div (JS.of_Z total) (JS.of_Z capacity))
          (JS.of_Z 100)))
    100.

Definition todayTotal (env : Env) (id : uuid) (db : Db) : Z :=
  sum_quantity (dated (today env) (production_of id db)).

Definition updateClusterUtilization (env : Env) (cluster_id : uuid) :
    Handler unit :=
  cluster ← gets (λ db, clusters db !! cluster_id);
  match cluster with
  | None => mret tt
  | Some cluster =>
      total ← gets (todayTotal env cluster_id);
      let utilization := utilization_of total (dailyCapacity cluster) in
      modify (λ db,
        set_clusters (alter (set_utilization utilization) cluster_id
                        (clusters db)) db)
  end.

(** ** POST /api/production (routes/production.js) *)

(** [date] is [None] when the body has none. *)
Record ProductionBody := {
  pb_product_id : string;
  pb_quantity : Z;
  pb_shift : string;
  pb_date : option Z
}.

(** [from('production').insert([row]).select(..).single()] *)
Definition production_insert (env : Env) (row : Production) :
    Handler (option Production) :=
  λ db,
    if production_insert_error env then (inr None, db)
    else (inr (Some row), set_production (production db ++ [row]) db).

Definition post_production (env : Env) (user : AuthUser)
    (req : ProductionBody) : Handler Response :=
  authorizeRole [role_cluster] user;;
  let product_id := pb_product_id req in
  let quantity := pb_quantity req in
  match pb_date req with
  | None => reply 400 (Error "All fields are required")
  | Some date =>
      if negb (JS.truthy product_id) || (quantity =? 0)
         || negb (JS.truthy (pb_shift req))
      then reply 400 (Error "All fields are required")
      else
        match auth_cluster_id user with
        | None =>
            reply 400
              (Error "No cluster associated with this user. Please contact admin.")
        | Some cluster_id =>
            if negb (JS.truthy cluster_id)
            then reply 400
                   (Error "No cluster associated with this user. Please contact admin.")
            else
              inserted ← production_insert env
                {| production_cluster_id := cluster_id;
                   production_product_id := product_id;
                   quantity := quantity;
                   shift := pb_shift req;
                   date := date |};
              match inserted with
              | None => reply 500 (Error "Failed to create production record")
              | Some production =>
                  product ← gets (λ db, products db !! product_id);
                  match product with
                  | Some product =>
                      products_update_stock product_id (stock product + quantity)
                  | None => mret tt
                  end;;
                  updateClusterUtilization env cluster_id;;
                  mret {| http_status := 201;
                          body := ProductionCreated
                                    "Production record created successfully"
                                    production |}
              end
        end
  end.

(** ** GET /api/clusters and GET /api/clusters/:id (routes/clusters.js) *)

(** [.order('date', { ascending: false })], as a stable insertion sort: rows
    of one date keep the order of the table. *)
Fixpoint insert_by_date (p : Production) (rows : list Production) :
    list Production :=
  match rows with
  | [] => [p]
  | q :: rest =>
      if date q <=? date p then p :: q :: rest
      else q :: insert_by_date p rest
  end.

Definition order_by_date_desc (rows : list Production) : list Production :=
  foldr insert_by_date [] rows.

(** [.order('date', { ascending: false }).limit(10)] *)
Definition recentProduction (id : uuid) (db : Db) : list Production :=
  take 10 (order_by_date_desc (production_of id db)).

(** The total both read paths feed to the utilization formula. *)
Definition displayed_total (env : Env) (id : uuid) (db : Db) : Z :=
  let total := todayTotal env id db in
  if total =? 0 then
    let recent := recentProduction id db in
    match recent with
    | [] => total
    | first :: _ => sum_quantity (dated (date first) recent)
    end
  else total.

Definition employees_count (id : uuid) (db : Db) : Z :=
  Z.of_nat (length (filter (λ e, employee_cluster_id e = id) (employees db))).

(** [{ ...cluster, employees_count, utilization }] *)
Definition cluster_view (env : Env) (db : Db) (id : uuid) (cluster : Cluster) :
    Cluster * Z :=
  (set_utilization
     (utilization_of (displayed_total env id db) (dailyCapacity cluster))
     cluster,
   employees_count id db).

(** The listing is keyed by cluster id; its [created_at] order is not kept. *)
Definition get_clusters (env : Env) (user : AuthUser) : Handler Response :=
  views ← gets (λ db, map_imap (λ id c, Some (cluster_view env db id c))
                        (clusters db));
  mret {| http_status := 200; body := ClusterList views |}.

Definition get_cluster (env : Env) (user : AuthUser) (id : uuid) :
    Handler Response :=
  cluster ← gets (λ db, clusters db !! id);
  match cluster with
  | None => reply 500 (Error "Failed to fetch cluster")
  | Some cluster =>
      view ← gets (λ db, cluster_view env db id cluster);
      mret {| http_status := 200; body := ClusterDetail view.1 view.2 |}
  end.

(** ** POST /api/clusters and DELETE /api/clusters/:id (routes/clusters.js) *)

Record ClusterBody := {
  cb_name : string;
  cb_manager_name : string;
  cb_email : string;
  cb_password : string;
  cb_location : string;
  cb_city : string;
  cb_province : string;
  cb_capacity : Z
}.

(** [location || (city && province ? `${city}, ${province}` : city || province)] *)
Definition locationValue (req : ClusterBody) : string :=
  if JS.truthy (cb_location req) then cb_location req
  else if JS.truthy (cb_city req) && JS.truthy (cb_province req)
       then cb_city req +:+ ", " +:+ cb_province req
       else if JS.truthy (cb_city req) then cb_city req
            else cb_province req.

(** [from('users').select('id').eq('email', email).single()] *)
Definition users_by_email (e : string) (db : Db) : option (uuid * User) :=
  single (filter (λ kv, email kv.2 = e) (map_to_list (users db))).

(** [from('clusters').insert([row]).select().single()] *)
Definition clusters_insert (env : Env) (row : Cluster) : Handler (option uuid) :=
  λ db,
    match insert_row (clusters_insert_error env) (new_cluster_id env) row
            (clusters db) with
    | Some t => (inr (Some (new_cluster_id env)), set_clusters t db)
    | None => (inr None, db)
    end.

(** [from('users').insert([row]).select().single()] *)
Definition users_insert (env : Env) (row : User) : Handler (option uuid) :=
  λ db,
    match insert_row (users_insert_error env) (new_user_id env) row
            (users db) with
    | Some t => (inr (Some (new_user_id env)), set_users t db)
    | None => (inr None, db)
    end.

(** [from('clusters').delete().eq('id', id)] of the rollback, whose result
    the caller drops.  The row is the one this request has just inserted
    under a fresh id: no row of a store that keeps its foreign keys
    references it, and the delete takes effect. *)
Definition clusters_delete_unchecked (id : uuid) : Handler unit :=
  modify (λ db, set_clusters (delete id (clusters db)) db).

(** *** The foreign keys that decide the deletes

    [clusters.manager_id] and [orders.user_id] reference [users(id)], and
    [users.cluster_id] and [production.cluster_id] reference [clusters(id)],
    all without an [ON DELETE] action: the datastore refuses a delete that
    would remove a referenced row, and then removes none.
    [client_profiles.user_id] and [employees.cluster_id] are
    [ON DELETE CASCADE]: the referencing rows go with the deleted one.
    [attendance.cluster_id] references [clusters(id)] as well, from a table
    the store does not hold: a delete refused on its account is among the
    failures [clusters_delete_error] stands for. *)

Definition user_referenced (db : Db) (k : uuid) : bool :=
  existsb (λ kv, bool_decide (manager_id kv.2 = Some k))
    (map_to_list (clusters db))
  || existsb (λ kv, bool_decide (order_user_id kv.2 = k))
       (map_to_list (orders db)).

Definition cluster_referenced (db : Db) (id : uuid) : bool :=
  existsb (λ kv, bool_decide (cluster_id kv.2 = Some id))
    (map_to_list (users db))
  || existsb (λ p, bool_decide (production_cluster_id p = id)) (production db).

(** The users whose [cluster_id] is [id]. *)
Definition members (id : uuid) (db : Db) : gmap uuid User :=
  filter (λ kv, cluster_id kv.2 = Some id) (users db).

(** The store without the cluster row [id], its employees gone with it. *)
Definition without_cluster (id : uuid) (db : Db) : Db :=
  set_employees (filter (λ e, employee_cluster_id e ≠ id) (employees db))
    (set_clusters (delete id (clusters db)) db).

(** The store without the users of cluster [id], their profiles gone with
    them. *)
Definition without_members (id : uuid) (db : Db) : Db :=
  set_client_profiles
    (filter (λ kv, members id db !! kv.1 = None) (client_profiles db))
    (set_users (filter (λ kv, cluster_id kv.2 ≠ Some id) (users db)) db).

(** [from('clusters').delete().eq('id', id)]: [true] when it reported an
    error. *)
Definition clusters_delete (env : Env) (id : uuid) : Handler bool :=
  λ db,
    if clusters_delete_error env then (inr true, db)
    else match clusters db !! id with
         | None => (inr false, db)
         | Some _ =>
             if cluster_referenced db id then (inr true, db)
             else (inr false, without_cluster id db)
         end.

(** [from('users').delete().eq('cluster_id', id)]: [true] when it reported an
    error. *)
Definition users_delete_of_cluster (env : Env) (id : uuid) : Handler bool :=
  λ db,
    if users_delete_error env
       || existsb (λ kv, user_referenced db kv.1) (map_to_list (members id db))
    then (inr true, db)
    else (inr false, without_members id db).

(** [from('users').delete().eq('id', manager_id)], result dropped; with no
    [manager_id] to compare with, no row matches. *)
Definition users_delete_unchecked (id : option uuid) : Handler unit :=
  match id with
  | Some id =>
      modify (λ db,
        match users db !! id with
        | None => db
        | Some _ =>
            if user_referenced db id then db
            else set_client_profiles (delete id (client_profiles db))
                   (set_users (delete id (users db)) db)
        end)
  | None => mret tt
  end.

(** [from('clusters').update({ manager_id }).eq('id', id)], result dropped. *)
Definition clusters_update_manager (id user_id : uuid) : Handler unit :=
  modify (λ db,
    set_clusters (alter (set_manager_id (Some user_id)) id (clusters db)) db).

(** The row inserted into [clusters]; [manager_id] is set afterwards. *)
Definition new_cluster (req : ClusterBody) : Cluster :=
  {| cluster_name := cb_name req;
     manager_name := cb_manager_name req;
     location := locationValue req;
     capacity := Some (cb_capacity req);
     utilization := 0;
     cluster_status := "Active";
     manager_id := None |}.

(** The user account created for the cluster. *)
Definition manager_account (env : Env) (req : ClusterBody) (cluster_id : uuid) :
    User :=
  {| email := cb_email req;
     password_hash := bcrypt_hash env (cb_password req);
     user_name := cb_name req +:+ " Manager";
     role := role_cluster;
     user_location := cb_location req;
     cluster_id := Some cluster_id |}.

(** [!name || !manager_name || !email || !password || !capacity] *)
Definition missing_cluster_fields (req : ClusterBody) : bool :=
  negb (JS.truthy (cb_name req)) || negb (JS.truthy (cb_manager_name req))
  || negb (JS.truthy (cb_email req)) || negb (JS.truthy (cb_password req))
  || (cb_capacity req =? 0).

Definition post_cluster (env : Env) (user : AuthUser) (req : ClusterBody) :
    Handler Response :=
  let throw := reply 500 (Error "Failed to create cluster") in
  authorizeRole [role_admin] user;;
  if missing_cluster_fields req
  then reply 400 (Error "All required fields must be provided")
  else
    existingUser ← gets (users_by_email (cb_email req));
    match existingUser with
    | Some _ => reply 400 (Error "Email already exists")
    | None =>
        let cluster := new_cluster req in
        inserted ← clusters_insert env cluster;
        match inserted with
        | None => throw
        | Some cluster_id =>
            insertedUser ← users_insert env (manager_account env req cluster_id);
            match insertedUser with
            | None =>
                (* Rollback cluster creation if user creation fails *)
                clusters_delete_unchecked cluster_id;;
                throw
            | Some user_id =>
                clusters_update_manager cluster_id user_id;;
                mret {| http_status := 201;
                        body := ClusterCreated
                                  "Cluster and user account created successfully"
                                  cluster_id
                                  (set_manager_id (Some user_id) cluster)
                                  (cb_email req) |}
            end
        end
    end.

Definition delete_cluster (env : Env) (user : AuthUser) (clusterId : uuid) :
    Handler Response :=
  let throw := reply 500 (Error "Failed to delete cluster") in
  authorizeRole [role_admin] user;;
  userDeleteError ← users_delete_of_cluster env clusterId;
  if userDeleteError : bool then throw
  else
    manager ← gets (λ db, clusters db !! clusterId ≫= manager_id);
    users_delete_unchecked manager;;
    clusterDeleteError ← clusters_delete env clusterId;
    if clusterDeleteError : bool then throw
    else mret {| http_status := 200;
                 body := Message
                           "Cluster and associated users deleted successfully" |}.

(** ** Vocabulary of the properties *)

(** A line that passes every test of the validation loop against [db]. *)
Definition line_okb (db : Db) (l : CartLine) : bool :=
  JS.truthy (product_id l) && (0 <? line_quantity l)
  && match products db !! product_id l with
     | Some p => line_quantity l <=? stock p
     | None => false
     end.

Definition line_detail (db : Db) (l : CartLine) : option ProductDetail :=
  p ← products db !! product_id l;
  Some (product_detail (product_id l) p (line_quantity l)).

Definition cart_details (db : Db) (items : list CartLine) : list ProductDetail :=
  omap (line_detail db) items.

(** [totalAmount] after the loop has run over [details], starting from
    [start]. *)
Definition accumulate (start : float) (details : list ProductDetail) : float :=
  fold_left (λ total d, PrimFloat.add total (pd_total_price d)) details start.

(** The stock writes of the second loop, as one fold over the table. *)
Definition apply_stock_writes (writes : list (uuid * Z))
    (t : gmap uuid Product) : gmap uuid Product :=
  fold_left (λ t w, alter (set_stock w.2) w.1 t) writes t.

Definition detail_write (d : ProductDetail) : uuid * Z :=
  (pd_product_id d, current_stock d - pd_quantity d).

(** The table after a successful checkout. *)
Definition cart_committed (env : Env) (user : AuthUser) (req : CartBody)
    (items : list CartLine) (first : ProductDetail) (db : Db) : Db :=
  let details := cart_details db items in
  let order :=
    stored_order
      (cart_order user req (accumulate (JS.of_Z 0) details) first details) in
  set_products (apply_stock_writes (map detail_write details) (products db))
    (set_order_items
       (order_items db
        ++ map stored_item (map (order_item_of (new_order_id env)) details))
       (set_orders (<[new_order_id env := order]> (orders db)) db)).

Definition cart_placed (env : Env) (user : AuthUser) (req : CartBody)
    (items : list CartLine) (first : ProductDetail) (db : Db) : Response :=
  let details := cart_details db items in
  {| http_status := 201;
     body := CartOrderPlaced "Order placed successfully" (new_order_id env)
               (stored_order
                  (cart_order user req (accumulate (JS.of_Z 0) details) first
                     details))
               (map (order_item_of (new_order_id env)) details) |}.

(** The stock a line's product had when the validation loop read it. *)
Definition pre_read_stock (db : Db) (id : uuid) : Z :=
  from_option stock 0 (products db !! id).

(** A line that passes the validation loop on its own: it names a product of
    the store and asks for a positive quantity within the stock that product
    had before the checkout, whatever the other lines of the cart ask for. *)
Definition line_passes (db : Db) (l : CartLine) : Prop :=
  product_id l ≠ "" ∧ 0 < line_quantity l ∧
  is_Some (products db !! product_id l) ∧
  line_quantity l ≤ pre_read_stock db (product_id l).

(** The write a cart line causes: the pre-read stock less its own quantity. *)
Definition line_write (db : Db) (l : CartLine) : uuid * Z :=
  (product_id l, pre_read_stock db (product_id l) - line_quantity l).

(** What an item row of the table records of the cart line it was made for:
    the product, the quantity and, to the hundredth, the product's price. *)
Definition row_of_line (db : Db) (l : CartLine) (r : OrderItem) : Prop :=
  item_product_id r = product_id l ∧
  item_quantity r = line_quantity l ∧
  ∃ P, products db !! product_id l = Some P ∧
       unit_price r = JS.numeric_10_2 (price P).

(** An item row whose prices are exact: the unit price is the product's, and
    the total is the unit price times the quantity, in hundredths. *)
Definition row_exact (db : Db) (l : CartLine) (r : OrderItem) : Prop :=
  ∃ P, products db !! product_id l = Some P ∧
       unit_price r = price P ∧
       total_price r
       = JS.of_cents (JS.cents (unit_price r) * item_quantity r).

(** The sum over the rows of [unit_price * quantity], in exact arithmetic on
    hundredths. *)
Definition cents_total (rows : list OrderItem) : Z :=
  foldr (λ r sum, JS.cents (unit_price r) * item_quantity r + sum) 0 rows.

(** The columns of [products] hold what their types admit: a price is a
    [DECIMAL(10,2)] value, here not negative, and a stock an [INTEGER]. *)
Definition catalogue_typed (db : Db) : Prop :=
  ∀ id P, products db !! id = Some P →
    (∃ c, 0 ≤ c < 10 ^ 10 ∧ price P = JS.of_cents c) ∧ stock P < 2 ^ 31.

(** The worth of a cart in hundredths, at the prices of the catalogue. *)
Definition cart_cents (db : Db) (lines : list CartLine) : Z :=
  foldr
    (λ l sum,
       from_option (λ P, JS.cents (price P)) 0 (products db !! product_id l)
       * line_quantity l + sum)
    0 lines.

(** A cart the server can be sent and whose worth the [amount] column can
    hold: at most 10000 lines (the JSON body parser stops at 100 kB, which
    is fewer), worth less than [10^8] in all. *)
Definition cart_within (db : Db) (req : CartBody) : Prop :=
  ∀ lines, items req = Some lines →
    Z.of_nat (length lines) ≤ 10000 ∧ cart_cents db lines < 10 ^ 10.

(** A profile field that is absent or empty. *)
Definition field_empty (f : option string) : Prop := f = None ∨ f = Some "".

(** The row [POST /api/production] inserts for [req]. *)
Definition production_row (cluster_id : uuid) (req : ProductionBody) (day : Z) :
    Production :=
  {| production_cluster_id := cluster_id;
     production_product_id := pb_product_id req;
     quantity := pb_quantity req;
     shift := pb_shift req;
     date := day |}.

(** The store after the insert and the stock update, before the utilization
    is recomputed. *)
Definition production_logged (cluster_id : uuid) (req : ProductionBody)
    (day : Z) (db : Db) : Db :=
  let db1 :=
    set_production (production db ++ [production_row cluster_id req day]) db in
  match products db !! pb_product_id req with
  | Some p =>
      set_products
        (alter (set_stock (stock p + pb_quantity req)) (pb_product_id req)
           (products db1)) db1
  | None => db1
  end.

(** Rows in date order, latest first. *)
Definition latest_first : list Production → Prop :=
  StronglySorted (λ p q, date q ≤ date p).

(** The fallback as the specification words it: among the recent rows, the
    latest date whose output is not zero, and that date's output. *)
Fixpoint first_nonzero_day (recent scan : list Production) : Z :=
  match scan with
  | [] => 0
  | p :: scan' =>
      let total := sum_quantity (dated (date p) recent) in
      if total =? 0 then first_nonzero_day recent scan' else total
  end.

Definition claimed_total (env : Env) (id : uuid) (db : Db) : Z :=
  let total := todayTotal env id db in
  if total =? 0
  then first_nonzero_day (recentProduction id db) (recentProduction id db)
  else total.

(** Referential integrity of [users.cluster_id]: a user's cluster exists. *)
Definition users_reference_clusters (db : Db) : Prop :=
  ∀ k u id,
    users db !! k = Some u → cluster_id u = Some id →
    is_Some (clusters db !! id).

(** The store after a successful creation. *)
Definition cluster_created (env : Env) (req : ClusterBody) (db : Db) : Db :=
  set_clusters
    (<[new_cluster_id env :=
         set_manager_id (Some (new_user_id env)) (new_cluster req)]>
       (clusters db))
    (set_users
       (<[new_user_id env := manager_account env req (new_cluster_id env)]>
          (users db))
       db).

(** ** Vocabulary of the rounding analysis *)

(** Where the rational [N / D] lies between the integer [shr_m mrs] and its
    successor, as the two bits of a shift record say it: on the integer,
    below the half, on the half, above the half. *)
Definition located (mrs : shr_record) (N D : Z) : Prop :=
  match shr_r mrs, shr_s mrs with
  | false, false => N = shr_m mrs * D
  | false, true => shr_m mrs * D < N ∧ 2 * N < (2 * shr_m mrs + 1) * D
  | true, false => 2 * N = (2 * shr_m mrs + 1) * D
  | true, true => (2 * shr_m mrs + 1) * D < 2 * N ∧ N < (shr_m mrs + 1) * D
  end.

(** Every finite double is a whole number of [2^-1074]; [grain] is how many
    of them make one. *)
Definition grain : Z := 2 ^ 1074.

(** The value of a non-negative double, in units of [2^-1074]. *)
Definition units (x : float) : Z :=
  match Prim2SF x with
  | S754_finite false m e => Z.pos m * 2 ^ (e + 1074)
  | _ => 0
  end.

(** [+0], or a positive double above the subnormal range. *)
Definition normal (x : float) : Prop :=
  Prim2SF x = S754_zero false
  ∨ ∃ m e, Prim2SF x = S754_finite false m e ∧ -1074 < e.

(** Zero, or a value between [2^-100] and [2^100]. *)
Definition in_band (a : Z) : Prop :=
  a = 0 ∨ (grain ≤ 2 ^ 100 * a ∧ a ≤ 2 ^ 100 * grain).

(** [x] is a running double total of amounts whose exact total is [E]
    hundredths: after [k] additions it is within [k / 100000] of a
    hundredth of it. *)
Definition tracks (x : float) (E k : Z) : Prop :=
  normal x ∧ (E = 0 → units x = 0) ∧ 0 ≤ E ∧
  100000 * Z.abs (100 * units x - E * grain) ≤ k * grain.

(** A detail as the validation loop makes it of a catalogue product: a
    two-decimal price, an integer quantity, and their double product. *)
Definition priced (d : ProductDetail) : Prop :=
  (∃ c, 0 ≤ c < 10 ^ 10 ∧ pd_unit_price d = JS.of_cents c) ∧
  0 < pd_quantity d < 2 ^ 31 ∧
  pd_total_price d
  = PrimFloat.mul (pd_unit_price d) (JS.of_Z (pd_quantity d)).

(** The hundredths of [unit_price * quantity] summed over the details, in
    integers. *)
Definition detail_cents (details : list ProductDetail) : Z :=
  foldr (λ d sum, JS.cents (pd_unit_price d) * pd_quantity d + sum) 0 details.

(** ** Sample data, after the seed rows of database/schema.sql *)

(** The number a [DECIMAL(10,2)] value of [cents] hundredths parses to. *)
Definition decimal (cents : Z) : float :=
  PrimFloat.div (JS.of_Z cents) (JS.of_Z 100).

Definition eco_bowl : Product :=
  {| product_name := "Eco-Bowl (500ml)"; price := decimal 3500; stock := 350 |}.

Definition cutlery_set : Product :=
  {| product_name := "Biodegradable Cutlery Set"; price := decimal 2500;
     stock := 800 |}.

Definition gift_box : Product :=
  {| product_name := "Fiber Gift Box"; price := decimal 5500; stock := 200 |}.

(** A product priced at 0.10, which the [price] column admits. *)
Definition fiber_straw : Product :=
  {| product_name := "Fiber Straw"; price := decimal 10; stock := 5 |}.

Definition sukkur : Cluster :=
  {| cluster_name := "Sukkur Cluster"; manager_name := "";
     location := "Sukkur, Sindh"; capacity := Some 100; utilization := 85;
     cluster_status := "Active"; manager_id := None |}.

(** Khairpur, here with a capacity of 1000 units a day. *)
Definition khairpur : Cluster :=
  {| cluster_name := "Khairpur Unit"; manager_name := "";
     location := "Khairpur, Sindh"; capacity := Some 1000; utilization := 70;
     cluster_status := "Active"; manager_id := None |}.

Definition full_profile : ClientProfile :=
  {| phone := Some "0300-0000000"; city := Some "Sukkur";
     district := Some "Sukkur"; state := Some "Sindh";
     address_line := Some "Station Road" |}.

Definition client_account : User :=
  {| email := "client@greenverse.com"; password_hash := "$2a$10$client";
     user_name := "Client"; role := role_client; user_location := "Sukkur";
     cluster_id := None |}.

Definition khairpur_manager : User :=
  {| email := "khairpur@greenverse.com"; password_hash := "$2a$10$khairpur";
     user_name := "Khairpur Unit Manager"; role := role_cluster;
     user_location := "Khairpur"; cluster_id := Some "c-khairpur" |}.

Definition demo_db : Db :=
  {| users :=
       <["u-client" := client_account]> (<["u-manager" := khairpur_manager]> ∅);
     products :=
       <["p-bowl" := eco_bowl]> (<["p-cutlery" := cutlery_set]>
         (<["p-box" := gift_box]> (<["p-straw" := fiber_straw]> ∅)));
     clusters := <["c-sukkur" := sukkur]> (<["c-khairpur" := khairpur]> ∅);
     orders := ∅;
     order_items := [];
     production := [];
     client_profiles := <["u-client" := full_profile]> ∅;
     employees := [] |}.

Definition demo_env : Env :=
  {| today := 20400;
     new_order_id := "o-1";
     new_cluster_id := "c-new";
     new_user_id := "u-new";
     orders_insert_error := false;
     order_items_insert_error := false;
     production_insert_error := false;
     clusters_insert_error := false;
     users_insert_error := false;
     users_delete_error := false;
     clusters_delete_error := false;
     bcrypt_hash := λ password, "$2a$10$" +:+ password |}.

Definition demo_client : AuthUser :=
  {| auth_id := "u-client"; auth_role := role_client; auth_cluster_id := None |}.

(** A client who never filled in a profile. *)
Definition demo_guest : AuthUser :=
  {| auth_id := "u-guest"; auth_role := role_client; auth_cluster_id := None |}.

Definition demo_admin : AuthUser :=
  {| auth_id := "u-admin"; auth_role := role_admin; auth_cluster_id := None |}.

Definition demo_manager : AuthUser :=
  {| auth_id := "u-manager"; auth_role := role_cluster;
     auth_cluster_id := Some "c-khairpur" |}.

Definition cart (lines : list (string * Z)) : CartBody :=
  {| items := Some (map (λ l, {| product_id := l.1; line_quantity := l.2 |}) lines);
     cart_delivery_date := "2025-12-01" |}.

(** Khairpur has logged 100 units today and 900 the day before; Sukkur 50
    today. *)
Definition busy_db : Db :=
  set_production
    [ {| production_cluster_id := "c-khairpur"; production_product_id := "p-bowl";
         quantity := 900; shift := "Evening"; date := 20399 |};
      {| production_cluster_id := "c-khairpur"; production_product_id := "p-box";
         quantity := 100; shift := "Morning"; date := 20400 |};
      {| production_cluster_id := "c-sukkur"; production_product_id := "p-bowl";
         quantity := 50; shift := "Morning"; date := 20400 |} ]
    demo_db.

(** Khairpur logs 500 bowls two days ago, then yesterday 5 boxes and their
    correction by -5; nothing today. *)
Definition correction_db : Db :=
  let log (quantity day : Z) (product : string) (db : Db) : Db :=
    (run (post_production demo_env demo_manager
            {| pb_product_id := product; pb_quantity := quantity;
               pb_shift := "Morning"; pb_date := Some day |}) db).2 in
  log (-5) 20399 "p-box" (log 5 20399 "p-box" (log 500 20398 "p-bowl" demo_db)).

Definition sehwan : ClusterBody :=
  {| cb_name := "Sehwan Cluster"; cb_manager_name := "Ali";
     cb_email := "sehwan@greenverse.com"; cb_password := "secret1";
     cb_location := ""; cb_city := "Sehwan"; cb_province := "Sindh";
     cb_capacity := 120 |}.

(** The datastore refuses the insert of the order items. *)
Definition refusing_items_env : Env :=
  {| today := today demo_env;
     new_order_id := new_order_id demo_env;
     new_cluster_id := new_cluster_id demo_env;
     new_user_id := new_user_id demo_env;
     orders_insert_error := false;
     order_items_insert_error := true;
     production_insert_error := false;
     clusters_insert_error := false;
     users_insert_error := false;
     users_delete_error := false;
     clusters_delete_error := false;
     bcrypt_hash := bcrypt_hash demo_env |}.

(** The datastore refuses the user insert. *)
Definition refusing_users_env : Env :=
  {| today := today demo_env;
     new_order_id := new_order_id demo_env;
     new_cluster_id := new_cluster_id demo_env;
     new_user_id := new_user_id demo_env;
     orders_insert_error := false;
     order_items_insert_error := false;
     production_insert_error := false;
     clusters_insert_error := false;
     users_insert_error := true;
     users_delete_error := false;
     clusters_delete_error := false;
     bcrypt_hash := bcrypt_hash demo_env |}.

(** ** Vocabulary of the further properties *)

(** A stock write that stays between zero and the stock the table [t0] holds
    for its product. *)
Definition write_within (t0 : gmap uuid Product) (w : uuid * Z) : Prop :=
  ∀ P, t0 !! w.1 = Some P → 0 ≤ w.2 ≤ stock P.

(** No two users share an email (the [UNIQUE] column of the schema). *)
Definition emails_unique (db : Db) : Prop :=
  ∀ k1 k2 u1 u2,
    users db !! k1 = Some u1 → users db !! k2 = Some u2 →
    email u1 = email u2 → k1 = k2.

(** The sample store where Sukkur has a lead, whom the cluster row names as
    its manager and who is not one of the cluster's users, and a clerk, who
    is. *)
Definition staffed_db : Db :=
  set_clusters
    (<["c-sukkur" := set_manager_id (Some "u-lead") sukkur]> (clusters demo_db))
    (set_users
       (<["u-lead" :=
            {| email := "lead@greenverse.com"; password_hash := "$2a$10$lead";
               user_name := "Sukkur Lead"; role := role_cluster;
               user_location := "Sukkur"; cluster_id := None |}]>
          (<["u-clerk" :=
               {| email := "clerk@greenverse.com";
                  password_hash := "$2a$10$clerk";
                  user_name := "Sukkur Clerk"; role := role_cluster;
                  user_location := "Sukkur"; cluster_id := Some "c-sukkur" |}]>
             (users demo_db)))
       demo_db).

(** A creation request for an address that is already registered. *)
Definition sehwan_taken : ClusterBody :=
  {| cb_name := "Sehwan Cluster"; cb_manager_name := "Ali";
     cb_email := "client@greenverse.com"; cb_password := "secret1";
     cb_location := ""; cb_city := "Sehwan"; cb_province := "Sindh";
     cb_capacity := 120 |}.

(** The datastore refuses to delete a cluster row. *)
Definition refusing_cluster_delete_env : Env :=
  {| today := today demo_env;
     new_order_id := new_order_id demo_env;
     new_cluster_id := new_cluster_id demo_env;
     new_user_id := new_user_id demo_env;
     orders_insert_error := false;
     order_items_insert_error := false;
     production_insert_error := false;
     clusters_insert_error := false;
     users_insert_error := false;
     users_delete_error := false;
     clusters_delete_error := true;
     bcrypt_hash := bcrypt_hash demo_env |}.

(** ** Routes with other answers: profile, order reads, production stats *)

(** The bodies of the routes below.  An order is shown with its item rows
    and its owner's profile; the joined user and product columns of the
    source's [select] are left out of the view. *)
Record OrderView := {
  ov_order : Order;
  ov_items : list OrderItem;
  ov_profile : option ClientProfile
}.

Inductive Payload :=
  (** [{ error }] *)
  | PError (error : string)
  (** the answer of the role guard *)
  | PForbidden
  (** [{ error, missing: { phone, city, district, state, address_line } }] *)
  | PMissing (error : string) (phone city district state address_line : bool)
  (** [{ profile }], [null] when there is none *)
  | PProfile (profile : option ClientProfile)
  (** [{ message, profile }] *)
  | PProfileSaved (message : string) (profile : ClientProfile)
  (** [{ isComplete, profile }]; [isComplete] is the value of the [&&]
      chain, [null] ([None]) or a string *)
  | PProfileCheck (isComplete : option string) (profile : option ClientProfile)
  (** [{ orders }], keyed by order id, and [{ order }] *)
  | POrders (orders : gmap uuid OrderView)
  | POrder (order : OrderView)
  (** [{ stats: { todayProduction, monthProduction, totalProduction } }] *)
  | PProductionStats (todayProduction monthProduction totalProduction : Z).

Record Answer := {
  answer_status : Z;
  payload : Payload
}.

Definition Route (A : Type) : Type := Db → (Answer + A) * Db.

#[global] Instance Route_ret : MRet Route :=
  λ A a db, (inr a, db).

#[global] Instance Route_bind : MBind Route :=
  λ A B k m db,
    match m db with
    | (inl r, db') => (inl r, db')
    | (inr a, db') => k a db'
    end.

Definition answer {A} (code : Z) (p : Payload) : Route A :=
  λ db, (inl {| answer_status := code; payload := p |}, db).

Definition read {A} (f : Db → A) : Route A := λ db, (inr (f db), db).

Definition write (f : Db → Db) : Route unit := λ db, (inr tt, f db).

Definition serve (h : Route Answer) (db : Db) : Answer * Db :=
  match h db with
  | (inl r, db') => (r, db')
  | (inr r, db') => (r, db')
  end.

(** Modelled from the spec: [authorizeRole] of [middleware/auth.js], for the
    routes of this section (section 4.2: a role outside the allowed set is
    answered [Forbidden], HTTP 403). *)
Definition allow (allowed : list Role) (user : AuthUser) : Route unit :=
  if bool_decide (auth_role user ∈ allowed) then mret tt
  else answer 403 PForbidden.

(** Whether the datastore answers the writes of the routes below with an
    [error]. *)
Record Faults := {
  orders_update_error : bool;
  orders_delete_error : bool;
  client_profiles_write_error : bool
}.

(** ** GET and POST /api/profile, GET /api/profile/check (routes/profile.js) *)

Record ProfileBody := {
  pf_phone : string;
  pf_city : string;
  pf_district : string;
  pf_state : string;
  pf_address_line : string
}.

Definition profile_of (req : ProfileBody) : ClientProfile :=
  {| phone := Some (pf_phone req);
     city := Some (pf_city req);
     district := Some (pf_district req);
     state := Some (pf_state req);
     address_line := Some (pf_address_line req) |}.

(** No row ([PGRST116]) is answered with [{ profile: null }]. *)
Definition get_profile (user : AuthUser) : Route Answer :=
  allow [role_client] user;;
  profile ← read (λ db, client_profiles db !! auth_id user);
  mret {| answer_status := 200; payload := PProfile profile |}.

Definition post_profile (faults : Faults) (user : AuthUser)
    (req : ProfileBody) : Route Answer :=
  allow [role_client] user;;
  let missing (field : string) := negb (JS.truthy field) in
  if missing (pf_phone req) || missing (pf_city req)
     || missing (pf_district req) || missing (pf_state req)
     || missing (pf_address_line req)
  then answer 400
         (PMissing "All fields are required"
            (missing (pf_phone req)) (missing (pf_city req))
            (missing (pf_district req)) (missing (pf_state req))
            (missing (pf_address_line req)))
  else
    existingProfile ← read (λ db, client_profiles db !! auth_id user);
    if client_profiles_write_error faults
    then answer 500 (PError "Failed to save profile")
    else
      match existingProfile with
      | Some _ =>
          (* Update existing profile *)
          write (λ db,
            set_client_profiles
              (alter (λ _, profile_of req) (auth_id user) (client_profiles db))
              db)
      | None =>
          (* Create new profile *)
          write (λ db,
            set_client_profiles
              (<[auth_id user := profile_of req]> (client_profiles db)) db)
      end;;
      mret {| answer_status := 200;
              payload := PProfileSaved "Profile saved successfully"
                           (profile_of req) |}.

(** [a && b] on operands that are [null] or a string. *)
Definition js_and (a b : option string) : option string :=
  if falsy_field a then a else b.

(** [profile && profile.phone && profile.city && profile.district &&
    profile.state && profile.address_line] *)
Definition isComplete (profile : option ClientProfile) : option string :=
  match profile with
  | None => None
  | Some p =>
      js_and (js_and (js_and (js_and (phone p) (city p)) (district p))
                (state p))
        (address_line p)
  end.

Definition get_profile_check (user : AuthUser) : Route Answer :=
  allow [role_client] user;;
  profile ← read (λ db, client_profiles db !! auth_id user);
  mret {| answer_status := 200;
          payload := PProfileCheck (isComplete profile) profile |}.

(** ** GET /api/orders and GET /api/orders/:id (routes/orders.js) *)

Definition order_view (db : Db) (id : uuid) (order : Order) : OrderView :=
  {| ov_order := order;
     ov_items := filter (λ i, order_id i = id) (order_items db);
     ov_profile := client_profiles db !! order_user_id order |}.

(** The listing is keyed by order id; its [created_at] order is not kept. *)
Definition get_orders (user : AuthUser) : Route Answer :=
  orders ← read (λ db,
    if bool_decide (auth_role user = role_client)
    then filter (λ kv, order_user_id kv.2 = auth_id user) (orders db)
    else orders db);
  ordersWithItems ← read (λ db,
    map_imap (λ id order, Some (order_view db id order)) orders);
  mret {| answer_status := 200; payload := POrders ordersWithItems |}.

(** [.single()] reports an error when no row matches, so the [!order] test
    that would answer 404 is never reached with a missing order. *)
Definition get_order (user : AuthUser) (id : uuid) : Route Answer :=
  order ← read (λ db, orders db !! id);
  match order with
  | None => answer 500 (PError "Failed to fetch order")
  | Some order =>
      if bool_decide (auth_role user = role_client)
         && bool_decide (order_user_id order ≠ auth_id user)
      then answer 403 (PError "Access denied")
      else
        view ← read (λ db, order_view db id order);
        mret {| answer_status := 200; payload := POrder view |}
  end.

(** ** PATCH /api/orders/:id/status and DELETE /api/orders/:id *)

Definition set_status (v : string) (o : Order) : Order :=
  {| order_user_id := order_user_id o;
     order_product_id := order_product_id o;
     order_quantity := order_quantity o;
     amount := amount o;
     delivery_date := delivery_date o;
     status := v |}.

(** [from('orders').update({ status }).eq('id', id).select().single()] *)
Definition orders_update_status (faults : Faults) (id : uuid) (v : string) :
    Handler (option Order) :=
  λ db,
    if orders_update_error faults then (inr None, db)
    else match orders db !! id with
         | Some o =>
             (inr (Some (set_status v o)),
              set_orders (<[id := set_status v o]> (orders db)) db)
         | None => (inr None, db)
         end.

Definition patch_order_status (faults : Faults) (user : AuthUser) (id : uuid)
    (status : string) : Handler Response :=
  authorizeRole [role_admin] user;;
  if negb (JS.truthy status) then reply 400 (Error "Status is required")
  else
    updated ← orders_update_status faults id status;
    match updated with
    | None => reply 500 (Error "Failed to update order")
    | Some order =>
        mret {| http_status := 200;
                body := OrderPlaced "Order status updated successfully" id
                          order |}
    end.

(** [from('orders').delete().eq('id', id)]: [true] when it reported an
    error.  The item rows of the order go with it
    ([order_items.order_id ... ON DELETE CASCADE],
    database/create_order_items.sql). *)
Definition orders_delete (faults : Faults) (id : uuid) : Handler bool :=
  λ db,
    if orders_delete_error faults then (inr true, db)
    else (inr false,
          set_order_items (filter (λ i, order_id i ≠ id) (order_items db))
            (set_orders (delete id (orders db)) db)).

Definition delete_order (faults : Faults) (user : AuthUser) (id : uuid) :
    Handler Response :=
  authorizeRole [role_admin] user;;
  error ← orders_delete faults id;
  if error : bool then reply 500 (Error "Failed to delete order")
  else mret {| http_status := 200;
               body := Message "Order deleted successfully" |}.

(** ** GET /api/production/stats (routes/production.js) *)

(** [monthStart] is the day [monthStart.toISOString().split('T')[0]] of the
    runtime.  A token without a cluster matches no production row. *)
Definition get_production_stats (env : Env) (monthStart : Z) (user : AuthUser) :
    Route Answer :=
  allow [role_cluster] user;;
  rows ← read (λ db,
    match auth_cluster_id user with
    | Some cluster_id => production_of cluster_id db
    | None => []
    end);
  let todayTotal := sum_quantity (dated (today env) rows) in
  let monthTotal := sum_quantity (filter (λ p, monthStart ≤ date p) rows) in
  let totalUnits := sum_quantity rows in
  mret {| answer_status := 200;
          payload := PProductionStats todayTotal monthTotal totalUnits |}.

(** Every item row belongs to an order of the table (the foreign key of
    [order_items.order_id]). *)
Definition items_reference_orders (db : Db) : Prop :=
  ∀ i, i ∈ order_items db → is_Some (orders db !! order_id i).

Definition no_faults : Faults :=
  {| orders_update_error := false;
     orders_delete_error := false;
     client_profiles_write_error := false |}.

Definition guest_profile : ProfileBody :=
  {| pf_phone := "0301-1111111"; pf_city := "Rohri"; pf_district := "Sukkur";
     pf_state := "Sindh"; pf_address_line := "Canal Road 4" |}.

(** An order placed by the sample client and already delivered. *)
Definition delivered_order : Order :=
  {| order_user_id := "u-client"; order_product_id := "p-bowl";
     order_quantity := 2; amount := JS.of_Z 70;
     delivery_date := "2025-11-20"; status := "Delivered" |}.

(** The sample store with that order, as the single-product route leaves
    it: no item row. *)
Definition shipped_db : Db :=
  set_orders (<["o-0" := delivered_order]> (orders demo_db)) demo_db.

(** A second client. *)
Definition demo_other_client : AuthUser :=
  {| auth_id := "u-other"; auth_role := role_client; auth_cluster_id := None |}.

(** * Properties *)

Arguments JS.of_Z : simpl never.
Arguments JS.Math_round : simpl never.
Arguments utilization_of : simpl never.
Arguments insufficient_stock_message : simpl never.

Ltac handler_unfold :=
  unfold run, mbind, Handler_bind, mret, Handler_ret, gets, modify, reply,
    products_update_stock, orders_insert, order_items_insert in *.

(** ** JavaScript numbers on a few values *)

Example Math_round_values :
  JS.Math_round (PrimFloat.div (JS.of_Z 5) (JS.of_Z 2)) = 3 ∧
  JS.Math_round (PrimFloat.div (JS.of_Z (-5)) (JS.of_Z 2)) = -2 ∧
  JS.Math_round (PrimFloat.div (JS.of_Z (-1)) (JS.of_Z 2)) = 0 ∧
  JS.Math_round (PrimFloat.div (JS.of_Z 1) (JS.of_Z 3)) = 0 ∧
  JS.Math_round (JS.of_Z 100) = 100.
Proof. do 4 (split; [vm_compute; reflexivity|]). vm_compute; reflexivity. Qed.

(** 145 / 1000 * 100 is 14.499999999999998 in doubles and rounds to 14; the
    other values are what exact arithmetic gives as well. *)
Example utilization_of_values :
  utilization_of 145 1000 = 14 ∧
  utilization_of 995 1000 = 100 ∧
  utilization_of 50 100 = 50 ∧
  utilization_of 2500 1000 = 100 ∧
  utilization_of 0 1000 = 0.
Proof. do 4 (split; [vm_compute; reflexivity|]). vm_compute; reflexivity. Qed.

(** 3 * 0.10 is 0.30000000000000004 in doubles and is kept as 0.30.  The
    double for 1.005 is a little less than 1.005: its nearest hundredth is
    1.00, but it is sent as the text [1.005] and kept as 1.01.  An eighth
    lies on a half hundredth itself. *)
Example numeric_10_2_values :
  JS.numeric_10_2 (PrimFloat.mul (decimal 10) (JS.of_Z 3)) = decimal 30 ∧
  JS.nearest_cents (PrimFloat.div (JS.of_Z 201) (JS.of_Z 200)) = 100 ∧
  JS.cents (PrimFloat.div (JS.of_Z 201) (JS.of_Z 200)) = 101 ∧
  JS.cents (PrimFloat.div (JS.of_Z (-201)) (JS.of_Z 200)) = -101 ∧
  JS.cents (PrimFloat.div (JS.of_Z 1) (JS.of_Z 8)) = 13.
Proof. do 4 (split; [vm_compute; reflexivity|]). vm_compute; reflexivity. Qed.

(** ** Rounding: the binary64 operations on amounts *)

(** A positive number of [d] binary digits lies between [2^(d-1)] and
    [2^d]. *)
Lemma digits2_pos_bounds p :
  2 ^ (Z.pos (digits2_pos p) - 1) ≤ Z.pos p < 2 ^ Z.pos (digits2_pos p).
Proof.
  induction p as [p IH|p IH|]; cbn [digits2_pos]; [| |simpl; lia];
    rewrite Pos2Z.inj_succ;
    replace (Z.succ (Z.pos (digits2_pos p)) - 1)
      with (Z.succ (Z.pos (digits2_pos p) - 1)) by lia;
    rewrite !Z.pow_succ_r by lia; lia.
Qed.

Lemma pow2_pos k : 0 ≤ k → 0 < 2 ^ k.
Proof. intros. by apply Z.pow_pos_nonneg. Qed.

Lemma digits2_pos_unique p k :
  2 ^ (k - 1) ≤ Z.pos p < 2 ^ k → Z.pos (digits2_pos p) = k.
Proof.
  intros [Hlo Hhi]. pose proof (digits2_pos_bounds p) as [Hlo' Hhi'].
  assert (0 < k).
  { destruct (Z_lt_le_dec 0 k); [done|].
    destruct (Z.eq_dec k 0) as [->|]; [simpl in Hhi; lia|].
    rewrite Z.pow_neg_r in Hhi by lia. lia. }
  assert (k - 1 < Z.pos (digits2_pos p)).
  { apply (Z.pow_lt_mono_r_iff 2); lia. }
  assert (Z.pos (digits2_pos p) - 1 < k).
  { apply (Z.pow_lt_mono_r_iff 2); lia. }
  lia.
Qed.

(** One shift to the right keeps the record located, against a
    denominator twice as large. *)
Lemma shr_1_located mrs N D :
  0 ≤ shr_m mrs → 0 < D → located mrs N D →
  located (shr_1 mrs) N (2 * D) ∧ shr_m (shr_1 mrs) = shr_m mrs / 2.
Proof.
  destruct mrs as [m r s]. unfold located. cbn [shr_m shr_r shr_s].
  intros Hm HD Hloc.
  destruct m as [|p|p]; [| |lia].
  - assert (0 / 2 = 0) as -> by done.
    destruct r, s; cbn; split; try done; lia.
  - destruct p as [p|p|].
    + assert (Z.pos p~1 / 2 = Z.pos p) as ->
        by (symmetry; apply Z.div_unique with 1; lia).
      rewrite Pos2Z.inj_xI in Hloc.
      destruct r, s; cbn; (split; [|done]); lia.
    + assert (Z.pos p~0 / 2 = Z.pos p) as ->
        by (symmetry; apply Z.div_unique with 0; lia).
      rewrite Pos2Z.inj_xO in Hloc.
      destruct r, s; cbn; (split; [|done]); lia.
    + assert (1 / 2 = 0) as -> by done.
      destruct r, s; cbn; (split; [|done]); lia.
Qed.

(** So do [p] shifts, against [2^p] times the denominator. *)
Lemma iter_shr_located p : ∀ mrs N D,
  0 ≤ shr_m mrs → 0 < D → located mrs N D →
  located (SpecFloat.iter_pos shr_1 p mrs) N (2 ^ Z.pos p * D)
  ∧ shr_m (SpecFloat.iter_pos shr_1 p mrs) = shr_m mrs / 2 ^ Z.pos p.
Proof.
  assert (Hnn : ∀ a k, 0 ≤ a → 0 ≤ a / 2 ^ Z.pos k)
    by (intros; apply Z.div_pos; [done|by apply pow2_pos]).
  induction p as [p IH|p IH|]; intros mrs N D Hm HD Hloc; cbn [SpecFloat.iter_pos].
  - destruct (shr_1_located mrs N D) as [H1 E1]; [done..|].
    assert (0 ≤ shr_m (shr_1 mrs)) by (rewrite E1; apply Z.div_pos; lia).
    destruct (IH (shr_1 mrs) N (2 * D)) as [H2 E2]; [done|lia|done|].
    assert (0 < 2 ^ Z.pos p) by (by apply pow2_pos).
    destruct (IH (SpecFloat.iter_pos shr_1 p (shr_1 mrs)) N (2 ^ Z.pos p * (2 * D)))
      as [H3 E3]; [rewrite E2; by apply Hnn|lia|done|].
    replace (Z.pos p~1) with (Z.pos p + Z.pos p + 1) by lia.
    rewrite !Z.pow_add_r by lia. split.
    + replace (2 ^ Z.pos p * 2 ^ Z.pos p * 2 ^ 1 * D)
        with (2 ^ Z.pos p * (2 ^ Z.pos p * (2 * D))) by lia.
      done.
    + rewrite E3, E2, E1, !Z.div_div by lia. f_equal. lia.
  - assert (0 < 2 ^ Z.pos p) by (by apply pow2_pos).
    destruct (IH mrs N D) as [H2 E2]; [done..|].
    destruct (IH (SpecFloat.iter_pos shr_1 p mrs) N (2 ^ Z.pos p * D))
      as [H3 E3]; [rewrite E2; by apply Hnn|lia|done|].
    replace (Z.pos p~0) with (Z.pos p + Z.pos p) by lia.
    rewrite !Z.pow_add_r by lia. split.
    + replace (2 ^ Z.pos p * 2 ^ Z.pos p * D)
        with (2 ^ Z.pos p * (2 ^ Z.pos p * D)) by lia.
      done.
    + rewrite E3, E2, !Z.div_div by lia. done.
  - destruct (shr_1_located mrs N D) as [H1 E1]; [done..|].
    change (2 ^ 1) with 2. by split.
Qed.

(** Rounding a located record to nearest, ties to even, moves it by at most
    half a unit. *)
Lemma round_nearest_even_located mrs N D :
  0 < D → located mrs N D →
  let m1 := round_nearest_even (shr_m mrs) (loc_of_shr_record mrs) in
  shr_m mrs ≤ m1 ≤ shr_m mrs + 1 ∧ 2 * Z.abs (m1 * D - N) ≤ D.
Proof.
  destruct mrs as [m r s]. unfold located. cbn [shr_m shr_r shr_s].
  intros HD Hloc.
  destruct r, s; cbn [loc_of_shr_record round_nearest_even];
    try destruct (Z.even m); cbn zeta; lia.
Qed.

(** Above the subnormal range [shr_fexp] cuts a mantissa of more than 53
    bits down to 53. *)
Lemma shr_fexp_normal m e l N D :
  0 < D → located (shr_record_of_loc (Z.pos m) l) N D →
  53 ≤ Z.pos (digits2_pos m) → -1074 ≤ e →
  ∃ mrs,
    shr_fexp prec emax (Z.pos m) e l = (mrs, e + (Z.pos (digits2_pos m) - 53)) ∧
    located mrs N (2 ^ (Z.pos (digits2_pos m) - 53) * D) ∧
    shr_m mrs = Z.pos m / 2 ^ (Z.pos (digits2_pos m) - 53).
Proof.
  intros HD Hloc Hd He.
  unfold shr_fexp, fexp, emin, Zdigits2. change prec with 53. change emax with 1024.
  replace (Z.max (Z.pos (digits2_pos m) + e - 53) (3 - 1024 - 53) - e)
    with (Z.pos (digits2_pos m) - 53) by lia.
  assert (Hm : shr_m (shr_record_of_loc (Z.pos m) l) = Z.pos m)
    by (by destruct l as [|[]]).
  destruct (Z.pos (digits2_pos m) - 53) as [|p|p] eqn:En; [| |lia].
  - eexists. split; [cbn [shr]; f_equal; lia|].
    change (2 ^ 0) with 1. rewrite Z.mul_1_l, Z.div_1_r. by split.
  - destruct (iter_shr_located p (shr_record_of_loc (Z.pos m) l) N D)
      as [H1 E1]; [rewrite Hm; lia|done|done|].
    eexists. split; [cbn [shr]; reflexivity|]. split; [done|].
    by rewrite E1, Hm.
Qed.

(** The core lemma: rounding a located mantissa of at least 53 bits, within
    the exponent range, gives a finite double with a full mantissa, off the
    located value by at most half a unit in the last place. *)
Lemma binary_round_aux_normal s m e l N D :
  0 < D → located (shr_record_of_loc (Z.pos m) l) N D →
  53 ≤ Z.pos (digits2_pos m) → -1074 ≤ e →
  Z.pos (digits2_pos m) + e ≤ 1023 →
  ∃ m' e',
    binary_round_aux prec emax s (Z.pos m) e l = S754_finite s m' e' ∧
    Z.pos (digits2_pos m') = 53 ∧
    e + (Z.pos (digits2_pos m) - 53) ≤ e' ≤ e + (Z.pos (digits2_pos m) - 53) + 1 ∧
    2 * Z.abs (Z.pos m' * 2 ^ (e' - e) * D - N)
    ≤ 2 ^ (Z.pos (digits2_pos m) - 53) * D.
Proof.
  intros HD Hloc Hd He Hov.
  destruct (shr_fexp_normal m e l N D HD Hloc Hd He) as (mrs & E1 & L1 & M1).
  pose proof (digits2_pos_bounds m) as [Hlo Hhi].
  set (n := Z.pos (digits2_pos m) - 53) in *.
  assert (Hn : 0 ≤ n) by lia.
  assert (Hpn : 0 < 2 ^ n) by (by apply pow2_pos).
  assert (Hms : 2 ^ 52 ≤ shr_m mrs < 2 ^ 53).
  { rewrite M1. split.
    - apply Z.div_le_lower_bound; [done|].
      rewrite <- Z.pow_add_r by lia.
      by replace (n + 52) with (Z.pos (digits2_pos m) - 1) by lia.
    - apply Z.div_lt_upper_bound; [done|].
      rewrite <- Z.pow_add_r by lia.
      by replace (n + 53) with (Z.pos (digits2_pos m)) by lia. }
  destruct (round_nearest_even_located mrs N (2 ^ n * D)) as [R1 R2];
    [lia|done|].
  unfold binary_round_aux. rewrite E1.
  set (m1 := round_nearest_even (shr_m mrs) (loc_of_shr_record mrs)) in *.
  destruct m1 as [|q|q] eqn:Em1; [lia| |lia].
  assert (Hq : 53 ≤ Z.pos (digits2_pos q) ≤ 54).
  { pose proof (digits2_pos_bounds q) as [Hql Hqh]. split.
    - destruct (Z_lt_le_dec (Z.pos (digits2_pos q)) 53) as [Hlt|]; [|done].
      assert (2 ^ Z.pos (digits2_pos q) ≤ 2 ^ 52)
        by (apply Z.pow_le_mono_r; lia).
      lia.
    - destruct (Z_lt_le_dec 54 (Z.pos (digits2_pos q))) as [Hlt|]; [|done].
      assert (2 ^ 54 ≤ 2 ^ (Z.pos (digits2_pos q) - 1))
        by (apply Z.pow_le_mono_r; lia).
      change (2 ^ 54) with (2 * 2 ^ 53) in *. lia. }
  destruct (shr_fexp_normal q (e + n) loc_Exact (Z.pos q) 1) as (mrs2 & E2 & L2 & M2);
    [lia|unfold located; simpl; lia|lia|lia|].
  rewrite E2.
  assert (Hm2 : 2 ^ 52 ≤ shr_m mrs2 < 2 ^ 53
                ∧ shr_m mrs2 * 2 ^ (Z.pos (digits2_pos q) - 53) = Z.pos q).
  { rewrite M2. pose proof (digits2_pos_bounds q) as [Hql Hqh].
    destruct (Z.eq_dec (Z.pos (digits2_pos q)) 53) as [E|E].
    - rewrite E in *. change (2 ^ (53 - 53)) with 1.
      rewrite Z.div_1_r. change (2 ^ (53 - 1)) with (2 ^ 52) in *. lia.
    - assert (E' : Z.pos (digits2_pos q) = 54) by lia. rewrite E' in *.
      change (2 ^ (54 - 53)) with 2. change (2 ^ (54 - 1)) with (2 ^ 53) in *.
      assert (Z.pos q = 2 ^ 53) as -> by lia. done. }
  destruct Hm2 as [Hm2 Hval].
  destruct (shr_m mrs2) as [|m'|m'] eqn:Em'; [lia| |lia].
  assert (He' : (e + n + (Z.pos (digits2_pos q) - 53) <=? emax - prec) = true).
  { apply Z.leb_le. change emax with 1024. change prec with 53. lia. }
  rewrite He'. exists m', (e + n + (Z.pos (digits2_pos q) - 53)).
  split; [done|]. split; [by apply digits2_pos_unique|]. split; [lia|].
  replace (e + n + (Z.pos (digits2_pos q) - 53) - e)
    with (Z.pos (digits2_pos q) - 53 + n) by lia.
  rewrite Z.pow_add_r by lia.
  replace (Z.pos m' * (2 ^ (Z.pos (digits2_pos q) - 53) * 2 ^ n) * D)
    with (Z.pos m' * 2 ^ (Z.pos (digits2_pos q) - 53) * (2 ^ n * D)) by lia.
  by rewrite Hval.
Qed.


Lemma grain_pos : 0 < grain.
Proof. by apply pow2_pos. Qed.

Lemma pow2_split a b : 0 ≤ a → 0 ≤ b → 2 ^ (a + b) = 2 ^ a * 2 ^ b.
Proof. intros. by apply Z.pow_add_r. Qed.

Lemma pow2_le a b : 0 ≤ a → 2 ^ a ≤ 2 ^ b → a ≤ b.
Proof.
  intros Ha H. destruct (Z_lt_le_dec b a) as [Hlt|]; [|done].
  destruct (Z_lt_le_dec b 0) as [Hb|Hb].
  - rewrite (Z.pow_neg_r 2 b) in H by done. pose proof (pow2_pos a Ha). lia.
  - assert (2 ^ b < 2 ^ a) by (apply Z.pow_lt_mono_r; lia). lia.
Qed.

Lemma pow2_lt a b : 0 ≤ b → 2 ^ a < 2 ^ b → a < b.
Proof.
  intros Hb H. destruct (Z_lt_le_dec a b) as [|Hle]; [done|].
  assert (2 ^ b ≤ 2 ^ a) by (apply Z.pow_le_mono_r; lia). lia.
Qed.

(** A finite double above the subnormal range has a full mantissa. *)
Lemma valid_normal (x : float) s m e :
  Prim2SF x = S754_finite s m e → -1074 < e →
  Z.pos (digits2_pos m) = 53 ∧ e ≤ 971.
Proof.
  intros Hx He. pose proof (Prim2SF_valid x) as Hv. rewrite Hx in Hv.
  unfold valid_binary, bounded, canonical_mantissa, fexp, emin in Hv.
  change prec with 53 in Hv. change emax with 1024 in Hv.
  apply andb_true_iff in Hv as [Hc Hb].
  apply Z.eqb_eq in Hc. apply Z.leb_le in Hb. lia.
Qed.

Lemma valid_of_normal s m e :
  Z.pos (digits2_pos m) = 53 → -1074 ≤ e ≤ 971 →
  valid_binary (S754_finite s m e) = true.
Proof.
  intros Hd He.
  unfold valid_binary, bounded, canonical_mantissa, fexp, emin.
  change prec with 53. change emax with 1024.
  apply andb_true_iff. split; [apply Z.eqb_eq|apply Z.leb_le]; lia.
Qed.

Lemma normal_cases x :
  normal x → in_band (units x) →
  (Prim2SF x = S754_zero false ∧ units x = 0)
  ∨ ∃ m e, Prim2SF x = S754_finite false m e ∧
           Z.pos (digits2_pos m) = 53 ∧ -153 ≤ e ≤ 48 ∧
           units x = Z.pos m * 2 ^ (e + 1074).
Proof.
  intros [Hz|(m & e & Hx & He)] Hband.
  - left. unfold units. by rewrite Hz.
  - right. exists m, e.
    destruct (valid_normal x false m e Hx He) as [Hd _].
    assert (Hu : units x = Z.pos m * 2 ^ (e + 1074))
      by (unfold units; by rewrite Hx).
    do 2 (split; [done|]). split; [|done].
    pose proof (digits2_pos_bounds m) as [Hlo Hhi]. rewrite Hd in Hlo, Hhi.
    change (2 ^ (53 - 1)) with (2 ^ 52) in Hlo.
    assert (Hp : 0 < 2 ^ (e + 1074)) by (apply pow2_pos; lia).
    rewrite Hu in Hband. unfold in_band, grain in Hband.
    destruct Hband as [Hb|[Hb1 Hb2]]; [lia|]. split.
    + assert (Hlt : 2 ^ 100 * (Z.pos m * 2 ^ (e + 1074))
                    < 2 ^ 100 * (2 ^ 53 * 2 ^ (e + 1074))).
      { apply Z.mul_lt_mono_pos_l; [done|].
        apply Z.mul_lt_mono_pos_r; [done|lia]. }
      rewrite <- !pow2_split in Hlt by lia.
      assert (1074 < 100 + (53 + (e + 1074)))
        by (apply pow2_lt; [lia|]; eapply Z.le_lt_trans; [exact Hb1|exact Hlt]).
      lia.
    + assert (Hle : 2 ^ 52 * 2 ^ (e + 1074) ≤ Z.pos m * 2 ^ (e + 1074))
        by (apply Z.mul_le_mono_nonneg_r; lia).
      rewrite <- pow2_split in Hle by lia.
      rewrite <- pow2_split in Hb2 by lia.
      assert (52 + (e + 1074) ≤ 100 + 1074)
        by (apply pow2_le; [lia|]; eapply Z.le_trans; [exact Hle|exact Hb2]).
      lia.
Qed.

Lemma units_zero x : Prim2SF x = S754_zero false → units x = 0.
Proof. intros H. unfold units. by rewrite H. Qed.

Lemma units_finite x m e :
  Prim2SF x = S754_finite false m e → units x = Z.pos m * 2 ^ (e + 1074).
Proof. intros H. unfold units. by rewrite H. Qed.

(** The error bound of the core lemma, relative to the rounded number. *)
Lemma half_ulp_relative M d δ :
  2 ^ (d - 1) ≤ M → 53 ≤ d → 2 * Z.abs δ ≤ 2 ^ (d - 53) →
  2 ^ 53 * Z.abs δ ≤ M.
Proof.
  intros HM Hd Hδ.
  replace (d - 1) with (52 + (d - 53)) in HM by lia.
  rewrite pow2_split in HM by lia.
  change (2 ^ 53) with (2 ^ 52 * 2).
  assert (2 ^ 52 * (2 * Z.abs δ) ≤ 2 ^ 52 * 2 ^ (d - 53))
    by (apply Z.mul_le_mono_nonneg_l; lia).
  lia.
Qed.

Lemma product_digits mx my :
  Z.pos (digits2_pos mx) = 53 → Z.pos (digits2_pos my) = 53 →
  105 ≤ Z.pos (digits2_pos (mx * my)) ≤ 106.
Proof.
  intros Dx Dy.
  pose proof (digits2_pos_bounds mx) as [Hxl Hxh]. rewrite Dx in Hxl, Hxh.
  pose proof (digits2_pos_bounds my) as [Hyl Hyh]. rewrite Dy in Hyl, Hyh.
  pose proof (digits2_pos_bounds (mx * my)) as [Hl Hh].
  rewrite Pos2Z.inj_mul in Hl, Hh.
  change (2 ^ (53 - 1)) with (2 ^ 52) in *.
  assert (Hlo : 2 ^ 52 * 2 ^ 52 ≤ Z.pos mx * Z.pos my)
    by (apply Z.mul_le_mono_nonneg; lia).
  assert (Hhi : Z.pos mx * Z.pos my < 2 ^ 53 * 2 ^ 53)
    by (apply Z.mul_lt_mono_nonneg; lia).
  rewrite <- pow2_split in Hlo, Hhi by lia.
  split.
  - assert (52 + 52 < Z.pos (digits2_pos (mx * my)))
      by (apply pow2_lt; [lia|]; eapply Z.le_lt_trans; [exact Hlo|exact Hh]).
    lia.
  - assert (Z.pos (digits2_pos (mx * my)) - 1 < 53 + 53)
      by (apply pow2_lt; [lia|]; eapply Z.le_lt_trans; [exact Hl|exact Hhi]).
    lia.
Qed.

(** Multiplication: the product of two doubles is within [2^-53] of the
    exact product, relatively. *)
Lemma mul_units x y :
  normal x → normal y → in_band (units x) → in_band (units y) →
  normal (PrimFloat.mul x y) ∧
  2 ^ 53 * Z.abs (units (PrimFloat.mul x y) * grain - units x * units y)
  ≤ units x * units y.
Proof.
  intros Nx Ny Bx By.
  pose proof (mul_spec x y) as Hm. unfold SF64mul, SFmul in Hm.
  destruct (normal_cases x Nx Bx) as [[Hx Ux]|(mx & ex & Hx & Dx & Ex & Ux)];
    destruct (normal_cases y Ny By) as [[Hy Uy]|(my & ey & Hy & Dy & Ey & Uy)];
    rewrite Hx, Hy in Hm; cbn [xorb] in Hm.
  - split; [by left|]. rewrite (units_zero _ Hm), Ux. simpl. lia.
  - split; [by left|]. rewrite (units_zero _ Hm), Ux. simpl. lia.
  - split; [by left|]. rewrite (units_zero _ Hm), Uy. rewrite Z.mul_0_r. simpl. lia.
  - pose proof (product_digits mx my Dx Dy) as Hd.
    destruct (binary_round_aux_normal false (mx * my) (ex + ey) loc_Exact
                (Z.pos (mx * my)) 1)
      as (m' & e' & Hr & Dm & He' & Herr);
      [lia|unfold located; simpl; lia|lia|lia|lia|].
    rewrite Hr in Hm. split; [right; exists m', e'; split; [done|lia]|].
    rewrite (units_finite _ _ _ Hm), Ux, Uy. unfold grain.
    set (E := ex + ey) in *. set (d := Z.pos (digits2_pos (mx * my))) in *.
    rewrite Z.mul_1_r in Herr.
    set (δ := Z.pos m' * 2 ^ (e' - E) - Z.pos (mx * my)) in *.
    assert (HS : 0 < 2 ^ (E + 2148)) by (apply pow2_pos; lia).
    assert (E1 : Z.pos m' * 2 ^ (e' + 1074) * 2 ^ 1074
                 = Z.pos m' * 2 ^ (e' - E) * 2 ^ (E + 2148)).
    { rewrite <- !Z.mul_assoc, <- !pow2_split by lia. do 2 f_equal. lia. }
    assert (E2 : Z.pos mx * 2 ^ (ex + 1074) * (Z.pos my * 2 ^ (ey + 1074))
                 = Z.pos (mx * my) * 2 ^ (E + 2148)).
    { rewrite Pos2Z.inj_mul.
      replace (E + 2148) with ((ex + 1074) + (ey + 1074)) by lia.
      rewrite (pow2_split (ex + 1074) (ey + 1074)) by lia. lia. }
    rewrite E1, E2, <- Z.mul_sub_distr_r. fold δ.
    rewrite Z.abs_mul, (Z.abs_eq (2 ^ (E + 2148))) by lia.
    rewrite Z.mul_assoc. apply Z.mul_le_mono_nonneg_r; [lia|].
    apply (half_ulp_relative _ d); [|lia|lia].
    apply (digits2_pos_bounds (mx * my)).
Qed.

Lemma pos_iter_xO m d : Z.pos (Pos.iter xO m d) = Z.pos m * 2 ^ Z.pos d.
Proof.
  induction d as [|d IH] using Pos.peano_ind.
  - simpl. lia.
  - rewrite Pos.iter_succ, Pos2Z.inj_xO, IH, Pos2Z.inj_succ, Z.pow_succ_r by lia.
    lia.
Qed.

Lemma shl_align_fst mx ex ez :
  ez ≤ ex → Z.pos (fst (shl_align mx ex ez)) = Z.pos mx * 2 ^ (ex - ez).
Proof.
  intros Hle. unfold shl_align.
  destruct (ez - ex) as [|d|d] eqn:E; [|lia|].
  - replace (ex - ez) with 0 by lia. simpl. lia.
  - cbn [fst]. rewrite pos_iter_xO. f_equal. f_equal. lia.
Qed.

(** A mantissa of 53 bits or more is not shifted left before rounding. *)
Lemma binary_round_full s m e :
  53 ≤ Z.pos (digits2_pos m) → -1074 ≤ e →
  binary_round prec emax s m e
  = binary_round_aux prec emax s (Z.pos m) e loc_Exact.
Proof.
  intros Hd He. unfold binary_round, shl_align, fexp, emin.
  change prec with 53. change emax with 1024.
  destruct (Z.max (Z.pos (digits2_pos m) + e - 53) (3 - 1024 - 53) - e)
    as [|p|p] eqn:E; [done|done|lia].
Qed.

(** Addition: the sum of two non-negative doubles is within [2^-53] of the
    exact sum, relatively. *)
Lemma add_units x y :
  normal x → normal y → in_band (units x) → in_band (units y) →
  normal (PrimFloat.add x y) ∧
  2 ^ 53 * Z.abs (units (PrimFloat.add x y) - (units x + units y))
  ≤ units x + units y.
Proof.
  intros Nx Ny Bx By.
  pose proof (add_spec x y) as Hm. unfold SF64add, SFadd in Hm.
  destruct (normal_cases x Nx Bx) as [[Hx Ux]|(mx & ex & Hx & Dx & Ex & Ux)];
    destruct (normal_cases y Ny By) as [[Hy Uy]|(my & ey & Hy & Dy & Ey & Uy)];
    rewrite Hx, Hy in Hm.
  - split; [by left|]. rewrite (units_zero _ Hm), Ux, Uy. simpl. lia.
  - split; [right; exists my, ey; split; [done|lia]|].
    rewrite (units_finite _ _ _ Hm), Ux, Uy.
    rewrite Z.add_0_l, Z.sub_diag. simpl.
    assert (0 < 2 ^ (ey + 1074)) by (apply pow2_pos; lia). lia.
  - split; [right; exists mx, ex; split; [done|lia]|].
    rewrite (units_finite _ _ _ Hm), Ux, Uy.
    rewrite Z.add_0_r, Z.sub_diag. simpl.
    assert (0 < 2 ^ (ex + 1074)) by (apply pow2_pos; lia). lia.
  - cbn [cond_Zopp] in Hm.
    set (ez := Z.min ex ey) in *.
    pose proof (shl_align_fst mx ex ez ltac:(lia)) as Ha.
    pose proof (shl_align_fst my ey ez ltac:(lia)) as Hb.
    set (a := fst (shl_align mx ex ez)) in *.
    set (b := fst (shl_align my ey ez)) in *.
    change (Z.pos a + Z.pos b) with (Z.pos (a + b)) in Hm.
    cbn [binary_normalize] in Hm.
    pose proof (digits2_pos_bounds mx) as [Hxl Hxh]. rewrite Dx in Hxl, Hxh.
    pose proof (digits2_pos_bounds my) as [Hyl Hyh]. rewrite Dy in Hyl, Hyh.
    change (2 ^ (53 - 1)) with (2 ^ 52) in *.
    pose proof (digits2_pos_bounds (a + b)) as [Hl Hh].
    set (d := Z.pos (digits2_pos (a + b))) in *.
    assert (Hpx : 0 < 2 ^ (ex - ez)) by (apply pow2_pos; lia).
    assert (Hpy : 0 < 2 ^ (ey - ez)) by (apply pow2_pos; lia).
    assert (Hab : Z.pos (a + b) = Z.pos a + Z.pos b) by lia.
    assert (Hd1 : 53 ≤ d).
    { assert (2 ^ 52 * 1 ≤ Z.pos mx * 2 ^ (ex - ez))
        by (apply Z.mul_le_mono_nonneg; lia).
      assert (52 < d) by (apply pow2_lt; [lia|]; lia). lia. }
    assert (Hd2 : d + ez ≤ 1023).
    { assert (Hmax : ∀ k, 0 ≤ k → k ≤ 201 → 2 ^ k ≤ 2 ^ 201)
        by (intros; apply Z.pow_le_mono_r; lia).
      assert (Z.pos mx * 2 ^ (ex - ez) ≤ 2 ^ 53 * 2 ^ 201)
        by (apply Z.mul_le_mono_nonneg; [lia|lia|lia|apply Hmax; lia]).
      assert (Z.pos my * 2 ^ (ey - ez) ≤ 2 ^ 53 * 2 ^ 201)
        by (apply Z.mul_le_mono_nonneg; [lia|lia|lia|apply Hmax; lia]).
      assert (2 ^ (d - 1) < 2 ^ 256).
      { change (2 ^ 256) with (2 * (2 ^ 53 * 2 ^ 201) * 2). lia. }
      assert (d - 1 < 256) by (apply pow2_lt; [lia|done]). lia. }
    rewrite binary_round_full in Hm by lia.
    destruct (binary_round_aux_normal false (a + b) ez loc_Exact
                (Z.pos (a + b)) 1)
      as (m' & e' & Hr & Dm & He' & Herr);
      [lia|unfold located; simpl; lia|done|lia|done|].
    rewrite Hr in Hm. split; [right; exists m', e'; split; [done|lia]|].
    rewrite (units_finite _ _ _ Hm), Ux, Uy.
    fold d in Herr, He'. rewrite Z.mul_1_r in Herr.
    set (δ := Z.pos m' * 2 ^ (e' - ez) - Z.pos (a + b)) in *.
    assert (HS : 0 < 2 ^ (ez + 1074)) by (apply pow2_pos; lia).
    assert (E1 : Z.pos m' * 2 ^ (e' + 1074)
                 = Z.pos m' * 2 ^ (e' - ez) * 2 ^ (ez + 1074)).
    { rewrite <- Z.mul_assoc, <- pow2_split by lia. do 2 f_equal. lia. }
    assert (E2 : Z.pos mx * 2 ^ (ex + 1074) + Z.pos my * 2 ^ (ey + 1074)
                 = Z.pos (a + b) * 2 ^ (ez + 1074)).
    { rewrite Hab, Ha, Hb, Z.mul_add_distr_r, <- !Z.mul_assoc.
      rewrite <- !pow2_split by lia. do 3 f_equal; lia. }
    rewrite E1, E2, <- Z.mul_sub_distr_r. fold δ.
    rewrite Z.abs_mul, (Z.abs_eq (2 ^ (ez + 1074))) by lia.
    rewrite Z.mul_assoc. apply Z.mul_le_mono_nonneg_r; [lia|].
    apply (half_ulp_relative _ d); [done|done|lia].
Qed.

Lemma shl_align_snd mx ex ez : ez ≤ ex → snd (shl_align mx ex ez) = ez.
Proof.
  intros Hle. unfold shl_align.
  destruct (ez - ex) as [|d|d] eqn:E; cbn [snd]; lia.
Qed.

(** Integers below [2^53] are doubles. *)
Lemma of_Z_units q :
  0 ≤ q < 2 ^ 53 → normal (JS.of_Z q) ∧ units (JS.of_Z q) = q * grain.
Proof.
  intros [Hq0 Hq]. unfold JS.of_Z.
  destruct q as [|p|p]; [| |lia].
  - cbn [binary_normalize].
    assert (H : Prim2SF (SF2Prim (S754_zero false)) = S754_zero false)
      by (by apply Prim2SF_SF2Prim).
    split; [by left|]. by rewrite (units_zero _ H).
  - cbn [binary_normalize]. unfold binary_round.
    pose proof (digits2_pos_bounds p) as [Hl Hh].
    set (d := Z.pos (digits2_pos p)) in *.
    assert (Hd : 1 ≤ d ≤ 53).
    { split; [lia|].
      assert (d - 1 < 53); [|lia].
      apply pow2_lt; [lia|]. lia. }
    assert (Hf : fexp prec emax (d + 0) = d - 53).
    { unfold fexp, emin. change prec with 53. change emax with 1024. lia. }
    rewrite Hf.
    pose proof (shl_align_fst p 0 (d - 53) ltac:(lia)) as Ha.
    pose proof (shl_align_snd p 0 (d - 53) ltac:(lia)) as Hb.
    destruct (shl_align p 0 (d - 53)) as [mz ez]. cbn [fst snd] in Ha, Hb.
    subst ez. replace (0 - (d - 53)) with (53 - d) in Ha by lia.
    assert (Hp : 0 < 2 ^ (53 - d)) by (apply pow2_pos; lia).
    assert (Hmz : 2 ^ 52 ≤ Z.pos mz < 2 ^ 53).
    { rewrite Ha. split.
      - replace 52 with ((d - 1) + (53 - d)) by lia.
        rewrite pow2_split by lia. apply Z.mul_le_mono_nonneg_r; lia.
      - replace 53 with (d + (53 - d)) at 2 by lia.
        rewrite pow2_split by lia. apply Z.mul_lt_mono_pos_r; lia. }
    assert (Dz : Z.pos (digits2_pos mz) = 53)
      by (by apply digits2_pos_unique).
    destruct (binary_round_aux_normal false mz (d - 53) loc_Exact
                (Z.pos mz) 1)
      as (m' & e' & Hr & Dm & He' & Herr);
      [lia|unfold located; simpl; lia|lia|lia|lia|].
    rewrite Hr. rewrite Dz in He', Herr.
    assert (H : Prim2SF (SF2Prim (S754_finite false m' e'))
                = S754_finite false m' e')
      by (apply Prim2SF_SF2Prim, valid_of_normal; [done|lia]).
    split; [right; exists m', e'; split; [done|lia]|].
    rewrite (units_finite _ _ _ H). unfold grain.
    change (2 ^ (53 - 53) * 1) with 1 in Herr.
    assert (Hex : Z.pos m' * 2 ^ (e' - (d - 53)) = Z.pos mz) by lia.
    replace (e' + 1074) with ((e' - (d - 53)) + (d - 53 + 1074)) by lia.
    rewrite pow2_split, Z.mul_assoc, Hex, Ha by lia.
    rewrite <- Z.mul_assoc, <- pow2_split by lia.
    do 2 f_equal. lia.
Qed.

(** The location the division computes for its remainder. *)
Lemma new_location_located q r D :
  0 < D → 0 ≤ r < D →
  located (shr_record_of_loc q (new_location D r)) (q * D + r) D.
Proof.
  intros HD Hr. unfold new_location, new_location_even, new_location_odd.
  destruct (Z.even D) eqn:Ev.
  - destruct (Z.eqb_spec r 0) as [->|Hne]; [unfold located; simpl; lia|].
    destruct (Z.compare_spec (2 * r) D); unfold located; simpl; lia.
  - assert (Hodd : Z.odd D = true) by (by rewrite <- Z.negb_even, Ev).
    apply Z.odd_spec in Hodd as [k Hk].
    destruct (Z.eqb_spec r 0) as [->|Hne]; [unfold located; simpl; lia|].
    destruct (Z.compare_spec (2 * r + 1) D); unfold located; simpl; lia.
Qed.

(** Division: the quotient of two doubles is within [2^-53] of the exact
    quotient, relatively. *)
Lemma div_units x y :
  normal x → normal y → in_band (units x) → in_band (units y) →
  0 < units y →
  normal (PrimFloat.div x y) ∧
  2 ^ 53 * Z.abs (units (PrimFloat.div x y) * units y - units x * grain)
  ≤ units x * grain.
Proof.
  intros Nx Ny Bx By Hpos.
  pose proof (div_spec x y) as Hm. unfold SF64div, SFdiv in Hm.
  destruct (normal_cases y Ny By) as [[Hy Uy]|(my & ey & Hy & Dy & Ey & Uy)];
    [lia|].
  destruct (normal_cases x Nx Bx) as [[Hx Ux]|(mx & ex & Hx & Dx & Ex & Ux)];
    rewrite Hx, Hy in Hm; cbn [xorb] in Hm.
  - split; [by left|]. rewrite (units_zero _ Hm), Ux. simpl. lia.
  - unfold SFdiv_core_binary, Zdigits2 in Hm. rewrite Dx, Dy in Hm.
    assert (Hf : Z.min (fexp prec emax (53 + ex - (53 + ey))) (ex - ey)
                 = ex - ey - 53).
    { unfold fexp, emin. change prec with 53. change emax with 1024. lia. }
    rewrite Hf in Hm.
    replace (ex - ey - (ex - ey - 53)) with 53 in Hm by lia.
    cbv zeta in Hm.
    assert (Hsh : Z.shiftl (Z.pos mx) 53 = Z.pos mx * 2 ^ 53)
      by (by rewrite Z.shiftl_mul_pow2).
    rewrite Hsh in Hm.
    pose proof (digits2_pos_bounds mx) as [Hxl Hxh]. rewrite Dx in Hxl, Hxh.
    pose proof (digits2_pos_bounds my) as [Hyl Hyh]. rewrite Dy in Hyl, Hyh.
    change (2 ^ (53 - 1)) with (2 ^ 52) in *.
    pose proof (Z_div_mod (Z.pos mx * 2 ^ 53) (Z.pos my) ltac:(lia)) as Hdm.
    destruct (Z.div_eucl (Z.pos mx * 2 ^ 53) (Z.pos my)) as [q r].
    destruct Hdm as [Hdiv Hrem].
    assert (Hq : 2 ^ 52 ≤ q < 2 ^ 54).
    { assert (H1 : 2 ^ 52 * 2 ^ 53 ≤ Z.pos mx * 2 ^ 53)
        by (apply Z.mul_le_mono_nonneg_r; lia).
      assert (H2 : Z.pos mx * 2 ^ 53 < 2 ^ 53 * 2 ^ 53)
        by (apply Z.mul_lt_mono_pos_r; lia).
      assert (H3 : 2 ^ 54 * 2 ^ 52 ≤ 2 ^ 54 * Z.pos my)
        by (apply Z.mul_le_mono_nonneg_l; lia).
      change (2 ^ 54 * 2 ^ 52) with (2 ^ 53 * 2 ^ 53) in H3.
      split.
      - destruct (Z_lt_le_dec q (2 ^ 52)) as [Hlt|]; [|done].
        assert (Z.pos my * (q + 1) ≤ Z.pos my * 2 ^ 52)
          by (apply Z.mul_le_mono_nonneg_l; lia).
        assert (Z.pos my * 2 ^ 52 ≤ 2 ^ 53 * 2 ^ 52)
          by (apply Z.mul_le_mono_nonneg_r; lia).
        change (2 ^ 53 * 2 ^ 52) with (2 ^ 52 * 2 ^ 53) in *. lia.
      - destruct (Z_lt_le_dec q (2 ^ 54)) as [|Hge]; [done|].
        assert (Z.pos my * 2 ^ 54 ≤ Z.pos my * q)
          by (apply Z.mul_le_mono_nonneg_l; lia).
        lia. }
    destruct q as [|q|q]; [lia| |lia].
    pose proof (digits2_pos_bounds q) as [Hql Hqh].
    set (dq := Z.pos (digits2_pos q)) in *.
    assert (Hdq : 53 ≤ dq ≤ 54).
    { split.
      - assert (52 < dq) by (apply pow2_lt; [lia|]; lia). lia.
      - assert (dq - 1 < 54) by (apply pow2_lt; [lia|]; lia). lia. }
    destruct (binary_round_aux_normal false q (ex - ey - 53)
                (new_location (Z.pos my) r)
                (Z.pos q * Z.pos my + r) (Z.pos my))
      as (m' & e' & Hr & Dm & He' & Herr);
      [lia|by apply new_location_located|lia|lia|lia|].
    rewrite Hr in Hm. split; [right; exists m', e'; split; [done|lia]|].
    rewrite (units_finite _ _ _ Hm), Ux, Uy. unfold grain.
    fold dq in Herr, He'.
    set (e0 := ex - ey - 53) in *.
    set (δ := Z.pos m' * 2 ^ (e' - e0) * Z.pos my
              - (Z.pos q * Z.pos my + r)) in *.
    assert (HS : 0 < 2 ^ (ex - 53 + 2148)) by (apply pow2_pos; lia).
    assert (E1 : Z.pos m' * 2 ^ (e' + 1074) * (Z.pos my * 2 ^ (ey + 1074))
                 = Z.pos m' * 2 ^ (e' - e0) * Z.pos my
                   * 2 ^ (ex - 53 + 2148)).
    { replace (e' + 1074) with ((e' - e0) + (e0 + 1074)) by lia.
      rewrite (pow2_split (e' - e0) (e0 + 1074)) by lia.
      replace (ex - 53 + 2148) with ((e0 + 1074) + (ey + 1074)) by lia.
      rewrite (pow2_split (e0 + 1074) (ey + 1074)) by lia. lia. }
    assert (E2 : Z.pos mx * 2 ^ (ex + 1074) * 2 ^ 1074
                 = (Z.pos q * Z.pos my + r) * 2 ^ (ex - 53 + 2148)).
    { replace (Z.pos q * Z.pos my + r) with (Z.pos mx * 2 ^ 53) by lia.
      rewrite <- !Z.mul_assoc, <- !pow2_split by lia. do 2 f_equal. lia. }
    rewrite E1, E2, <- Z.mul_sub_distr_r. fold δ.
    rewrite Z.abs_mul, (Z.abs_eq (2 ^ (ex - 53 + 2148))) by lia.
    rewrite Z.mul_assoc. apply Z.mul_le_mono_nonneg_r; [lia|].
    assert (Hδ : 2 * Z.abs δ ≤ 2 ^ (dq - 53) * Z.pos my) by exact Herr.
    assert (Hqm : 2 ^ 52 * (2 ^ (dq - 53) * Z.pos my) ≤ Z.pos q * Z.pos my).
    { rewrite Z.mul_assoc, <- pow2_split by lia.
      replace (52 + (dq - 53)) with (dq - 1) by lia.
      apply Z.mul_le_mono_nonneg_r; lia. }
    change (2 ^ 53) with (2 ^ 52 * 2).
    assert (2 ^ 52 * (2 * Z.abs δ) ≤ 2 ^ 52 * (2 ^ (dq - 53) * Z.pos my))
      by (apply Z.mul_le_mono_nonneg_l; lia).
    lia.
Qed.

(** Amounts between a half hundredth and [2^60] are in the band. *)
Lemma in_band_intro u :
  grain ≤ 200 * u → u ≤ 2 ^ 60 * grain → in_band u.
Proof.
  intros H1 H2. right. pose proof grain_pos.
  change (2 ^ 100) with (2 ^ 60 * 2 ^ 40).
  change (2 ^ 60) with 1152921504606846976 in *.
  change (2 ^ 40) with 1099511627776. lia.
Qed.

Lemma of_Z_band q : 0 ≤ q < 2 ^ 53 → in_band (units (JS.of_Z q)).
Proof.
  intros Hq. destruct (of_Z_units q Hq) as [_ ->]. pose proof grain_pos.
  destruct (Z.eq_dec q 0) as [->|]; [by left|].
  apply in_band_intro.
  - nia.
  - apply Z.mul_le_mono_nonneg_r; [lia|]. change (2 ^ 53) with 9007199254740992 in Hq.
    change (2 ^ 60) with 1152921504606846976. lia.
Qed.

(** The double of a two-decimal amount is within one rounding of it. *)
Lemma of_cents_units c :
  0 ≤ c < 2 ^ 53 →
  normal (JS.of_cents c) ∧
  2 ^ 53 * Z.abs (100 * units (JS.of_cents c) - c * grain) ≤ c * grain.
Proof.
  intros Hc. unfold JS.of_cents. pose proof grain_pos as HK.
  destruct (of_Z_units c Hc) as [Nc Uc].
  destruct (of_Z_units 100 ltac:(done)) as [N100 U100].
  destruct (div_units (JS.of_Z c) (JS.of_Z 100) Nc N100)
    as [Nd Hd]; [by apply of_Z_band|by apply of_Z_band|lia|].
  split; [done|].
  rewrite Uc, U100 in Hd.
  set (u := units (PrimFloat.div (JS.of_Z c) (JS.of_Z 100))) in *.
  replace (u * (100 * grain) - c * grain * grain) with ((100 * u - c * grain) * grain) in Hd by lia.
  rewrite Z.abs_mul, (Z.abs_eq grain), Z.mul_assoc in Hd by lia.
  by apply Z.mul_le_mono_pos_r in Hd.
Qed.

(** A double within half a hundredth of [C] hundredths is stored as [C]. *)
Lemma nearest_cents_near x C :
  normal x → 2 * Z.abs (100 * units x - C * grain) < grain →
  JS.nearest_cents x = C.
Proof.
  intros [Hz|(m & e & Hx & He)] Hnear; pose proof grain_pos as HK.
  - rewrite (units_zero _ Hz) in Hnear. unfold JS.nearest_cents. rewrite Hz.
    assert (Z.abs (C * grain) = Z.abs C * grain)
      by (rewrite Z.abs_mul, (Z.abs_eq grain); lia).
    replace (100 * 0 - C * grain) with (- (C * grain)) in Hnear by lia.
    rewrite Z.abs_opp in Hnear. nia.
  - rewrite (units_finite _ _ _ Hx) in Hnear. unfold JS.nearest_cents.
    rewrite Hx.
    unfold JS.round_half_away.
    assert (Hn : (100 * Z.pos m <? 0) = false) by (apply Z.ltb_ge; lia).
    rewrite Hn, (Z.abs_eq (100 * Z.pos m)) by lia.
    destruct (Z.leb_spec 0 e) as [Hle|Hlt].
    + assert (HKs : grain = 2 ^ 1074) by done.
      rewrite (pow2_split e 1074) in Hnear by lia. rewrite <- HKs in Hnear.
      replace (100 * (Z.pos m * (2 ^ e * grain)) - C * grain)
        with ((100 * Z.pos m * 2 ^ e - C) * grain) in Hnear by lia.
      rewrite Z.abs_mul, (Z.abs_eq grain) in Hnear by lia.
      assert (Z.abs (100 * Z.pos m * 2 ^ e - C) = 0) by nia. lia.
    + set (P := 2 ^ (- e)). set (T := 2 ^ (e + 1074)) in *.
      assert (HP : 0 < P) by (apply pow2_pos; lia).
      assert (HT : 0 < T) by (apply pow2_pos; lia).
      assert (HKs : grain = T * P).
      { unfold grain, T, P. rewrite <- pow2_split by lia. f_equal. lia. }
      rewrite HKs in Hnear.
      replace (100 * (Z.pos m * T) - C * (T * P))
        with ((100 * Z.pos m - C * P) * T) in Hnear by lia.
      rewrite Z.abs_mul, (Z.abs_eq T), Z.mul_assoc in Hnear by lia.
      rewrite (Z.mul_comm T P) in Hnear.
      apply Z.mul_lt_mono_pos_r in Hnear; [|done].
      replace (- e + 1) with (1 + - e) by lia.
      rewrite (pow2_split 1 (- e)) by lia. fold P. change (2 ^ 1) with 2.
      symmetry. apply (Z.div_unique _ _ _ (2 * (100 * Z.pos m) + P - 2 * P * C));
        lia.
Qed.

(** A double within a tenth of a hundredth of a whole number of hundredths
    is not what a half hundredth reads back as. *)
Lemma half_cent_far x C :
  normal x → units x ≤ 2 ^ 40 * grain →
  10 * Z.abs (100 * units x - C * grain) ≤ grain →
  JS.half_cent x = None.
Proof.
  intros [Hz|(m & e & Hx & He)] Hsize Hnear; pose proof grain_pos as HK;
    unfold JS.half_cent; [by rewrite Hz|].
  rewrite Hx.
  set (k := if 0 <=? e then 100 * Z.pos m * 2 ^ e
            else 100 * Z.pos m / 2 ^ (- e)).
  assert (Hk : 0 ≤ k ≤ 100 * 2 ^ 40).
  { rewrite (units_finite _ _ _ Hx) in Hsize. unfold k.
    destruct (Z.leb_spec 0 e) as [Hle|Hlt].
    - assert (HKs : grain = 2 ^ 1074) by done.
      rewrite (pow2_split e 1074), <- HKs, Z.mul_assoc in Hsize by lia.
      apply Z.mul_le_mono_pos_r in Hsize; [|done].
      pose proof (pow2_pos e Hle). nia.
    - set (P := 2 ^ (- e)). set (T := 2 ^ (e + 1074)) in *.
      assert (HP : 0 < P) by (apply pow2_pos; lia).
      assert (HT : 0 < T) by (apply pow2_pos; lia).
      assert (HKs : grain = P * T).
      { unfold grain, T, P. rewrite <- pow2_split by lia. f_equal. lia. }
      rewrite HKs, Z.mul_assoc in Hsize.
      apply Z.mul_le_mono_pos_r in Hsize; [|done].
      split; [apply Z.div_pos; lia|].
      apply Z.div_le_upper_bound; [done|]. lia. }
  change (2 ^ 40) with 1099511627776 in Hk, Hsize.
  destruct (of_Z_units (2 * k + 1)) as [Nn Un];
    [change (2 ^ 53) with 9007199254740992; lia|].
  destruct (of_Z_units 200) as [Nh Uh]; [done|].
  destruct (div_units (JS.of_Z (2 * k + 1)) (JS.of_Z 200) Nn Nh) as [Nt Ht].
  { apply of_Z_band. change (2 ^ 53) with 9007199254740992. lia. }
  { by apply of_Z_band. }
  { rewrite Uh. lia. }
  set (tie := PrimFloat.div (JS.of_Z (2 * k + 1)) (JS.of_Z 200)) in *.
  destruct (PrimFloat.eqb (PrimFloat.abs x) tie) eqn:Heq; [exfalso|done].
  rewrite FloatAxioms.eqb_spec, FloatAxioms.abs_spec, Hx in Heq. simpl in Heq.
  assert (Htie : units tie = units x).
  { rewrite (units_finite _ _ _ Hx).
    destruct (Prim2SF tie) as [[|]|[|]| |[|] m' e'] eqn:Et;
      try discriminate Heq.
    unfold SFeqb, SFcompare in Heq.
    destruct (Z.compare_spec e e') as [->| |]; try discriminate Heq.
    change (Pos.compare_cont Eq m m') with (Pos.compare m m') in Heq.
    destruct (Pos.compare_spec m m') as [->| |]; try discriminate Heq.
    by rewrite (units_finite _ _ _ Et). }
  rewrite Htie, Un, Uh in Ht. set (U := units x) in *.
  change (2 ^ 53) with 9007199254740992 in Ht.
  replace (U * (200 * grain) - (2 * k + 1) * grain * grain)
    with ((200 * U - (2 * k + 1) * grain) * grain) in Ht by lia.
  rewrite Z.abs_mul, (Z.abs_eq grain), Z.mul_assoc in Ht by lia.
  apply Z.mul_le_mono_pos_r in Ht; [|done].
  assert (Hodd : grain ≤ Z.abs ((2 * C - 2 * k - 1) * grain)).
  { rewrite Z.abs_mul, (Z.abs_eq grain) by lia.
    assert (1 ≤ Z.abs (2 * C - 2 * k - 1)) by lia. nia. }
  assert (HkK : (2 * k + 1) * grain ≤ 219902325555201 * grain)
    by (apply Z.mul_le_mono_nonneg_r; lia).
  lia.
Qed.

(** A double in the range of the column and within a tenth of a hundredth
    of [C] hundredths is kept as [C]. *)
Lemma cents_near x C :
  normal x → units x ≤ 2 ^ 40 * grain →
  10 * Z.abs (100 * units x - C * grain) ≤ grain →
  JS.cents x = C.
Proof.
  intros Nx Hsize Hnear. pose proof grain_pos. unfold JS.cents.
  rewrite (half_cent_far x C) by done.
  apply nearest_cents_near; [done|lia].
Qed.

(** A value the column holds is kept as it is. *)
Lemma cents_of_cents c : 0 ≤ c < 10 ^ 10 → JS.cents (JS.of_cents c) = c.
Proof.
  intros Hc. pose proof grain_pos as HK.
  change (10 ^ 10) with 10000000000 in Hc.
  destruct (of_cents_units c) as [Nd Hd];
    [change (2 ^ 53) with 9007199254740992; lia|].
  change (2 ^ 53) with 9007199254740992 in Hd.
  assert (c * grain < 10000000000 * grain)
    by (apply Z.mul_lt_mono_pos_r; lia).
  apply cents_near; [done| |lia].
  change (2 ^ 40) with 1099511627776. lia.
Qed.

(** What the column keeps of a running total is the exact total. *)
Lemma tracks_cents x E k :
  tracks x E k → E < 10 ^ 10 → k ≤ 10000 → JS.cents x = E.
Proof.
  intros (Nx & _ & HE & Hx) Hlt Hk. pose proof grain_pos as HK.
  change (10 ^ 10) with 10000000000 in Hlt.
  assert (E * grain < 10000000000 * grain)
    by (apply Z.mul_lt_mono_pos_r; lia).
  assert (k * grain ≤ 10000 * grain)
    by (apply Z.mul_le_mono_nonneg_r; lia).
  apply cents_near; [done| |lia].
  change (2 ^ 40) with 1099511627776. lia.
Qed.

(** A running total is in the band. *)
Lemma tracks_band x E k :
  tracks x E k → E < 10 ^ 10 → k ≤ 10000 → in_band (units x).
Proof.
  intros (_ & Hz & HE & Hx) HEb Hk. pose proof grain_pos as HK.
  destruct (Z.eq_dec E 0) as [->|Hne]; [left; by apply Hz|].
  change (10 ^ 10) with 10000000000 in HEb.
  assert (1 * grain ≤ E * grain) by (apply Z.mul_le_mono_nonneg_r; lia).
  assert (E * grain ≤ 10000000000 * grain) by (apply Z.mul_le_mono_nonneg_r; lia).
  assert (k * grain ≤ 10000 * grain) by (apply Z.mul_le_mono_nonneg_r; lia).
  apply in_band_intro; [lia|].
  change (2 ^ 60) with 1152921504606846976. lia.
Qed.

(** One turn of the validation loop: the line total [price * quantity] is
    added to the running total. *)
Lemma tracks_step x E k c q :
  tracks x E k →
  0 ≤ c < 10 ^ 10 → 0 < q < 2 ^ 31 →
  E + c * q < 10 ^ 10 → k < 10000 →
  let t := PrimFloat.mul (JS.of_cents c) (JS.of_Z q) in
  tracks (PrimFloat.add x t) (E + c * q) (k + 1) ∧ tracks t (c * q) 1.
Proof.
  intros Hx Hc Hq HE Hk t. pose proof grain_pos as HK.
  assert (Hcq : 0 ≤ c * q) by (apply Z.mul_nonneg_nonneg; lia).
  pose proof (tracks_band x E k Hx ltac:(lia) ltac:(lia)) as Bx.
  destruct Hx as (Nx & Hz & HE0 & Hx).
  change (10 ^ 10) with 10000000000 in *.
  change (2 ^ 31) with 2147483648 in *.
  destruct (of_cents_units c) as [Nd Hd];
    [change (2 ^ 53) with 9007199254740992; lia|].
  destruct (of_Z_units q) as [Nq Uq];
    [change (2 ^ 53) with 9007199254740992; lia|].
  assert (Bq : in_band (units (JS.of_Z q)))
    by (apply of_Z_band; change (2 ^ 53) with 9007199254740992; lia).
  set (ud := units (JS.of_cents c)) in *.
  change (2 ^ 53) with 9007199254740992 in *.
  assert (HcK : c * grain ≤ 10000000000 * grain)
    by (apply Z.mul_le_mono_nonneg_r; lia).
  assert (Bd : in_band ud).
  { destruct (Z.eq_dec c 0) as [->|Hne]; [left; lia|].
    assert (1 * grain ≤ c * grain) by (apply Z.mul_le_mono_nonneg_r; lia).
    apply in_band_intro; [lia|].
    change (2 ^ 60) with 1152921504606846976. lia. }
  destruct (mul_units (JS.of_cents c) (JS.of_Z q) Nd Nq Bd Bq) as [Nt Ht].
  fold t in Nt, Ht. fold ud in Ht. rewrite Uq in Ht.
  change (2 ^ 53) with 9007199254740992 in Ht.
  set (ut := units t) in *.
  replace (ut * grain - ud * (q * grain)) with ((ut - ud * q) * grain) in Ht by lia.
  rewrite Z.abs_mul, (Z.abs_eq grain) in Ht by lia.
  replace (ud * (q * grain)) with (ud * q * grain) in Ht by lia.
  rewrite Z.mul_assoc in Ht. apply Z.mul_le_mono_pos_r in Ht; [|done].
  (* the price error, scaled by the quantity *)
  assert (Hdq : 9007199254740992 * Z.abs (100 * (ud * q) - c * q * grain)
                ≤ c * q * grain).
  { replace (100 * (ud * q) - c * q * grain) with ((100 * ud - c * grain) * q) by lia.
    rewrite Z.abs_mul, (Z.abs_eq q), Z.mul_assoc by lia.
    replace (c * q * grain) with (c * grain * q) by lia.
    apply Z.mul_le_mono_nonneg_r; lia. }
  set (X := ud * q) in *. set (Y := c * q * grain) in *.
  assert (HY0 : 0 ≤ Y) by (unfold Y; apply Z.mul_nonneg_nonneg; nia).
  assert (HEK0 : 0 ≤ E * grain) by (apply Z.mul_nonneg_nonneg; lia).
  assert (HEKY : E * grain + Y < 10000000000 * grain).
  { replace (E * grain + Y) with ((E + c * q) * grain) by (unfold Y; lia).
    apply Z.mul_lt_mono_pos_r; lia. }
  assert (HkK : 0 ≤ k * grain ≤ 10000 * grain).
  { assert (0 ≤ k * grain) by lia.
    split; [done|]. apply Z.mul_le_mono_nonneg_r; lia. }
  assert (Hnear : 100000 * Z.abs (100 * ut - Y) ≤ grain) by lia.
  assert (Bt : in_band ut).
  { destruct (Z.eq_dec c 0) as [->|Hne].
    - left. unfold Y in *. lia.
    - assert (1 * grain ≤ Y).
      { unfold Y. apply Z.mul_le_mono_nonneg_r; [lia|]. nia. }
      apply in_band_intro; [lia|].
      change (2 ^ 60) with 1152921504606846976. lia. }
  destruct (add_units x t Nx Nt Bx Bt) as [Ns Hs]. fold ut in Hs.
  change (2 ^ 53) with 9007199254740992 in Hs.
  set (us := units (PrimFloat.add x t)) in *.
  assert (HYd : c * q * grain = Y) by reflexivity.
  assert (HY : c * q = 0 → Y = 0) by (intros H0; rewrite <- HYd, H0; lia).
  unfold tracks. fold ut us. clearbody X Y ut us.
  split; split; [done| |done|]; (split; [|split; [lia|]]).
  - intros H0. assert (E = 0) by lia.
    assert (Y = 0) by (apply HY; lia).
    assert (units x = 0) by auto. lia.
  - replace ((E + c * q) * grain) with (E * grain + Y)
      by (rewrite <- HYd; lia).
    replace ((k + 1) * grain) with (k * grain + grain) by lia. lia.
  - intros H0. assert (Y = 0) by auto. lia.
  - rewrite HYd. lia.
Qed.

(** ** The cart: what the validation loop accepts and what it collects *)

Lemma line_okb_true db l :
  line_okb db l = true ↔
  product_id l ≠ "" ∧ 0 < line_quantity l ∧
  ∃ p, products db !! product_id l = Some p ∧ line_quantity l ≤ stock p.
Proof.
  unfold line_okb, JS.truthy.
  rewrite !andb_true_iff, bool_decide_eq_true, Z.ltb_lt.
  destruct (products db !! product_id l) as [p|].
  - rewrite Z.leb_le. split.
    + intros [[? ?] ?]. eauto.
    + intros (? & ? & q & [= <-] & ?). auto.
  - split; [intros [_ ?]; discriminate | intros (_ & _ & q & ? & _); discriminate].
Qed.

Lemma check_items_state items : ∀ t ds db r db',
  check_items items t ds db = (r, db') → db' = db.
Proof.
  induction items as [|l items IH]; intros t ds db r db'; simpl.
  - handler_unfold. congruence.
  - destruct (_ || _); [handler_unfold; congruence|].
    handler_unfold.
    destruct (products db !! product_id l) as [p|]; [|congruence].
    destruct (stock p <? line_quantity l); [congruence|].
    apply IH.
Qed.

Lemma check_items_pass items : ∀ t ds db,
  forallb (line_okb db) items = true →
  check_items items t ds db
  = (inr (accumulate t (cart_details db items), ds ++ cart_details db items),
     db).
Proof.
  induction items as [|l items IH]; intros t ds db Hok; simpl.
  - handler_unfold. by rewrite app_nil_r.
  - simpl in Hok. apply andb_true_iff in Hok as [Hl Hok].
    apply line_okb_true in Hl as (Hid & Hq & p & Hp & Hs).
    unfold cart_details, line_detail, JS.truthy. simpl.
    rewrite bool_decide_true by done. simpl.
    destruct (line_quantity l =? 0) eqn:E0; [apply Z.eqb_eq in E0; lia|].
    destruct (line_quantity l <=? 0) eqn:E1; [apply Z.leb_le in E1; lia|].
    simpl. handler_unfold. rewrite Hp. simpl.
    destruct (stock p <? line_quantity l) eqn:E2; [apply Z.ltb_lt in E2; lia|].
    rewrite IH by done. by rewrite <- app_assoc.
Qed.

Lemma check_items_inr items : ∀ t ds db t' ds' db',
  check_items items t ds db = (inr (t', ds'), db') →
  forallb (line_okb db) items = true.
Proof.
  induction items as [|l items IH]; intros t ds db t' ds' db'; simpl; [done|].
  unfold line_okb at 1, JS.truthy.
  destruct (bool_decide (product_id l ≠ "")); simpl;
    [|handler_unfold; discriminate].
  destruct (line_quantity l =? 0) eqn:E0; simpl; [handler_unfold; discriminate|].
  destruct (line_quantity l <=? 0) eqn:E1; simpl; [handler_unfold; discriminate|].
  handler_unfold.
  destruct (products db !! product_id l) as [p|]; [|discriminate].
  destruct (stock p <? line_quantity l) eqn:E2; [discriminate|].
  intros H. apply IH in H. rewrite H.
  apply Z.leb_gt in E1. apply Z.ltb_ge in E2.
  rewrite andb_true_r, andb_true_iff, Z.ltb_lt, Z.leb_le. lia.
Qed.

(** The loop stops at the first line whose quantity exceeds the stock it
    read, once the lines before it have passed. *)
Lemma check_items_insufficient before : ∀ l after p t ds db,
  forallb (line_okb db) before = true →
  product_id l ≠ "" → 0 < line_quantity l →
  products db !! product_id l = Some p →
  stock p < line_quantity l →
  check_items (before ++ l :: after) t ds db
  = (inl {| http_status := 400;
            body := Error (insufficient_stock_message p) |}, db).
Proof.
  induction before as [|b before IH]; intros l after p t ds db Hok Hid Hq Hp Hs.
  - simpl. unfold JS.truthy. rewrite bool_decide_true by done. simpl.
    destruct (line_quantity l =? 0) eqn:E0; [apply Z.eqb_eq in E0; lia|].
    destruct (line_quantity l <=? 0) eqn:E1; [apply Z.leb_le in E1; lia|].
    simpl. handler_unfold. rewrite Hp.
    destruct (stock p <? line_quantity l) eqn:E2; [done|].
    apply Z.ltb_ge in E2. lia.
  - simpl in Hok. apply andb_true_iff in Hok as [Hb Hok].
    apply line_okb_true in Hb as (Hbid & Hbq & pb & Hpb & Hbs).
    simpl. unfold JS.truthy. rewrite bool_decide_true by done. simpl.
    destruct (line_quantity b =? 0) eqn:E0; [apply Z.eqb_eq in E0; lia|].
    destruct (line_quantity b <=? 0) eqn:E1; [apply Z.leb_le in E1; lia|].
    simpl. handler_unfold. rewrite Hpb.
    destruct (stock pb <? line_quantity b) eqn:E2; [apply Z.ltb_lt in E2; lia|].
    by apply IH.
Qed.

Lemma update_stocks_spec ds : ∀ db,
  update_stocks ds db
  = (inr tt,
     set_products (apply_stock_writes (map detail_write ds) (products db)) db).
Proof.
  induction ds as [|d ds IH]; intros db; simpl.
  - handler_unfold. by destruct db.
  - handler_unfold. simpl. by rewrite IH.
Qed.

Lemma check_items_inl items : ∀ t ds db r db',
  check_items items t ds db = (inl r, db') →
  http_status r = 400 ∨ http_status r = 404.
Proof.
  induction items as [|l items IH]; intros t ds db r db'; simpl.
  - handler_unfold. discriminate.
  - destruct (_ || _); [handler_unfold; intros [= <- _]; auto|].
    handler_unfold.
    destruct (products db !! product_id l) as [p|]; [|intros [= <- _]; auto].
    destruct (stock p <? line_quantity l); [intros [= <- _]; auto|].
    apply IH.
Qed.

Lemma cart_details_cons db l ls :
  line_okb db l = true →
  ∃ p, products db !! product_id l = Some p ∧
       cart_details db (l :: ls)
       = product_detail (product_id l) p (line_quantity l) :: cart_details db ls.
Proof.
  intros (_ & _ & p & Hp & _)%line_okb_true. exists p. split; [done|].
  unfold cart_details, line_detail. simpl. by rewrite Hp.
Qed.

Lemma cart_details_app db l1 l2 :
  cart_details db (l1 ++ l2) = cart_details db l1 ++ cart_details db l2.
Proof. apply omap_app. Qed.

Lemma cart_details_length db items :
  forallb (line_okb db) items = true →
  length (cart_details db items) = length items.
Proof.
  induction items as [|l items IH]; [done|].
  intros Hok. simpl in Hok. apply andb_true_iff in Hok as [Hl Hok].
  destruct (cart_details_cons db l items Hl) as (p & _ & ->).
  simpl. by rewrite IH.
Qed.

Lemma cart_committed_products env user req items first db :
  products (cart_committed env user req items first db)
  = apply_stock_writes (map detail_write (cart_details db items)) (products db).
Proof. reflexivity. Qed.

Lemma post_cart_pass env user req db l ls :
  items req = Some (l :: ls) →
  profile_incomplete (client_profiles db !! auth_id user) = false →
  forallb (line_okb db) (l :: ls) = true →
  orders_insert_error env = false →
  orders db !! new_order_id env = None →
  order_items_insert_error env = false →
  ∃ first rest,
    cart_details db (l :: ls) = first :: rest ∧
    run (post_cart env user req) db
    = (cart_placed env user req (l :: ls) first db,
       cart_committed env user req (l :: ls) first db).
Proof.
  intros Hitems Hprof Hok Hoe Hfresh Hie.
  assert (Hl : line_okb db l = true)
    by (simpl in Hok; by apply andb_true_iff in Hok as [? _]).
  destruct (cart_details_cons db l ls Hl) as (p & Hp & Hd).
  eexists _, _. split; [exact Hd|].
  unfold post_cart, cart_placed, cart_committed. rewrite Hitems.
  handler_unfold. rewrite Hprof, (check_items_pass _ _ _ _ Hok).
  rewrite !Hd.
  generalize (product_detail (product_id l) p (line_quantity l)) as first.
  generalize (cart_details db ls) as rest. intros rest first.
  unfold insert_row. rewrite Hoe. simpl. rewrite Hfresh, Hie.
  handler_unfold. simpl. by rewrite update_stocks_spec.
Qed.

Lemma post_cart_201 env user req db resp db' :
  run (post_cart env user req) db = (resp, db') →
  http_status resp = 201 →
  ∃ l ls,
    items req = Some (l :: ls) ∧
    profile_incomplete (client_profiles db !! auth_id user) = false ∧
    forallb (line_okb db) (l :: ls) = true ∧
    orders_insert_error env = false ∧
    orders db !! new_order_id env = None ∧
    order_items_insert_error env = false.
Proof.
  unfold post_cart.
  destruct (items req) as [[|l ls]|] eqn:Hitems;
    [handler_unfold; intros [= <- _]; discriminate| |
     handler_unfold; intros [= <- _]; discriminate].
  handler_unfold.
  destruct (profile_incomplete _) eqn:Hprof; [intros [= <- _]; discriminate|].
  destruct (check_items (l :: ls) (JS.of_Z 0) [] db)
    as [[r|[t ds]] db1] eqn:Hc.
  - intros [= <- _] Hs. apply check_items_inl in Hc. lia.
  - pose proof (check_items_inr _ _ _ _ _ _ _ Hc) as Hok.
    destruct ds as [|first ds]; [intros [= <- _]; discriminate|].
    unfold insert_row.
    destruct (orders_insert_error env) eqn:Hoe; [intros [= <- _]; discriminate|].
    apply check_items_state in Hc as ->.
    destruct (orders db !! new_order_id env) eqn:Hfresh;
      [intros [= <- _]; discriminate|].
    simpl.
    destruct (order_items_insert_error env) eqn:Hie;
      [intros [= <- _]; discriminate|].
    intros _ _. exists l, ls. auto 10.
Qed.

(** ** Stock writes *)

Lemma cart_writes db items :
  forallb (line_okb db) items = true →
  map detail_write (cart_details db items) = map (line_write db) items.
Proof.
  induction items as [|l items IH]; [done|].
  intros Hok. simpl in Hok. apply andb_true_iff in Hok as [Hl Hok].
  destruct (cart_details_cons db l items Hl) as (p & Hp & ->).
  simpl. rewrite IH by done. f_equal.
  unfold detail_write, line_write, pre_read_stock. simpl. by rewrite Hp.
Qed.

Lemma apply_stock_writes_app ws1 ws2 t :
  apply_stock_writes (ws1 ++ ws2) t
  = apply_stock_writes ws2 (apply_stock_writes ws1 t).
Proof. apply fold_left_app. Qed.

Lemma apply_stock_writes_notin ws : ∀ (t : gmap uuid Product) id,
  id ∉ fst <$> ws → apply_stock_writes ws t !! id = t !! id.
Proof.
  induction ws as [|[k v] ws IH]; intros t id Hid; [done|].
  rewrite fmap_cons, not_elem_of_cons in Hid. destruct Hid as [Hne Hid].
  simpl in *. rewrite IH by done. by rewrite lookup_alter_ne.
Qed.

Lemma apply_stock_writes_some ws : ∀ (t : gmap uuid Product) id P,
  t !! id = Some P →
  ∃ w, apply_stock_writes ws t !! id = Some (set_stock w P).
Proof.
  induction ws as [|[k v] ws IH]; intros t id P Ht.
  - exists (stock P). simpl. rewrite Ht. by destruct P.
  - simpl. destruct (decide (k = id)) as [->|Hne].
    + destruct (IH (alter (set_stock v) id t) id (set_stock v P)) as [w Hw].
      { by rewrite lookup_alter_eq, Ht. }
      exists w. by rewrite Hw.
    + apply IH. by rewrite lookup_alter_ne.
Qed.

(** The last write to a product decides its stock. *)
Lemma apply_stock_writes_last ws1 ws2 (t : gmap uuid Product) id v P :
  t !! id = Some P →
  id ∉ fst <$> ws2 →
  apply_stock_writes (ws1 ++ (id, v) :: ws2) t !! id = Some (set_stock v P).
Proof.
  intros Ht Hid. rewrite apply_stock_writes_app. simpl.
  rewrite apply_stock_writes_notin by done.
  destruct (apply_stock_writes_some ws1 t id P Ht) as [w Hw].
  by rewrite lookup_alter_eq, Hw.
Qed.

Lemma line_write_ids db (items : list CartLine) :
  fst <$> (map (line_write db) items) = product_id <$> items.
Proof. induction items as [|l items IH]; [done|]. simpl. f_equal. exact IH. Qed.

(** ** C1: one line, one product *)

(** C1 (as amended).  A profile-complete client checks out a cart in which
    exactly one line, of positive quantity [Q], names the product [pid] of
    stock [S].  If [Q <= S], every other line passes validation and the
    datastore accepts the two inserts, the answer is 201 and the product's
    stock becomes [S - Q].  If [Q > S] and the lines before it pass
    validation, the answer is 400 with the message naming the product and the
    available quantity, and the store is unchanged. *)
Theorem cart_line_stock env db user req before after pid P Q :
  items req
    = Some (before ++ {| product_id := pid; line_quantity := Q |} :: after) →
  profile_incomplete (client_profiles db !! auth_id user) = false →
  products db !! pid = Some P →
  pid ≠ "" →
  0 < Q →
  pid ∉ product_id <$> (before ++ after) →
  (Q ≤ stock P →
   forallb (line_okb db) (before ++ after) = true →
   orders_insert_error env = false →
   orders db !! new_order_id env = None →
   order_items_insert_error env = false →
   http_status (run (post_cart env user req) db).1 = 201 ∧
   products (run (post_cart env user req) db).2 !! pid
   = Some (set_stock (stock P - Q) P))
  ∧
  (stock P < Q →
   forallb (line_okb db) before = true →
   run (post_cart env user req) db
   = ({| http_status := 400;
         body := Error ("Insufficient stock for " +:+ product_name P
                        +:+ ". Available: " +:+ pretty (stock P)) |}, db)).
Proof.
  intros Hitems Hprof HP Hpid HQ Honly. split.
  - intros HS Hothers Hoe Hfresh Hie.
    set (line := {| product_id := pid; line_quantity := Q |}) in *.
    assert (Hline : line_okb db line = true).
    { apply line_okb_true. simpl. eauto. }
    assert (Hall : forallb (line_okb db) (before ++ line :: after) = true).
    { rewrite forallb_app in Hothers |- *. simpl.
      apply andb_true_iff in Hothers as [-> ->]. by rewrite Hline. }
    destruct (before ++ line :: after) as [|l ls] eqn:E;
      [by destruct before|].
    destruct (post_cart_pass env user req db l ls Hitems Hprof Hall Hoe Hfresh
                Hie) as (first & rest & Hd & ->).
    split; [done|]. cbn [snd]. rewrite cart_committed_products.
    rewrite cart_writes by done. rewrite <- E, map_app. cbn [map].
    unfold line_write at 2. cbn [product_id line_quantity line].
    replace (pre_read_stock db pid) with (stock P)
      by (unfold pre_read_stock; by rewrite HP).
    apply apply_stock_writes_last; [done|].
    rewrite line_write_ids. intros Hin. apply Honly.
    rewrite fmap_app. apply elem_of_app. by right.
  - intros HS Hbefore. unfold post_cart. rewrite Hitems.
    pose proof (check_items_insufficient before
                  {| product_id := pid; line_quantity := Q |} after P
                  (JS.of_Z 0) [] db Hbefore Hpid HQ HP HS) as Hc.
    destruct (before ++ _ :: after) as [|l ls] eqn:E; [by destruct before|].
    handler_unfold. by rewrite Hprof, Hc.
Qed.

(** A two-line cart: two bowls are in stock, and so is the cutlery. *)
Lemma cart_line_stock_witness :
  (http_status
     (run (post_cart demo_env demo_client
             (cart [("p-cutlery", 10); ("p-bowl", 2)])) demo_db).1 = 201 ∧
   products
     (run (post_cart demo_env demo_client
             (cart [("p-cutlery", 10); ("p-bowl", 2)])) demo_db).2 !! "p-bowl"
   = Some (set_stock (350 - 2) eco_bowl))
  ∧
  run (post_cart demo_env demo_client
         (cart [("p-cutlery", 10); ("p-bowl", 351)])) demo_db
  = ({| http_status := 400;
        body := Error ("Insufficient stock for " +:+ product_name eco_bowl
                       +:+ ". Available: " +:+ pretty (stock eco_bowl)) |},
     demo_db).
Proof.
  split.
  - refine (proj1 (cart_line_stock demo_env demo_db demo_client
                     (cart [("p-cutlery", 10); ("p-bowl", 2)])
                     [{| product_id := "p-cutlery"; line_quantity := 10 |}] []
                     "p-bowl" eco_bowl 2 _ _ _ _ _ _) _ _ _ _ _).
    + reflexivity.
    + vm_compute; reflexivity.
    + vm_compute; reflexivity.
    + discriminate.
    + lia.
    + simpl. by intros ?%list_elem_of_singleton.
    + vm_compute; discriminate.
    + vm_compute; reflexivity.
    + reflexivity.
    + vm_compute; reflexivity.
    + reflexivity.
  - refine (proj2 (cart_line_stock demo_env demo_db demo_client
                     (cart [("p-cutlery", 10); ("p-bowl", 351)])
                     [{| product_id := "p-cutlery"; line_quantity := 10 |}] []
                     "p-bowl" eco_bowl 351 _ _ _ _ _ _) _ _).
    + reflexivity.
    + vm_compute; reflexivity.
    + vm_compute; reflexivity.
    + discriminate.
    + lia.
    + simpl. by intros ?%list_elem_of_singleton.
    + vm_compute; reflexivity.
    + vm_compute; reflexivity.
Defined.

(** C1 as stated fails when another line of the cart is refused: two bowls
    are in stock, yet the checkout answers 404 for the unknown second
    product and the bowls' stock stays at 350. *)
Lemma cart_line_stock_counterexample :
  products demo_db !! "p-bowl" = Some eco_bowl ∧
  2 ≤ stock eco_bowl ∧
  profile_incomplete (client_profiles demo_db !! auth_id demo_client) = false ∧
  run (post_cart demo_env demo_client
         (cart [("p-bowl", 2); ("p-unknown", 1)])) demo_db
  = ({| http_status := 404; body := Error "Product not found: p-unknown" |},
     demo_db).
Proof. repeat split; vm_compute; congruence. Qed.

(** ** C3: several lines for one product *)

Lemma line_passes_okb db l : line_passes db l ↔ line_okb db l = true.
Proof.
  rewrite line_okb_true. unfold line_passes, pre_read_stock.
  split.
  - intros (? & ? & [p Hp] & Hle). rewrite Hp in Hle. eauto.
  - intros (? & ? & p & Hp & Hle). rewrite Hp. eauto.
Qed.

(** C3.  Every line of a cart is checked on its own against the stock its
    product had before the checkout, whatever the other lines took: a
    checkout by a profile-complete client whose inserts the datastore
    accepts is answered 201 as soon as each line passes that check, also
    when the lines naming one product together ask for more than its stock;
    and a checkout is answered 201 only if each line passes it.  After a 201
    the stock column is what the writes [pre-read stock - own quantity], one
    per line and in cart order, leave, so a product's stock ends as its
    original stock less the quantity of the last line naming it, not less
    the sum. *)
Theorem cart_duplicate_lines env db user req :
  (∀ lines,
     items req = Some lines → lines ≠ [] →
     profile_incomplete (client_profiles db !! auth_id user) = false →
     orders_insert_error env = false →
     orders db !! new_order_id env = None →
     order_items_insert_error env = false →
     (∀ l, l ∈ lines → line_passes db l) →
     http_status (run (post_cart env user req) db).1 = 201) ∧
  (http_status (run (post_cart env user req) db).1 = 201 →
   ∃ lines,
     items req = Some lines ∧
     (∀ l, l ∈ lines → line_passes db l) ∧
     products (run (post_cart env user req) db).2
     = apply_stock_writes (map (line_write db) lines) (products db) ∧
     (∀ before last after P,
        lines = before ++ last :: after →
        product_id last ∉ product_id <$> after →
        products db !! product_id last = Some P →
        products (run (post_cart env user req) db).2 !! product_id last
        = Some (set_stock (stock P - line_quantity last) P))).
Proof.
  split.
  - intros [|l ls] Hitems Hne Hprof Hoe Hfresh Hie Hpass; [done|].
    assert (Hok : forallb (line_okb db) (l :: ls) = true).
    { apply forallb_forall. intros x Hx%list_elem_of_In.
      by apply line_passes_okb, Hpass. }
    destruct (post_cart_pass env user req db l ls Hitems Hprof Hok Hoe Hfresh
                Hie) as (first & rest & _ & ->).
    done.
  - intros Hs.
    destruct (post_cart_201 env user req db _ _
                (surjective_pairing (run (post_cart env user req) db)) Hs)
      as (l & ls & Hitems & Hprof & Hok & Hoe & Hfresh & Hie).
    destruct (post_cart_pass env user req db l ls Hitems Hprof Hok Hoe Hfresh
                Hie) as (first & rest & Hd & Hrun').
    rewrite Hrun'. cbn [snd].
    exists (l :: ls). split; [done|].
    rewrite cart_committed_products, cart_writes by done.
    split; [|split; [done|]].
    + intros x Hx. apply line_passes_okb.
      rewrite forallb_forall in Hok. apply Hok. by apply list_elem_of_In.
    + intros before last after P -> Hlast HP.
      rewrite map_app. cbn [map]. unfold line_write at 2.
      replace (pre_read_stock db (product_id last)) with (stock P)
        by (unfold pre_read_stock; by rewrite HP).
      apply apply_stock_writes_last; [done|]. by rewrite line_write_ids.
Qed.

(** Five straws in stock, a cart asking for three and then for three again:
    each line passes the check against five, the checkout is answered 201,
    and the stock ends at two. *)
Lemma cart_duplicate_lines_witness :
  let req := cart [("p-straw", 3); ("p-straw", 3)] in
  http_status (run (post_cart demo_env demo_client req) demo_db).1 = 201 ∧
  ∃ lines,
    items req = Some lines ∧
    (∀ l, l ∈ lines → line_passes demo_db l) ∧
    products (run (post_cart demo_env demo_client req) demo_db).2
    = apply_stock_writes (map (line_write demo_db) lines) (products demo_db) ∧
    (∀ before last after P,
       lines = before ++ last :: after →
       product_id last ∉ product_id <$> after →
       products demo_db !! product_id last = Some P →
       products (run (post_cart demo_env demo_client req) demo_db).2
         !! product_id last
       = Some (set_stock (stock P - line_quantity last) P)).
Proof.
  intros req.
  assert (Hs : http_status (run (post_cart demo_env demo_client req) demo_db).1
               = 201).
  { refine (proj1 (cart_duplicate_lines demo_env demo_db demo_client req)
              [ {| product_id := "p-straw"; line_quantity := 3 |};
                {| product_id := "p-straw"; line_quantity := 3 |} ]
              _ _ _ _ _ _ _).
    - reflexivity.
    - discriminate.
    - vm_compute; reflexivity.
    - reflexivity.
    - vm_compute; reflexivity.
    - reflexivity.
    - intros l Hl. apply list_elem_of_In in Hl. simpl in Hl.
      destruct Hl as [<-|[<-|[]]];
        (split; [discriminate|]); (split; [reflexivity|]);
        (split; [by eexists|]); vm_compute; discriminate. }
  split; [exact Hs|].
  exact (proj2 (cart_duplicate_lines demo_env demo_db demo_client req) Hs).
Defined.

Example cart_duplicate_lines_stock :
  let out := run (post_cart demo_env demo_client
                    (cart [("p-straw", 3); ("p-straw", 3)])) demo_db in
  http_status out.1 = 201 ∧
  stock <$> products out.2 !! "p-straw" = Some 2.
Proof. split; vm_compute; reflexivity. Qed.

(** ** C2: the rows a checkout creates, and its amount *)

Lemma cart_quantity db items : ∀ start,
  forallb (line_okb db) items = true →
  fold_left (λ sum item, sum + pd_quantity item) (cart_details db items) start
  = fold_left (λ sum l, sum + line_quantity l) items start.
Proof.
  induction items as [|l items IH]; intros start Hok; [done|].
  simpl in Hok. apply andb_true_iff in Hok as [Hl Hok].
  destruct (cart_details_cons db l items Hl) as (p & Hp & ->).
  simpl. by apply IH.
Qed.

Lemma tracks_zero : tracks (JS.of_Z 0) 0 0.
Proof.
  destruct (of_Z_units 0) as [N U]; [done|].
  split; [done|]. split; [intros _; by rewrite U|]. split; [done|].
  rewrite U. simpl. lia.
Qed.

Lemma priced_cents d :
  priced d →
  ∃ c, 0 ≤ c < 10 ^ 10 ∧ pd_unit_price d = JS.of_cents c ∧
       JS.cents (pd_unit_price d) = c.
Proof.
  intros ((c & Hc & Hu) & _). exists c. do 2 (split; [done|]).
  rewrite Hu. by apply cents_of_cents.
Qed.

Lemma detail_cents_nonneg details :
  Forall priced details → 0 ≤ detail_cents details.
Proof.
  induction 1 as [|d ds Hd _ IH]; [done|].
  destruct (priced_cents d Hd) as (c & Hc & _ & Hcd).
  destruct Hd as (_ & Hq & _).
  cbn [detail_cents foldr]. fold (detail_cents ds). rewrite Hcd. nia.
Qed.

(** The validation loop's running total, over details of catalogue
    products: it stays within a small fraction of a hundredth of the exact
    total. *)
Lemma accumulate_tracks details : ∀ x E k,
  Forall priced details → tracks x E k →
  E + detail_cents details < 10 ^ 10 →
  k + Z.of_nat (length details) ≤ 10000 →
  tracks (accumulate x details) (E + detail_cents details)
    (k + Z.of_nat (length details)).
Proof.
  induction details as [|d ds IH]; intros x E k Hp Hx HE Hk.
  - cbn. by rewrite !Z.add_0_r.
  - apply Forall_cons in Hp as [Hd Hds].
    destruct (priced_cents d Hd) as (c & Hc & Hu & Hcd).
    pose proof (detail_cents_nonneg ds Hds) as Hnn.
    destruct Hd as (_ & Hq & Ht).
    cbn [detail_cents foldr] in HE |- *. fold (detail_cents ds) in HE |- *.
    rewrite Hcd in HE |- *.
    cbn [length] in Hk |- *. rewrite Nat2Z.inj_succ in Hk |- *.
    unfold accumulate. cbn [fold_left]. fold (accumulate
      (PrimFloat.add x (pd_total_price d)) ds).
    rewrite Ht, Hu.
    destruct (tracks_step x E k c (pd_quantity d) Hx Hc Hq) as [Hstep _];
      [lia|lia|].
    replace (E + (c * pd_quantity d + detail_cents ds))
      with (E + c * pd_quantity d + detail_cents ds) by lia.
    replace (k + Z.succ (Z.of_nat (length ds)))
      with (k + 1 + Z.of_nat (length ds)) by lia.
    apply IH; [done|done|lia|lia].
Qed.

(** What the [DECIMAL(10,2)] columns keep of a detail's two prices. *)
Lemma priced_stored d :
  priced d →
  JS.cents (pd_unit_price d) * pd_quantity d < 10 ^ 10 →
  JS.numeric_10_2 (pd_unit_price d) = pd_unit_price d ∧
  JS.numeric_10_2 (pd_total_price d)
  = JS.of_cents (JS.cents (pd_unit_price d) * pd_quantity d).
Proof.
  intros Hd Hlt. destruct (priced_cents d Hd) as (c & Hc & Hu & Hcd).
  destruct Hd as (_ & Hq & Ht). rewrite Hcd in Hlt |- *.
  unfold JS.numeric_10_2. rewrite Hcd. split; [by rewrite Hu|].
  destruct (tracks_step (JS.of_Z 0) 0 0 c (pd_quantity d) tracks_zero Hc Hq)
    as [_ Htr]; [lia|lia|].
  rewrite Ht, Hu. f_equal. apply (tracks_cents _ _ 1); [done|done|lia].
Qed.

Lemma accumulate_stored details :
  Forall priced details →
  Z.of_nat (length details) ≤ 10000 →
  detail_cents details < 10 ^ 10 →
  JS.numeric_10_2 (accumulate (JS.of_Z 0) details)
  = JS.of_cents (detail_cents details).
Proof.
  intros Hp Hlen Hlt.
  pose proof (accumulate_tracks details (JS.of_Z 0) 0 0 Hp tracks_zero)
    as Htr.
  rewrite !Z.add_0_l in Htr.
  unfold JS.numeric_10_2. f_equal.
  apply (tracks_cents _ _ (Z.of_nat (length details))); [|done|done].
  apply Htr; lia.
Qed.

Lemma cart_details_priced db lines :
  catalogue_typed db →
  forallb (line_okb db) lines = true →
  Forall priced (cart_details db lines) ∧
  detail_cents (cart_details db lines) = cart_cents db lines.
Proof.
  intros Hcat. induction lines as [|l lines IH]; intros Hok; [by split|].
  simpl in Hok. apply andb_true_iff in Hok as [Hl Hok].
  destruct (IH Hok) as [IH1 IH2].
  destruct (cart_details_cons db l lines Hl) as (p & Hp & ->).
  apply line_okb_true in Hl as (_ & Hq & p' & Hp' & Hle).
  assert (p' = p) as -> by congruence.
  destruct (Hcat _ _ Hp) as [Hprice Hstock]. split.
  - constructor; [|done]. split; [exact Hprice|]. split; [|done].
    cbn [pd_quantity product_detail]. lia.
  - cbn [detail_cents cart_cents foldr]. fold (detail_cents (cart_details db lines)).
    fold (cart_cents db lines). rewrite Hp, IH2. done.
Qed.

Lemma cart_rows id db items :
  forallb (line_okb db) items = true →
  Forall2 (row_of_line db) items
    (map stored_item (map (order_item_of id) (cart_details db items))).
Proof.
  induction items as [|l items IH]; intros Hok; [constructor|].
  simpl in Hok. apply andb_true_iff in Hok as [Hl Hok].
  destruct (cart_details_cons db l items Hl) as (p & Hp & ->).
  simpl. constructor; [|by apply IH].
  unfold row_of_line. simpl. do 2 (split; [done|]). by exists p.
Qed.

Lemma cart_rows_exact id db items :
  catalogue_typed db →
  forallb (line_okb db) items = true →
  cart_cents db items < 10 ^ 10 →
  Forall2 (row_exact db) items
    (map stored_item (map (order_item_of id) (cart_details db items)))
  ∧ cents_total
      (map stored_item (map (order_item_of id) (cart_details db items)))
    = cart_cents db items.
Proof.
  intros Hcat. induction items as [|l items IH]; intros Hok Hlt;
    [split; [constructor|done]|].
  destruct (cart_details_priced db (l :: items) Hcat Hok) as [Hp Hsum].
  simpl in Hok. apply andb_true_iff in Hok as [Hl Hok].
  destruct (cart_details_priced db items Hcat Hok) as [Hp' Hsum'].
  pose proof (detail_cents_nonneg _ Hp') as Hnn. rewrite Hsum' in Hnn.
  destruct (cart_details_cons db l items Hl) as (p & Hpl & Hd).
  rewrite Hd in Hp |- *. apply Forall_cons in Hp as [Hpd _].
  cbn [cart_cents foldr] in Hlt. fold (cart_cents db items) in Hlt.
  rewrite Hpl in Hlt. cbn [from_option] in Hlt.
  destruct (priced_cents _ Hpd) as (c & Hc & _ & Hcd).
  assert (Hq : 0 < line_quantity l) by (by destruct Hpd as (_ & [? _] & _)).
  cbn [pd_unit_price product_detail] in Hcd.
  destruct (priced_stored _ Hpd) as [Hunit Htotal].
  { cbn [pd_unit_price pd_quantity product_detail]. rewrite Hcd in *. nia. }
  cbn [pd_unit_price pd_quantity pd_total_price product_detail] in Hunit, Htotal.
  destruct IH as [IH1 IH2]; [done|rewrite Hcd in Hlt; nia|].
  split.
  - cbn [map]. constructor; [|done].
    exists p. split; [done|].
    cbn [unit_price total_price item_quantity stored_item order_item_of
         pd_unit_price pd_quantity pd_total_price product_detail].
    rewrite Hunit. by split.
  - cbn [map cents_total foldr cart_cents]. fold (cart_cents db items).
    fold (cents_total
            (map stored_item (map (order_item_of id) (cart_details db items)))).
    rewrite IH2, Hpl.
    cbn [unit_price item_quantity stored_item order_item_of
         pd_unit_price pd_quantity product_detail from_option].
    by rewrite Hunit.
Qed.

(** C2.  A successful checkout of [N] lines adds exactly one order row,
    under a fresh id, and exactly [N] item rows, all referencing it; each
    row records its line's product and quantity and, to the hundredth, the
    product's price; the order's quantity is the sum of the line quantities.
    When the catalogue holds what its columns admit (two-decimal prices that
    are not negative, integer stocks) and the cart is one the server can be
    sent and the [amount] column can hold (at most 10000 lines, worth less
    than [10^8]), the [DECIMAL(10,2)] columns turn the doubles the handler
    computes into the exact values: every row's unit price is the product's
    price, its total is unit price times quantity, and the order's amount is
    the sum over the rows of unit price times quantity, in exact arithmetic
    on hundredths, with no rounding drift. *)
Theorem cart_checkout_rows env db user req resp db' :
  run (post_cart env user req) db = (resp, db') →
  http_status resp = 201 →
  ∃ lines id order rows,
    items req = Some lines ∧
    orders db !! id = None ∧
    orders db' = <[id := order]> (orders db) ∧
    order_items db' = order_items db ++ rows ∧
    length rows = length lines ∧
    Forall (λ r, order_id r = id) rows ∧
    Forall2 (row_of_line db) lines rows ∧
    order_quantity order = fold_left (λ sum l, sum + line_quantity l) lines 0 ∧
    (catalogue_typed db → cart_within db req →
     Forall2 (row_exact db) lines rows ∧
     amount order = JS.of_cents (cents_total rows)).
Proof.
  intros Hrun Hs.
  destruct (post_cart_201 env user req db resp db' Hrun Hs)
    as (l & ls & Hitems & Hprof & Hok & Hoe & Hfresh & Hie).
  destruct (post_cart_pass env user req db l ls Hitems Hprof Hok Hoe Hfresh Hie)
    as (first & rest & Hd & Hrun').
  rewrite Hrun' in Hrun. injection Hrun as _ <-.
  exists (l :: ls), (new_order_id env).
  eexists _, (map stored_item
                (map (order_item_of (new_order_id env))
                   (cart_details db (l :: ls)))).
  split; [done|]. split; [done|]. split; [reflexivity|]. split; [reflexivity|].
  split; [by rewrite !length_map, cart_details_length|].
  split; [by apply Forall_map, Forall_map, Forall_true|].
  split; [by apply cart_rows|].
  split; [by apply cart_quantity|].
  intros Hcat Hwithin. destruct (Hwithin _ Hitems) as [Hlen Hlt].
  destruct (cart_rows_exact (new_order_id env) db (l :: ls) Hcat Hok Hlt)
    as [Hrows Htotal].
  split; [done|]. rewrite Htotal.
  destruct (cart_details_priced db (l :: ls) Hcat Hok) as [Hp Hsum].
  cbn [amount stored_order cart_order]. rewrite <- Hsum.
  apply accumulate_stored; [done| |by rewrite Hsum].
  by rewrite cart_details_length.
Qed.

Lemma demo_db_catalogue : catalogue_typed demo_db.
Proof.
  intros id P HP. unfold demo_db in HP. cbn [products] in HP.
  apply lookup_insert_Some in HP as [[_ <-]|[_ HP]];
    [split; [exists 3500; by split|done]|].
  apply lookup_insert_Some in HP as [[_ <-]|[_ HP]];
    [split; [exists 2500; by split|done]|].
  apply lookup_insert_Some in HP as [[_ <-]|[_ HP]];
    [split; [exists 5500; by split|done]|].
  apply lookup_insert_Some in HP as [[_ <-]|[_ HP]];
    [split; [exists 10; by split|done]|].
  done.
Defined.

(** Three straws at 0.10, two bowls and one more straw, on the sample
    catalogue: the rows are exact and the amount is their exact sum. *)
Lemma cart_checkout_rows_witness :
  let req := cart [("p-straw", 3); ("p-bowl", 2); ("p-straw", 1)] in
  let db' := (run (post_cart demo_env demo_client req) demo_db).2 in
  ∃ lines id order rows,
    items req = Some lines ∧
    orders demo_db !! id = None ∧
    orders db' = <[id := order]> (orders demo_db) ∧
    order_items db' = order_items demo_db ++ rows ∧
    length rows = length lines ∧
    Forall (λ r, order_id r = id) rows ∧
    Forall2 (row_of_line demo_db) lines rows ∧
    order_quantity order = fold_left (λ sum l, sum + line_quantity l) lines 0 ∧
    Forall2 (row_exact demo_db) lines rows ∧
    amount order = JS.of_cents (cents_total rows).
Proof.
  intros req db'.
  destruct (cart_checkout_rows demo_env demo_db demo_client req
              (run (post_cart demo_env demo_client req) demo_db).1 db')
    as (lines & id & order & rows & H1 & H2 & H3 & H4 & H5 & H6 & H7 & H8
        & Hexact).
  - apply surjective_pairing.
  - vm_compute; reflexivity.
  - exists lines, id, order, rows. do 8 (split; [assumption|]).
    apply Hexact; [exact demo_db_catalogue|].
    intros ls [= <-]. split; [simpl; lia|vm_compute; reflexivity].
Defined.

(** On that cart the handler's double sum is 70.39999999999999, one unit
    in the last place below the double of 70.40; the order is stored, and
    answered, with 70.40, the exact sum.  The row of the three straws is
    stored with 0.30 where the handler computed 0.30000000000000004. *)
Example cart_amount_values :
  let lines := [("p-straw", 3); ("p-bowl", 2); ("p-straw", 1)] in
  let out := run (post_cart demo_env demo_client (cart lines)) demo_db in
  cart_within demo_db (cart lines) ∧
  http_status out.1 = 201 ∧
  (∀ details, items (cart lines) = Some details →
     Prim2SF (accumulate (JS.of_Z 0) (cart_details demo_db details))
     = S754_finite false 4953959590107545 (-46)) ∧
  Prim2SF (decimal 7040) = S754_finite false 4953959590107546 (-46) ∧
  Prim2SF (PrimFloat.mul (decimal 10) (JS.of_Z 3))
  = S754_finite false 5404319552844596 (-54) ∧
  Prim2SF (decimal 30) = S754_finite false 5404319552844595 (-54) ∧
  ∃ order first rest,
    orders out.2 !! "o-1" = Some order ∧
    order_items out.2 = first :: rest ∧
    amount order = decimal 7040 ∧
    total_price first = decimal 30.
Proof.
  split.
  { intros ls [= <-]. split; [simpl; lia|vm_compute; reflexivity]. }
  split; [vm_compute; reflexivity|].
  split; [intros details [= <-]; vm_compute; reflexivity|].
  do 3 (split; [vm_compute; reflexivity|]).
  eexists _, _, _. split; [vm_compute; reflexivity|].
  split; [vm_compute; reflexivity|]. split; vm_compute; reflexivity.
Qed.

(** No rollback: when the datastore takes the order row and then refuses the
    item rows, the answer is 500 and the order row stays. *)
Example cart_items_refused_keeps_order :
  let out := run (post_cart refusing_items_env demo_client
                    (cart [("p-bowl", 2)])) demo_db in
  out.1 = {| http_status := 500; body := Error "Failed to create order" |} ∧
  is_Some (orders out.2 !! "o-1") ∧
  order_items out.2 = [] ∧
  products out.2 = products demo_db.
Proof.
  split; [vm_compute; reflexivity|].
  split; [eexists; vm_compute; reflexivity|].
  split; vm_compute; reflexivity.
Qed.

(** ** C4: the profile gate *)

Lemma falsy_field_empty f : field_empty f → falsy_field f = true.
Proof. by intros [-> | ->]. Qed.

(** C4 (as amended).  When the request carries a non-empty [items] array and
    the client's profile is missing or has one of its five fields empty, the
    checkout answers 400 with the [profileIncomplete] flag and changes
    nothing, whatever the cart lines are.  When [items] is absent or empty,
    the checkout answers 400 with the plain error, without the flag, and
    changes nothing, whoever the client and whatever the profile: that test
    comes before the profile is read. *)
Theorem cart_profile_incomplete env db user req :
  (∀ l ls,
     items req = Some (l :: ls) →
     (client_profiles db !! auth_id user = None ∨
      ∃ p, client_profiles db !! auth_id user = Some p ∧
           (field_empty (phone p) ∨ field_empty (city p)
            ∨ field_empty (district p) ∨ field_empty (state p)
            ∨ field_empty (address_line p))) →
     run (post_cart env user req) db
     = ({| http_status := 400;
           body := ProfileIncomplete
                     "Please complete your profile before placing an order" |},
        db)) ∧
  (items req = None ∨ items req = Some [] →
   run (post_cart env user req) db
   = ({| http_status := 400; body := Error "Cart items are required" |}, db)).
Proof.
  split.
  - intros l ls Hitems Hprofile.
    assert (Hinc : profile_incomplete (client_profiles db !! auth_id user)
                   = true).
    { destruct Hprofile as [-> | (p & -> & Hp)]; [done|]. simpl.
      destruct Hp as [H|[H|[H|[H|H]]]]; apply falsy_field_empty in H;
        rewrite H; by rewrite ?orb_true_r. }
    unfold post_cart. rewrite Hitems. handler_unfold. by rewrite Hinc.
  - unfold post_cart. by intros [-> | ->].
Qed.

(** A client without a profile: with a cart whose only line is not even
    valid, and with an empty cart. *)
Lemma cart_profile_incomplete_witness :
  run (post_cart demo_env demo_guest (cart [("", -1)])) demo_db
  = ({| http_status := 400;
        body := ProfileIncomplete
                  "Please complete your profile before placing an order" |},
     demo_db) ∧
  run (post_cart demo_env demo_guest (cart [])) demo_db
  = ({| http_status := 400; body := Error "Cart items are required" |},
     demo_db).
Proof.
  split.
  - refine (proj1 (cart_profile_incomplete demo_env demo_db demo_guest
                     (cart [("", -1)]))
              {| product_id := ""; line_quantity := -1 |} [] _ _).
    + reflexivity.
    + left. vm_compute; reflexivity.
  - refine (proj2 (cart_profile_incomplete demo_env demo_db demo_guest
                     (cart [])) _).
    right. reflexivity.
Defined.

(** C4 as stated fails for an empty or absent [items]: the items test comes
    first, and the same client is answered with the plain validation error,
    without the flag. *)
Lemma cart_profile_incomplete_counterexample :
  client_profiles demo_db !! auth_id demo_guest = None ∧
  run (post_cart demo_env demo_guest (cart [])) demo_db
  = ({| http_status := 400; body := Error "Cart items are required" |},
     demo_db) ∧
  run (post_cart demo_env demo_guest
         {| items := None; cart_delivery_date := "" |}) demo_db
  = ({| http_status := 400; body := Error "Cart items are required" |},
     demo_db).
Proof. repeat split; vm_compute; reflexivity. Qed.

(** ** C10: the single-product order *)

Lemma post_order_client_profiles env user req db profiles :
  run (post_order env user req) (set_client_profiles profiles db)
  = ((run (post_order env user req) db).1,
     set_client_profiles profiles (run (post_order env user req) db).2).
Proof.
  unfold post_order. handler_unfold.
  destruct (_ || _); [done|]. simpl.
  destruct (products db !! ob_product_id req) as [p|]; [|done].
  destruct (stock p <? ob_quantity req); [done|].
  unfold insert_row. simpl.
  destruct (orders_insert_error env); [done|].
  by destruct (orders db !! new_order_id env).
Qed.

(** C10.  The single-product order never answers with the
    [profileIncomplete] body; its answer does not depend on the
    [client_profiles] table, which it leaves as it is; and a client whose
    profile is missing or incomplete, whom the cart checkout turns away, gets
    201 for a product in stock when the datastore accepts the insert. *)
Theorem post_order_ignores_profile env user req db :
  (∀ msg, body (run (post_order env user req) db).1 ≠ ProfileIncomplete msg) ∧
  (∀ profiles,
     run (post_order env user req) (set_client_profiles profiles db)
     = ((run (post_order env user req) db).1,
        set_client_profiles profiles (run (post_order env user req) db).2)) ∧
  (∀ p,
     profile_incomplete (client_profiles db !! auth_id user) = true →
     ob_product_id req ≠ "" →
     ob_quantity req ≠ 0 →
     products db !! ob_product_id req = Some p →
     ob_quantity req ≤ stock p →
     orders_insert_error env = false →
     orders db !! new_order_id env = None →
     http_status (run (post_order env user req) db).1 = 201 ∧
     products (run (post_order env user req) db).2 !! ob_product_id req
     = Some (set_stock (stock p - ob_quantity req) p)).
Proof.
  split; [|split].
  - intros msg. unfold post_order. handler_unfold.
    destruct (_ || _); [done|]. simpl.
    destruct (products db !! ob_product_id req) as [p|]; [|done].
    destruct (stock p <? ob_quantity req); [done|].
    unfold insert_row.
    destruct (orders_insert_error env); [done|].
    by destruct (orders db !! new_order_id env).
  - apply post_order_client_profiles.
  - intros p _ Hid Hq Hp Hs Hoe Hfresh.
    unfold post_order, JS.truthy. handler_unfold.
    rewrite bool_decide_true by done.
    destruct (ob_quantity req =? 0) eqn:E0; [apply Z.eqb_eq in E0; lia|].
    simpl. rewrite Hp.
    destruct (stock p <? ob_quantity req) eqn:E1; [apply Z.ltb_lt in E1; lia|].
    unfold insert_row. rewrite Hoe, Hfresh. simpl.
    by rewrite lookup_alter_eq, Hp.
Qed.

Example post_order_without_profile :
  client_profiles demo_db !! auth_id demo_guest = None ∧
  http_status
    (run (post_order demo_env demo_guest
            {| ob_product_id := "p-box"; ob_quantity := 4;
               ob_delivery_date := "2025-12-01" |}) demo_db).1 = 201.
Proof. split; vm_compute; reflexivity. Qed.

(** ** Production records *)

Lemma updateClusterUtilization_spec env id db :
  updateClusterUtilization env id db
  = (inr tt,
     match clusters db !! id with
     | Some c =>
         set_clusters
           (alter (set_utilization
                     (utilization_of (todayTotal env id db) (dailyCapacity c)))
              id (clusters db)) db
     | None => db
     end).
Proof.
  unfold updateClusterUtilization. handler_unfold.
  by destruct (clusters db !! id).
Qed.

Lemma post_production_201 env user req db resp db' :
  run (post_production env user req) db = (resp, db') →
  http_status resp = 201 →
  ∃ id day,
    auth_role user = role_cluster ∧
    auth_cluster_id user = Some id ∧
    pb_date req = Some day ∧
    production_insert_error env = false ∧
    updateClusterUtilization env id (production_logged id req day db)
    = (inr tt, db').
Proof.
  unfold post_production, authorizeRole, production_insert.
  destruct (bool_decide (auth_role user ∈ [role_cluster])) eqn:Hrole;
    [|handler_unfold; intros [= <- _]; discriminate].
  apply bool_decide_eq_true, list_elem_of_singleton in Hrole.
  handler_unfold.
  destruct (pb_date req) as [day|]; [|intros [= <- _]; discriminate].
  destruct (_ || _); [intros [= <- _]; discriminate|].
  destruct (auth_cluster_id user) as [id|]; [|intros [= <- _]; discriminate].
  destruct (negb (JS.truthy id)); [intros [= <- _]; discriminate|].
  destruct (production_insert_error env) eqn:Hpe;
    [intros [= <- _]; discriminate|].
  simpl. intros Hrun _. exists id, day. repeat (split; [done|]).
  rewrite updateClusterUtilization_spec. unfold production_logged.
  destruct (products db !! pb_product_id req) as [p|]; simpl in *.
  - rewrite updateClusterUtilization_spec in Hrun. simpl in Hrun.
    by injection Hrun as _ <-.
  - rewrite updateClusterUtilization_spec in Hrun. simpl in Hrun.
    by injection Hrun as _ <-.
Qed.

Lemma sum_quantity_snoc rows r :
  sum_quantity (rows ++ [r]) = sum_quantity rows + quantity r.
Proof. unfold sum_quantity. by rewrite fold_left_app. Qed.

Lemma production_logged_tables id req day db :
  production (production_logged id req day db)
  = production db ++ [production_row id req day] ∧
  clusters (production_logged id req day db) = clusters db ∧
  products (production_logged id req day db)
  = match products db !! pb_product_id req with
    | Some p =>
        alter (set_stock (stock p + pb_quantity req)) (pb_product_id req)
          (products db)
    | None => products db
    end.
Proof.
  unfold production_logged. by destruct (products db !! pb_product_id req).
Qed.

Lemma utilization_of_le total capacity : utilization_of total capacity ≤ 100.
Proof. unfold utilization_of. lia. Qed.

(** ** C5: utilization after a production insert *)

Lemma todayTotal_logged env id req db :
  todayTotal env id (production_logged id req (today env) db)
  = todayTotal env id db + pb_quantity req.
Proof.
  unfold todayTotal, dated, production_of.
  rewrite (proj1 (production_logged_tables id req (today env) db)).
  rewrite filter_app, (filter_cons_True _ (production_row _ _ _)) by done.
  rewrite filter_nil, filter_app, (filter_cons_True _ (production_row _ _ _))
    by done.
  by rewrite filter_nil, sum_quantity_snoc.
Qed.

(** C5.  After a successful production insert dated today by a user of
    cluster [C], whose row was [c]: today's total [T] of [C] is the previous
    total plus the inserted quantity, [C]'s row is [c] with its utilization
    overwritten by [min(round(T / capacity * 100), 100)], computed in doubles
    with [capacity] defaulting to 1000, and that value is at most 100. *)
Theorem production_utilization env user req db resp db' C c :
  run (post_production env user req) db = (resp, db') →
  http_status resp = 201 →
  auth_cluster_id user = Some C →
  pb_date req = Some (today env) →
  clusters db !! C = Some c →
  let T := sum_quantity (dated (today env) (production_of C db')) in
  let capacity := match capacity c with
                  | None | Some 0 => 1000
                  | Some k => k
                  end in
  let u := Z.min
             (JS.Math_round
                (PrimFloat.mul (PrimFloat.div (JS.of_Z T) (JS.of_Z capacity))
                   (JS.of_Z 100)))
             100 in
  T = sum_quantity (dated (today env) (production_of C db)) + pb_quantity req ∧
  clusters db' !! C = Some (set_utilization u c) ∧
  u ≤ 100.
Proof.
  intros Hrun Hs HC Hday Hc.
  destruct (post_production_201 env user req db resp db' Hrun Hs)
    as (id & day & _ & Hid & Hday' & _ & Hup).
  assert (id = C) as -> by congruence.
  assert (day = today env) as -> by congruence.
  rewrite updateClusterUtilization_spec in Hup.
  destruct (production_logged_tables C req (today env) db) as (Hprod & Hcl & _).
  rewrite Hcl, Hc in Hup. injection Hup as <-.
  pose proof (todayTotal_logged env C req db) as Htotal.
  unfold todayTotal in Htotal.
  set (mid := production_logged C req (today env) db) in *.
  assert (Hpo : ∀ t, production_of C (set_clusters t mid) = production_of C mid)
    by done.
  cbn zeta. rewrite Hpo.
  split; [exact Htotal|]. split; [|lia].
  cbn [clusters set_clusters]. by rewrite lookup_alter_eq, Hc.
Qed.

(** 45 more units today make 145 of 1000: the ratio times 100 is
    14.499999999999998 in doubles, and the stored utilization is 14. *)
Lemma production_utilization_witness :
  let req := {| pb_product_id := "p-bowl"; pb_quantity := 45;
                pb_shift := "Evening"; pb_date := Some 20400 |} in
  let db' := (run (post_production demo_env demo_manager req) busy_db).2 in
  let T := sum_quantity (dated (today demo_env) (production_of "c-khairpur" db')) in
  let capacity := match capacity khairpur with
                  | None | Some 0 => 1000
                  | Some k => k
                  end in
  let u := Z.min
             (JS.Math_round
                (PrimFloat.mul (PrimFloat.div (JS.of_Z T) (JS.of_Z capacity))
                   (JS.of_Z 100)))
             100 in
  T = sum_quantity (dated (today demo_env) (production_of "c-khairpur" busy_db))
      + pb_quantity req ∧
  clusters db' !! "c-khairpur" = Some (set_utilization u khairpur) ∧
  u ≤ 100.
Proof.
  intros req.
  apply (production_utilization demo_env demo_manager req busy_db
           (run (post_production demo_env demo_manager req) busy_db).1).
  - apply surjective_pairing.
  - vm_compute; reflexivity.
  - reflexivity.
  - reflexivity.
  - vm_compute; reflexivity.
Defined.

Example production_utilization_values :
  utilization <$>
    clusters (run (post_production demo_env demo_manager
                     {| pb_product_id := "p-bowl"; pb_quantity := 45;
                        pb_shift := "Evening"; pb_date := Some 20400 |})
                busy_db).2 !! "c-khairpur" = Some 14 ∧
  utilization <$>
    clusters (run (post_production demo_env demo_manager
                     {| pb_product_id := "p-bowl"; pb_quantity := 2500;
                        pb_shift := "Night"; pb_date := Some 20400 |})
                busy_db).2 !! "c-khairpur" = Some 100.
Proof. split; vm_compute; reflexivity. Qed.

(** ** C6: the utilization the read paths display *)

Lemma insert_by_date_perm p rows : insert_by_date p rows ≡ₚ p :: rows.
Proof.
  induction rows as [|q rows IH]; simpl; [done|].
  destruct (date q <=? date p); [done|].
  rewrite IH. apply Permutation_swap.
Qed.

Lemma order_by_date_desc_perm rows : order_by_date_desc rows ≡ₚ rows.
Proof.
  induction rows as [|p rows IH]; simpl; [done|].
  by rewrite insert_by_date_perm, IH.
Qed.

Lemma insert_by_date_sorted p rows :
  latest_first rows → latest_first (insert_by_date p rows).
Proof.
  unfold latest_first.
  induction rows as [|q rows IH]; intros Hs; simpl.
  - by repeat constructor.
  - apply StronglySorted_inv in Hs as [Hs Hq].
    destruct (date q <=? date p) eqn:E.
    + apply Z.leb_le in E. constructor; [by constructor|].
      constructor; [done|].
      eapply Forall_impl; [exact Hq|]. simpl. lia.
    + apply Z.leb_gt in E. constructor; [by apply IH|].
      rewrite insert_by_date_perm. constructor; [lia|done].
Qed.

Lemma order_by_date_desc_sorted rows : latest_first (order_by_date_desc rows).
Proof.
  induction rows as [|p rows IH]; simpl; [constructor|].
  by apply insert_by_date_sorted.
Qed.

(** The first of the recent rows carries the cluster's latest date. *)
Lemma recentProduction_first id db first rest :
  recentProduction id db = first :: rest →
  ∀ p, p ∈ production_of id db → date p ≤ date first.
Proof.
  unfold recentProduction. intros Hrecent p Hp.
  pose proof (order_by_date_desc_sorted (production_of id db)) as Hs.
  rewrite <- (order_by_date_desc_perm (production_of id db)) in Hp.
  destruct (order_by_date_desc (production_of id db)) as [|x l]; [done|].
  simpl in Hrecent. injection Hrecent as -> _.
  apply StronglySorted_inv in Hs as [_ Hall].
  apply elem_of_cons in Hp as [->|Hp]; [done|].
  rewrite Forall_forall in Hall. by apply Hall.
Qed.

Lemma sum_quantity_from rows : ∀ start,
  fold_left (λ sum p, sum + quantity p) rows start = start + sum_quantity rows.
Proof.
  unfold sum_quantity.
  induction rows as [|q rows IH]; intros start; simpl; [lia|].
  rewrite (IH (start + quantity q)), (IH (0 + quantity q)). lia.
Qed.

Lemma sum_quantity_cons p rows :
  sum_quantity (p :: rows) = quantity p + sum_quantity rows.
Proof. unfold sum_quantity at 1. simpl. by rewrite sum_quantity_from. Qed.

Lemma sum_quantity_perm rows rows' :
  rows ≡ₚ rows' → sum_quantity rows = sum_quantity rows'.
Proof.
  induction 1 as [|p l l' _ IH|p q l|l l' l'' _ IH1 _ IH2];
    rewrite ?sum_quantity_cons; [done|by rewrite IH|lia|congruence].
Qed.

(** With at most ten rows for the cluster nothing is cut off: the fallback
    sums the whole output of the latest date. *)
Lemma recentProduction_all id db day :
  (length (production_of id db) ≤ 10)%nat →
  sum_quantity (dated day (recentProduction id db))
  = sum_quantity (dated day (production_of id db)).
Proof.
  intros Hlen. unfold recentProduction, dated.
  rewrite take_ge by (by rewrite order_by_date_desc_perm).
  apply sum_quantity_perm. by rewrite order_by_date_desc_perm.
Qed.

(** C6 (as amended).  For a cluster [C] with row [c], the detail and the list
    read paths both display [min(round(total / capacity * 100), 100)], where
    [total] is today's total when that is not zero and otherwise the sum of
    those of the cluster's ten most recent rows (latest date first) that carry
    the date of the first of them (0 when there is none).  That date is the
    cluster's latest production date, whatever its output, and with at most
    ten rows for the cluster the sum is that date's whole output. *)
Theorem cluster_read_utilization env user db C c :
  clusters db !! C = Some c →
  let today_total := sum_quantity (dated (today env) (production_of C db)) in
  let recent := take 10 (order_by_date_desc (production_of C db)) in
  let total :=
    if today_total =? 0 then
      match recent with
      | [] => 0
      | first :: _ => sum_quantity (dated (date first) recent)
      end
    else today_total in
  let capacity := match capacity c with
                  | None | Some 0 => 1000
                  | Some k => k
                  end in
  let u := Z.min
             (JS.Math_round
                (PrimFloat.mul
                   (PrimFloat.div (JS.of_Z total) (JS.of_Z capacity))
                   (JS.of_Z 100)))
             100 in
  run (get_cluster env user C) db
  = ({| http_status := 200;
        body := ClusterDetail (set_utilization u c) (employees_count C db) |},
     db) ∧
  (∃ views,
     run (get_clusters env user) db
     = ({| http_status := 200; body := ClusterList views |}, db) ∧
     views !! C = Some (set_utilization u c, employees_count C db)) ∧
  (length recent ≤ 10)%nat ∧
  (∀ first rest,
     recent = first :: rest →
     (∀ p, p ∈ production_of C db → date p ≤ date first) ∧
     ((length (production_of C db) ≤ 10)%nat →
      sum_quantity (dated (date first) recent)
      = sum_quantity (dated (date first) (production_of C db)))).
Proof.
  intros Hc. cbn zeta.
  assert (Hview :
    cluster_view env db C c
    = (set_utilization
         (utilization_of
            (if sum_quantity (dated (today env) (production_of C db)) =? 0
             then match take 10 (order_by_date_desc (production_of C db)) with
                  | [] => 0
                  | first :: _ =>
                      sum_quantity
                        (dated (date first)
                           (take 10 (order_by_date_desc (production_of C db))))
                  end
             else sum_quantity (dated (today env) (production_of C db)))
            (dailyCapacity c)) c,
       employees_count C db)).
  { unfold cluster_view, displayed_total, todayTotal, recentProduction.
    destruct (_ =? 0) eqn:E; [|done]. apply Z.eqb_eq in E. cbn zeta.
    destruct (take 10 _); [by rewrite E|done]. }
  split; [|split; [|split]].
  - unfold get_cluster. handler_unfold. by rewrite Hc, Hview.
  - eexists. split; [reflexivity|].
    rewrite map_lookup_imap, Hc. simpl. by rewrite Hview.
  - rewrite length_take. lia.
  - intros first rest Hrecent. split.
    + by apply (recentProduction_first C db first rest).
    + intros Hlen. by apply (recentProduction_all C db (date first)).
Qed.

Lemma cluster_read_utilization_witness :
  let today_total :=
    sum_quantity (dated (today demo_env) (production_of "c-khairpur" correction_db)) in
  let recent :=
    take 10 (order_by_date_desc (production_of "c-khairpur" correction_db)) in
  let total :=
    if today_total =? 0 then
      match recent with
      | [] => 0
      | first :: _ => sum_quantity (dated (date first) recent)
      end
    else today_total in
  let capacity := match capacity (set_utilization 0 khairpur) with
                  | None | Some 0 => 1000
                  | Some k => k
                  end in
  let u := Z.min
             (JS.Math_round
                (PrimFloat.mul
                   (PrimFloat.div (JS.of_Z total) (JS.of_Z capacity))
                   (JS.of_Z 100)))
             100 in
  run (get_cluster demo_env demo_admin "c-khairpur") correction_db
  = ({| http_status := 200;
        body := ClusterDetail (set_utilization u (set_utilization 0 khairpur))
                  (employees_count "c-khairpur" correction_db) |},
     correction_db) ∧
  (∃ views,
     run (get_clusters demo_env demo_admin) correction_db
     = ({| http_status := 200; body := ClusterList views |}, correction_db) ∧
     views !! "c-khairpur"
     = Some (set_utilization u (set_utilization 0 khairpur),
             employees_count "c-khairpur" correction_db)) ∧
  (length recent ≤ 10)%nat ∧
  (∀ first rest,
     recent = first :: rest →
     (∀ p, p ∈ production_of "c-khairpur" correction_db → date p ≤ date first) ∧
     ((length (production_of "c-khairpur" correction_db) ≤ 10)%nat →
      sum_quantity (dated (date first) recent)
      = sum_quantity
          (dated (date first) (production_of "c-khairpur" correction_db)))).
Proof.
  refine (cluster_read_utilization demo_env demo_admin correction_db
            "c-khairpur" (set_utilization 0 khairpur) _).
  vm_compute; reflexivity.
Defined.

(** C6 as stated fails when the latest production date has no net output:
    today's total is zero, the latest date (20399) sums to zero and an
    earlier one (20398) to 500, which would display 50; both read paths
    display 0. *)
Lemma cluster_read_utilization_counterexample :
  todayTotal demo_env "c-khairpur" correction_db = 0 ∧
  map (λ p, (date p, quantity p)) (recentProduction "c-khairpur" correction_db)
  = [(20399, 5); (20399, -5); (20398, 500)] ∧
  claimed_total demo_env "c-khairpur" correction_db = 500 ∧
  utilization_of 500 (dailyCapacity khairpur) = 50 ∧
  (∃ c n,
     body (run (get_cluster demo_env demo_admin "c-khairpur") correction_db).1
     = ClusterDetail c n ∧ utilization c = 0) ∧
  (∃ views c n,
     body (run (get_clusters demo_env demo_admin) correction_db).1
     = ClusterList views ∧
     views !! "c-khairpur" = Some (c, n) ∧ utilization c = 0).
Proof.
  do 4 (split; [vm_compute; reflexivity|]). split.
  - eexists _, _. split; vm_compute; reflexivity.
  - eexists _, _, _. split; [vm_compute; reflexivity|].
    split; vm_compute; reflexivity.
Qed.

(** ** C8 and C9: creating and deleting a cluster *)

Ltac cluster_unfold :=
  unfold post_cluster, delete_cluster, authorizeRole, clusters_insert,
    users_insert, clusters_delete_unchecked, clusters_delete,
    users_delete_of_cluster, users_delete_unchecked, clusters_update_manager,
    insert_row in *;
  handler_unfold.

Lemma db_restore db :
  set_clusters (clusters db) (set_users (users db) db) = db.
Proof. by destruct db. Qed.

Lemma post_cluster_201 env user req db resp db' :
  run (post_cluster env user req) db = (resp, db') →
  http_status resp = 201 →
  clusters db !! new_cluster_id env = None ∧
  users db !! new_user_id env = None ∧
  db' = cluster_created env req db.
Proof.
  cluster_unfold.
  destruct (bool_decide (auth_role user ∈ [role_admin]));
    [|intros [= <- _]; discriminate].
  destruct (missing_cluster_fields req); [intros [= <- _]; discriminate|].
  destruct (users_by_email (cb_email req) db);
    [intros [= <- _]; discriminate|].
  destruct (clusters_insert_error env); [intros [= <- _]; discriminate|].
  destruct (clusters db !! new_cluster_id env) eqn:Hc;
    [intros [= <- _]; discriminate|].
  simpl. destruct (users_insert_error env); [intros [= <- _]; discriminate|].
  destruct (users db !! new_user_id env) eqn:Hu;
    [intros [= <- _]; discriminate|].
  simpl. intros [= _ <-] _. repeat split.
  unfold cluster_created. by rewrite alter_insert_eq.
Qed.

Lemma existsb_elem {A} (f : A → bool) (l : list A) (x : A) :
  x ∈ l → f x = true → existsb f l = true.
Proof.
  intros Hx Hf. apply existsb_exists. exists x.
  split; [by apply list_elem_of_In|done].
Qed.

(** A user whom a cluster names as its manager is referenced. *)
Lemma manager_referenced db id c k :
  clusters db !! id = Some c → manager_id c = Some k →
  user_referenced db k = true.
Proof.
  intros Hc Hm. unfold user_referenced. apply orb_true_iff. left.
  apply (existsb_elem _ _ (id, c)); [by apply elem_of_map_to_list|].
  simpl. by apply bool_decide_eq_true.
Qed.

Lemma members_lookup id db k u :
  members id db !! k = Some u ↔ users db !! k = Some u ∧ cluster_id u = Some id.
Proof. unfold members. by rewrite map_lookup_filter_Some. Qed.

(** The delete of a cluster's users is refused as soon as one of them is
    referenced. *)
Lemma users_delete_refused env id db k u :
  users db !! k = Some u → cluster_id u = Some id →
  user_referenced db k = true →
  users_delete_of_cluster env id db = (inr true, db).
Proof.
  intros Hk Hid Href. unfold users_delete_of_cluster.
  rewrite (existsb_elem _ _ (k, u)); [by rewrite orb_true_r| |done].
  apply elem_of_map_to_list. by apply members_lookup.
Qed.

Lemma delete_created_cluster env req db env' admin :
  auth_role admin = role_admin →
  run (delete_cluster env' admin (new_cluster_id env))
    (cluster_created env req db)
  = ({| http_status := 500; body := Error "Failed to delete cluster" |},
     cluster_created env req db).
Proof.
  intros Hadmin. unfold delete_cluster, authorizeRole. handler_unfold.
  rewrite bool_decide_true by (rewrite Hadmin; apply list_elem_of_singleton; done).
  rewrite (users_delete_refused env' (new_cluster_id env)
             (cluster_created env req db) (new_user_id env)
             (manager_account env req (new_cluster_id env))); [done| |done|].
  - simpl. by rewrite lookup_insert_eq.
  - apply (manager_referenced _ (new_cluster_id env)
             (set_manager_id (Some (new_user_id env)) (new_cluster req)));
      [|done].
    simpl. by rewrite lookup_insert_eq.
Qed.

(** C8.  On a store whose users all point at existing clusters, a successful
    [POST /api/clusters] adds one cluster row, under a fresh id, and one user
    row, under a fresh id; the user has role [cluster] and the new cluster's
    id, the cluster has that user as [manager_id], and no other user points
    at the new cluster.  A [DELETE /api/clusters/:id] of that cluster then
    removes neither row: the user is one of the cluster's users and the
    cluster row references it ([clusters.manager_id REFERENCES users(id)]),
    so the datastore refuses the handler's first delete, and the handler
    answers 500 and leaves the store as the creation left it. *)
Theorem cluster_create_delete_refused env user req db resp db1 :
  users_reference_clusters db →
  run (post_cluster env user req) db = (resp, db1) →
  http_status resp = 201 →
  ∃ cid uid c u,
    clusters db !! cid = None ∧
    users db !! uid = None ∧
    clusters db1 = <[cid := c]> (clusters db) ∧
    manager_id c = Some uid ∧
    users db1 = <[uid := u]> (users db) ∧
    role u = role_cluster ∧
    cluster_id u = Some cid ∧
    (∀ k u', users db1 !! k = Some u' → cluster_id u' = Some cid → k = uid) ∧
    (∀ env' admin,
       auth_role admin = role_admin →
       run (delete_cluster env' admin cid) db1
       = ({| http_status := 500; body := Error "Failed to delete cluster" |},
          db1)).
Proof.
  intros Hfk Hrun Hs.
  destruct (post_cluster_201 env user req db resp db1 Hrun Hs)
    as (Hc & Hu & ->).
  exists (new_cluster_id env), (new_user_id env).
  exists (set_manager_id (Some (new_user_id env)) (new_cluster req)).
  exists (manager_account env req (new_cluster_id env)).
  do 7 (split; [done|]). split.
  - intros k u' Hk Hid. simpl in Hk.
    apply lookup_insert_Some in Hk as [[? _]|[_ Hk]]; [done|].
    destruct (Hfk k u' (new_cluster_id env) Hk Hid) as [c' Hc']. congruence.
  - intros env' admin Hadmin. by apply delete_created_cluster.
Qed.

Lemma demo_db_references : users_reference_clusters demo_db.
Proof.
  intros k u id Hk Hid. unfold demo_db in Hk. simpl in Hk.
  apply lookup_insert_Some in Hk as [[_ <-]|[_ Hk]]; [discriminate|].
  apply lookup_insert_Some in Hk as [[_ <-]|[_ Hk]]; [|done].
  injection Hid as <-. by eexists.
Defined.

Lemma cluster_create_delete_refused_witness :
  ∃ cid uid c u,
    clusters demo_db !! cid = None ∧
    users demo_db !! uid = None ∧
    clusters (run (post_cluster demo_env demo_admin sehwan) demo_db).2
    = <[cid := c]> (clusters demo_db) ∧
    manager_id c = Some uid ∧
    users (run (post_cluster demo_env demo_admin sehwan) demo_db).2
    = <[uid := u]> (users demo_db) ∧
    role u = role_cluster ∧
    cluster_id u = Some cid ∧
    (∀ k u',
       users (run (post_cluster demo_env demo_admin sehwan) demo_db).2 !! k
       = Some u' →
       cluster_id u' = Some cid → k = uid) ∧
    (∀ env' admin,
       auth_role admin = role_admin →
       run (delete_cluster env' admin cid)
         (run (post_cluster demo_env demo_admin sehwan) demo_db).2
       = ({| http_status := 500; body := Error "Failed to delete cluster" |},
          (run (post_cluster demo_env demo_admin sehwan) demo_db).2)).
Proof.
  refine (cluster_create_delete_refused demo_env demo_admin sehwan demo_db
            (run (post_cluster demo_env demo_admin sehwan) demo_db).1
            (run (post_cluster demo_env demo_admin sehwan) demo_db).2 _ _ _).
  - exact demo_db_references.
  - apply surjective_pairing.
  - vm_compute; reflexivity.
Defined.

(** The same on the sample store: the admin creates the Sehwan cluster and
    deletes it at once; the delete is answered 500 and both rows are still
    there. *)
Example cluster_create_delete_rows :
  let created := (run (post_cluster demo_env demo_admin sehwan) demo_db).2 in
  let out := run (delete_cluster demo_env demo_admin "c-new") created in
  http_status out.1 = 500 ∧
  location <$> clusters out.2 !! "c-new" = Some "Sehwan, Sindh" ∧
  user_name <$> users out.2 !! "u-new" = Some "Sehwan Cluster Manager".
Proof.
  split; [vm_compute; reflexivity|]. split; vm_compute; reflexivity.
Qed.

(** C9.  When the cluster insert succeeds and the insert of the paired user
    account is refused, the handler deletes the cluster row it has just
    created and answers 500: the store is as it was before the request. *)
Theorem cluster_create_rollback env user req db :
  auth_role user = role_admin →
  missing_cluster_fields req = false →
  users_by_email (cb_email req) db = None →
  clusters_insert_error env = false →
  clusters db !! new_cluster_id env = None →
  users_insert_error env = true ∨ is_Some (users db !! new_user_id env) →
  ∃ mid,
    clusters_insert env (new_cluster req) db
    = (inr (Some (new_cluster_id env)), mid) ∧
    clusters mid !! new_cluster_id env = Some (new_cluster req) ∧
    users_insert env (manager_account env req (new_cluster_id env)) mid
    = (inr None, mid) ∧
    clusters_delete_unchecked (new_cluster_id env) mid = (inr tt, db) ∧
    run (post_cluster env user req) db
    = ({| http_status := 500; body := Error "Failed to create cluster" |}, db).
Proof.
  intros Hadmin Hfields Hemail Hce Hc Huser.
  exists (set_clusters (<[new_cluster_id env := new_cluster req]> (clusters db)) db).
  assert (Hins : insert_row (users_insert_error env) (new_user_id env)
                   (manager_account env req (new_cluster_id env)) (users db)
                 = None).
  { unfold insert_row. destruct Huser as [-> | [u ->]]; [done|].
    by destruct (users_insert_error env). }
  assert (Hback : set_clusters
                    (delete (new_cluster_id env)
                       (<[new_cluster_id env := new_cluster req]> (clusters db)))
                    (set_clusters
                       (<[new_cluster_id env := new_cluster req]> (clusters db))
                       db) = db).
  { rewrite delete_insert_id by done. by destruct db. }
  split; [|split; [|split; [|split]]].
  - unfold clusters_insert, insert_row. by rewrite Hce, Hc.
  - simpl. by rewrite lookup_insert_eq.
  - unfold users_insert. simpl. by rewrite Hins.
  - unfold clusters_delete_unchecked, modify. simpl. by rewrite Hback.
  - cluster_unfold.
    rewrite bool_decide_true
      by (rewrite Hadmin; by apply list_elem_of_singleton).
    rewrite Hfields, Hemail, Hce, Hc. simpl. rewrite Hins. simpl.
    by rewrite Hback.
Qed.

Lemma cluster_create_rollback_witness :
  ∃ mid,
    clusters_insert refusing_users_env (new_cluster sehwan) demo_db
    = (inr (Some (new_cluster_id refusing_users_env)), mid) ∧
    clusters mid !! new_cluster_id refusing_users_env
    = Some (new_cluster sehwan) ∧
    users_insert refusing_users_env
      (manager_account refusing_users_env sehwan
         (new_cluster_id refusing_users_env)) mid
    = (inr None, mid) ∧
    clusters_delete_unchecked (new_cluster_id refusing_users_env) mid
    = (inr tt, demo_db) ∧
    run (post_cluster refusing_users_env demo_admin sehwan) demo_db
    = ({| http_status := 500; body := Error "Failed to create cluster" |},
       demo_db).
Proof.
  refine (cluster_create_rollback refusing_users_env demo_admin sehwan demo_db
            _ _ _ _ _ _).
  - reflexivity.
  - vm_compute; reflexivity.
  - vm_compute; reflexivity.
  - reflexivity.
  - vm_compute; reflexivity.
  - left. reflexivity.
Defined.


(** Whatever makes the creation fail, the store is left as it was. *)
Lemma post_cluster_failure_leaves_store env user req db resp db' :
  run (post_cluster env user req) db = (resp, db') →
  http_status resp ≠ 201 →
  db' = db.
Proof.
  cluster_unfold.
  destruct (bool_decide (auth_role user ∈ [role_admin])); [|congruence].
  destruct (missing_cluster_fields req); [congruence|].
  destruct (users_by_email (cb_email req) db); [congruence|].
  destruct (clusters_insert_error env); [congruence|].
  destruct (clusters db !! new_cluster_id env) eqn:Hc; [congruence|].
  simpl. destruct (users_insert_error env).
  - simpl. rewrite delete_insert_id by done. intros [= _ <-] _. by destruct db.
  - destruct (users db !! new_user_id env).
    + simpl. rewrite delete_insert_id by done. intros [= _ <-] _.
      by destruct db.
    + simpl. intros [= <- _] Hs. by destruct Hs.
Qed.

(** * Further properties of the handlers *)

(** ** The cart: what a checkout leaves behind *)

Lemma post_cart_outcome env user req db resp db' :
  run (post_cart env user req) db = (resp, db') →
  http_status resp = 201 ∨
  ((http_status resp = 400 ∨ http_status resp = 404) ∧ db' = db) ∨
  (http_status resp = 500 ∧
   (∃ l ls, items req = Some (l :: ls) ∧
            forallb (line_okb db) (l :: ls) = true) ∧
   products db' = products db).
Proof.
  unfold post_cart.
  destruct (items req) as [[|l ls]|] eqn:Hitems;
    [handler_unfold; intros [= <- <-]; auto| |
     handler_unfold; intros [= <- <-]; auto].
  handler_unfold.
  destruct (profile_incomplete _) eqn:Hprof; [intros [= <- <-]; auto|].
  destruct (check_items (l :: ls) (JS.of_Z 0) [] db)
    as [[r|[t ds]] db1] eqn:Hc.
  - intros [= <- <-]. right; left.
    split; [by eapply check_items_inl|by eapply check_items_state].
  - pose proof (check_items_inr _ _ _ _ _ _ _ Hc) as Hok.
    apply check_items_state in Hc as ->.
    assert (Hvalid : ∃ l0 ls0, Some (l :: ls) = Some (l0 :: ls0) ∧
                               forallb (line_okb db) (l0 :: ls0) = true)
      by eauto.
    destruct ds as [|first ds]; [intros [= <- <-]; auto|].
    unfold insert_row.
    destruct (orders_insert_error env); [intros [= <- <-]; auto|].
    destruct (orders db !! new_order_id env); [intros [= <- <-]; auto|].
    simpl.
    destruct (order_items_insert_error env); [intros [= <- <-]; auto|].
    handler_unfold. simpl. rewrite update_stocks_spec. intros [= <- _].
    by left.
Qed.

(** X1.  A cart checkout answers 201, 400, 404 or 500.  A 400 or a 404 leaves
    the whole store as it was, and no answer other than 201 changes any
    product. *)
Theorem cart_refusal_keeps_stock env user req db resp db' :
  run (post_cart env user req) db = (resp, db') →
  (http_status resp = 201 ∨ http_status resp = 400 ∨ http_status resp = 404
   ∨ http_status resp = 500) ∧
  (http_status resp = 400 ∨ http_status resp = 404 → db' = db) ∧
  (http_status resp ≠ 201 → products db' = products db).
Proof.
  intros Hrun.
  destruct (post_cart_outcome env user req db resp db' Hrun)
    as [H|[[H ->]|(H & _ & Hp)]].
  - split; [auto|]. split; [lia|done].
  - split; [destruct H; auto|]. done.
  - split; [auto|]. split; [lia|done].
Qed.

Lemma cart_refusal_keeps_stock_witness :
  let out := run (post_cart demo_env demo_client
                    (cart [("p-bowl", 2); ("p-straw", 6)])) demo_db in
  (http_status out.1 = 201 ∨ http_status out.1 = 400 ∨ http_status out.1 = 404
   ∨ http_status out.1 = 500) ∧
  (http_status out.1 = 400 ∨ http_status out.1 = 404 → out.2 = demo_db) ∧
  (http_status out.1 ≠ 201 → products out.2 = products demo_db).
Proof.
  refine (cart_refusal_keeps_stock demo_env demo_client
            (cart [("p-bowl", 2); ("p-straw", 6)]) demo_db _ _ _).
  apply surjective_pairing.
Defined.

(** X2.  A cart that holds a line without a product id or with a quantity of
    zero or less is never placed: the answer is 400 or 404 and nothing is
    written, wherever the line stands in the cart. *)
Theorem cart_rejects_bad_line env user req db lines l resp db' :
  items req = Some lines →
  l ∈ lines →
  product_id l = "" ∨ line_quantity l ≤ 0 →
  run (post_cart env user req) db = (resp, db') →
  (http_status resp = 400 ∨ http_status resp = 404) ∧ db' = db.
Proof.
  intros Hitems Hl Hbad Hrun.
  assert (Hno : forallb (line_okb db) lines = true → False).
  { rewrite forallb_forall. intros Hall.
    specialize (Hall l (proj1 (list_elem_of_In _ _) Hl)).
    apply line_okb_true in Hall as (Hid & Hq & _). destruct Hbad; [done|lia]. }
  destruct (post_cart_outcome env user req db resp db' Hrun)
    as [H|[H|(_ & (l0 & ls0 & Hi & Hok) & _)]].
  - destruct (post_cart_201 env user req db resp db' Hrun H)
      as (l0 & ls0 & Hi & _ & Hok & _).
    rewrite Hitems in Hi. injection Hi as ->. by destruct Hno.
  - done.
  - rewrite Hitems in Hi. injection Hi as ->. by destruct Hno.
Qed.

Lemma cart_rejects_bad_line_witness :
  let out := run (post_cart demo_env demo_client
                    (cart [("p-bowl", 2); ("p-box", -3)])) demo_db in
  (http_status out.1 = 400 ∨ http_status out.1 = 404) ∧ out.2 = demo_db.
Proof.
  refine (cart_rejects_bad_line demo_env demo_client
            (cart [("p-bowl", 2); ("p-box", -3)]) demo_db
            [{| product_id := "p-bowl"; line_quantity := 2 |};
             {| product_id := "p-box"; line_quantity := -3 |}]
            {| product_id := "p-box"; line_quantity := -3 |} _ _ _ _ _ _).
  - reflexivity.
  - apply list_elem_of_here || (apply list_elem_of_further, list_elem_of_here).
  - right. simpl. lia.
  - apply surjective_pairing.
Defined.

(** ** The cart: stock only goes down, and not below zero *)

Lemma apply_stock_writes_none ws : ∀ (t : gmap uuid Product) id,
  t !! id = None → apply_stock_writes ws t !! id = None.
Proof.
  induction ws as [|[k v] ws IH]; intros t id Ht; [done|].
  simpl. apply IH. by rewrite lookup_alter_None.
Qed.

Lemma apply_stock_writes_within t0 ws : ∀ (t : gmap uuid Product) id P w,
  Forall (write_within t0) ws →
  t0 !! id = Some P →
  t !! id = Some (set_stock w P) →
  w ≤ stock P ∧ (0 ≤ stock P → 0 ≤ w) →
  ∃ w', apply_stock_writes ws t !! id = Some (set_stock w' P) ∧
        w' ≤ stock P ∧ (0 ≤ stock P → 0 ≤ w').
Proof.
  induction ws as [|[k v] ws IH]; intros t id P w Hws H0 Ht Hw.
  - exists w. by split.
  - apply Forall_cons in Hws as [Hkv Hws]. simpl.
    destruct (decide (k = id)) as [->|Hne].
    + apply (IH _ id P v); [done|done| |].
      * by rewrite lookup_alter_eq, Ht.
      * specialize (Hkv P H0). simpl in Hkv. lia.
    + apply (IH _ id P w); [done|done| |done].
      by rewrite lookup_alter_ne.
Qed.

Lemma line_write_within db lines :
  forallb (line_okb db) lines = true →
  Forall (write_within (products db)) (map (line_write db) lines).
Proof.
  rewrite forallb_forall. intros Hall.
  apply Forall_map, Forall_forall. intros l Hl%list_elem_of_In.
  apply Hall, line_okb_true in Hl as (_ & Hq & p & Hp & Hle).
  intros P HP. unfold line_write, pre_read_stock in *. simpl in *.
  rewrite Hp in HP |- *. injection HP as <-. simpl. lia.
Qed.

(** X3.  Whatever a cart checkout answers, it neither adds nor removes a
    product, changes no name and no price, and a product's stock afterwards
    is at most what it was and, if it was not negative, still not negative:
    also when several lines name the same product. *)
Theorem cart_stock_invariant env user req db resp db' :
  run (post_cart env user req) db = (resp, db') →
  ∀ id,
    (products db' !! id = None ↔ products db !! id = None) ∧
    (∀ P P',
       products db !! id = Some P →
       products db' !! id = Some P' →
       product_name P' = product_name P ∧
       price P' = price P ∧
       stock P' ≤ stock P ∧
       (0 ≤ stock P → 0 ≤ stock P')).
Proof.
  intros Hrun id.
  destruct (decide (http_status resp = 201)) as [Hs|Hs].
  - destruct (post_cart_201 env user req db resp db' Hrun Hs)
      as (l & ls & Hitems & Hprof & Hok & Hoe & Hfresh & Hie).
    destruct (post_cart_pass env user req db l ls Hitems Hprof Hok Hoe Hfresh
                Hie) as (first & rest & Hd & Hrun').
    rewrite Hrun' in Hrun. injection Hrun as _ <-.
    rewrite cart_committed_products, cart_writes by done.
    destruct (products db !! id) as [P|] eqn:HP.
    + destruct (apply_stock_writes_within (products db)
                  (map (line_write db) (l :: ls)) (products db) id P (stock P))
        as (w & Hw & Hle & Hge);
        [by apply line_write_within|done|by destruct P|lia|].
      rewrite Hw. split; [done|].
      intros P0 P' [= <-] [= <-]. simpl. auto.
    + rewrite apply_stock_writes_none by done. done.
  - assert (Hp : products db' = products db).
    { destruct (post_cart_outcome env user req db resp db' Hrun)
        as [H|[[_ ->]|(_ & _ & Hp)]]; [by destruct Hs|done|done]. }
    rewrite Hp. split; [done|].
    intros P P' HP HP'. rewrite HP in HP'. injection HP' as <-.
    repeat split; lia.
Qed.

Lemma cart_stock_invariant_witness :
    (products
       (run (post_cart demo_env demo_client
               (cart [("p-straw", 3); ("p-straw", 5)])) demo_db).2 !! "p-straw"
     = None
     ↔ products demo_db !! "p-straw" = None) ∧
    (∀ P P',
       products demo_db !! "p-straw" = Some P →
       products
         (run (post_cart demo_env demo_client
                 (cart [("p-straw", 3); ("p-straw", 5)])) demo_db).2
         !! "p-straw"
       = Some P' →
       product_name P' = product_name P ∧
       price P' = price P ∧
       stock P' ≤ stock P ∧
       (0 ≤ stock P → 0 ≤ stock P')).
Proof.
  refine (cart_stock_invariant demo_env demo_client
            (cart [("p-straw", 3); ("p-straw", 5)]) demo_db _ _ _ "p-straw").
  apply surjective_pairing.
Defined.

(** ** The single-product order: what it accepts and what it writes *)

(** X4.  A single-product order that is not answered 201 leaves the store as
    it was.  One that is answered 201 adds exactly one order row, under a
    fresh id, for the requesting user, the named product and quantity, with
    status Pending and, as amount, the double product [price * quantity]
    rounded to hundredths by the [DECIMAL(10,2)] column; the answer carries
    that stored row; it adds no order-item row; and it lowers the stock of
    that product by the quantity and touches no other product. *)
Theorem post_order_outcome env user req db resp db' :
  run (post_order env user req) db = (resp, db') →
  (http_status resp ≠ 201 → db' = db) ∧
  (http_status resp = 201 →
   ∃ p order,
     products db !! ob_product_id req = Some p ∧
     orders db !! new_order_id env = None ∧
     orders db' = <[new_order_id env := order]> (orders db) ∧
     order_user_id order = auth_id user ∧
     order_product_id order = ob_product_id req ∧
     order_quantity order = ob_quantity req ∧
     amount order
     = JS.numeric_10_2 (PrimFloat.mul (price p) (JS.of_Z (ob_quantity req))) ∧
     status order = "Pending" ∧
     body resp
     = OrderPlaced "Order placed successfully" (new_order_id env) order ∧
     order_items db' = order_items db ∧
     products db' !! ob_product_id req
     = Some (set_stock (stock p - ob_quantity req) p) ∧
     (∀ other, other ≠ ob_product_id req →
               products db' !! other = products db !! other)).
Proof.
  unfold post_order. handler_unfold.
  destruct (_ || _); [intros [= <- <-]; split; [done|discriminate]|].
  simpl. destruct (products db !! ob_product_id req) as [p|] eqn:Hp;
    [|intros [= <- <-]; split; [done|discriminate]].
  destruct (stock p <? ob_quantity req);
    [intros [= <- <-]; split; [done|discriminate]|].
  unfold insert_row.
  destruct (orders_insert_error env);
    [intros [= <- <-]; split; [done|discriminate]|].
  destruct (orders db !! new_order_id env) eqn:Hfresh;
    [intros [= <- <-]; split; [done|discriminate]|].
  simpl. intros [= <- <-]. split; [done|]. intros _.
  eexists p, _. do 2 (split; [done|]). split; [reflexivity|].
  do 7 (split; [done|]). simpl. split.
  - by rewrite lookup_alter_eq, Hp.
  - intros other Hne. by rewrite lookup_alter_ne.
Qed.

Lemma post_order_outcome_witness :
  let req := {| ob_product_id := "p-box"; ob_quantity := 4;
                ob_delivery_date := "2025-12-01" |} in
  let out := run (post_order demo_env demo_client req) demo_db in
  (http_status out.1 ≠ 201 → out.2 = demo_db) ∧
  (http_status out.1 = 201 →
   ∃ p order,
     products demo_db !! ob_product_id req = Some p ∧
     orders demo_db !! new_order_id demo_env = None ∧
     orders out.2 = <[new_order_id demo_env := order]> (orders demo_db) ∧
     order_user_id order = auth_id demo_client ∧
     order_product_id order = ob_product_id req ∧
     order_quantity order = ob_quantity req ∧
     amount order
     = JS.numeric_10_2 (PrimFloat.mul (price p) (JS.of_Z (ob_quantity req))) ∧
     status order = "Pending" ∧
     body out.1
     = OrderPlaced "Order placed successfully" (new_order_id demo_env) order ∧
     order_items out.2 = order_items demo_db ∧
     products out.2 !! ob_product_id req
     = Some (set_stock (stock p - ob_quantity req) p) ∧
     (∀ other, other ≠ ob_product_id req →
               products out.2 !! other = products demo_db !! other)).
Proof.
  intros req.
  refine (post_order_outcome demo_env demo_client req demo_db _ _ _).
  apply surjective_pairing.
Defined.

(** X5.  The single-product order tests the quantity only for being zero: a
    negative quantity for a product whose stock is not negative is answered
    201, is recorded with that negative quantity, and raises the stock. *)
Theorem post_order_negative_quantity env user req db p :
  ob_product_id req ≠ "" →
  ob_quantity req < 0 →
  products db !! ob_product_id req = Some p →
  0 ≤ stock p →
  orders_insert_error env = false →
  orders db !! new_order_id env = None →
  ∃ order,
    http_status (run (post_order env user req) db).1 = 201 ∧
    orders (run (post_order env user req) db).2 !! new_order_id env
    = Some order ∧
    order_quantity order = ob_quantity req ∧
    products (run (post_order env user req) db).2 !! ob_product_id req
    = Some (set_stock (stock p - ob_quantity req) p) ∧
    stock p < stock p - ob_quantity req.
Proof.
  intros Hid Hq Hp Hs Hoe Hfresh.
  unfold post_order, JS.truthy. handler_unfold.
  rewrite bool_decide_true by done.
  destruct (ob_quantity req =? 0) eqn:E0; [apply Z.eqb_eq in E0; lia|].
  simpl. rewrite Hp.
  destruct (stock p <? ob_quantity req) eqn:E1; [apply Z.ltb_lt in E1; lia|].
  unfold insert_row. rewrite Hoe, Hfresh. simpl.
  eexists. split; [done|]. split; [by rewrite lookup_insert_eq|].
  split; [done|]. split; [by rewrite lookup_alter_eq, Hp|lia].
Qed.

Lemma post_order_negative_quantity_witness :
  let req := {| ob_product_id := "p-box"; ob_quantity := -7;
                ob_delivery_date := "2025-12-01" |} in
  ∃ order,
    http_status (run (post_order demo_env demo_client req) demo_db).1 = 201 ∧
    orders (run (post_order demo_env demo_client req) demo_db).2
      !! new_order_id demo_env = Some order ∧
    order_quantity order = ob_quantity req ∧
    products (run (post_order demo_env demo_client req) demo_db).2
      !! ob_product_id req
    = Some (set_stock (stock gift_box - ob_quantity req) gift_box) ∧
    stock gift_box < stock gift_box - ob_quantity req.
Proof.
  intros req.
  refine (post_order_negative_quantity demo_env demo_client req demo_db
            gift_box _ _ _ _ _ _).
  - discriminate.
  - simpl. lia.
  - vm_compute; reflexivity.
  - simpl. lia.
  - reflexivity.
  - vm_compute; reflexivity.
Defined.

(** ** Production records: refusals, other days, other rows *)

Lemma post_production_failure_leaves_store env user req db resp db' :
  run (post_production env user req) db = (resp, db') →
  http_status resp ≠ 201 →
  db' = db.
Proof.
  unfold post_production, authorizeRole, production_insert.
  destruct (bool_decide (auth_role user ∈ [role_cluster]));
    [|handler_unfold; congruence].
  handler_unfold.
  destruct (pb_date req) as [day|]; [|congruence].
  destruct (_ || _); [congruence|].
  destruct (auth_cluster_id user) as [id|]; [|congruence].
  destruct (negb (JS.truthy id)); [congruence|].
  destruct (production_insert_error env); [congruence|].
  simpl.
  destruct (products db !! pb_product_id req); simpl;
    rewrite updateClusterUtilization_spec; simpl;
    intros [= <- _] Hs; by destruct Hs.
Qed.

(** X6.  A production request that is not answered 201 (wrong role, missing
    field, no cluster on the token, refused insert) leaves the store as it
    was. *)
Theorem post_production_refusal env user req db resp db' :
  run (post_production env user req) db = (resp, db') →
  http_status resp ≠ 201 →
  db' = db.
Proof. apply post_production_failure_leaves_store. Qed.

Lemma post_production_refusal_witness :
  (run (post_production demo_env demo_manager
          {| pb_product_id := "p-bowl"; pb_quantity := 0;
             pb_shift := "Morning"; pb_date := Some 20400 |}) demo_db).2
  = demo_db.
Proof.
  refine (post_production_refusal demo_env demo_manager
            {| pb_product_id := "p-bowl"; pb_quantity := 0;
               pb_shift := "Morning"; pb_date := Some 20400 |} demo_db _ _ _ _).
  - apply surjective_pairing.
  - vm_compute; discriminate.
Defined.

Lemma post_production_store env user req db resp db' :
  run (post_production env user req) db = (resp, db') →
  db' = db ∨
  ∃ id day,
    auth_cluster_id user = Some id ∧ pb_date req = Some day ∧
    updateClusterUtilization env id (production_logged id req day db)
    = (inr tt, db').
Proof.
  intros Hrun. destruct (decide (http_status resp = 201)) as [Hs|Hs].
  - right.
    destruct (post_production_201 env user req db resp db' Hrun Hs)
      as (id & day & _ & Hid & Hday & _ & Hup). eauto.
  - left. by eapply post_production_failure_leaves_store.
Qed.

Lemma todayTotal_logged_other_day env id req day db :
  day ≠ today env →
  todayTotal env id (production_logged id req day db) = todayTotal env id db.
Proof.
  intros Hday. unfold todayTotal, dated, production_of.
  rewrite (proj1 (production_logged_tables id req day db)).
  rewrite filter_app, (filter_cons_True _ (production_row _ _ _)) by done.
  rewrite filter_nil, filter_app, (filter_cons_False _ (production_row _ _ _))
    by done.
  by rewrite filter_nil, app_nil_r.
Qed.

(** X7.  A production record dated another day than today is logged, but the
    utilization written afterwards is computed from today's total, which the
    record does not change. *)
Theorem production_other_day env user req db resp db' C c day :
  run (post_production env user req) db = (resp, db') →
  http_status resp = 201 →
  auth_cluster_id user = Some C →
  pb_date req = Some day →
  day ≠ today env →
  clusters db !! C = Some c →
  production db' = production db ++ [production_row C req day] ∧
  todayTotal env C db' = todayTotal env C db ∧
  clusters db' !! C
  = Some (set_utilization
            (utilization_of (todayTotal env C db) (dailyCapacity c)) c).
Proof.
  intros Hrun Hs HC Hday Hne Hc.
  destruct (post_production_201 env user req db resp db' Hrun Hs)
    as (id & day' & _ & Hid & Hday' & _ & Hup).
  assert (id = C) as -> by congruence.
  assert (day' = day) as -> by congruence.
  rewrite updateClusterUtilization_spec in Hup.
  destruct (production_logged_tables C req day db) as (Hprod & Hcl & _).
  rewrite Hcl, Hc in Hup. injection Hup as <-.
  rewrite todayTotal_logged_other_day by done.
  split; [done|]. split.
  - unfold todayTotal, production_of. simpl.
    by apply (todayTotal_logged_other_day env C req day db).
  - simpl. by rewrite lookup_alter_eq, Hc.
Qed.

Lemma production_other_day_witness :
  let req := {| pb_product_id := "p-bowl"; pb_quantity := 300;
                pb_shift := "Night"; pb_date := Some 20399 |} in
  let db' := (run (post_production demo_env demo_manager req) busy_db).2 in
  production db'
  = production busy_db ++ [production_row "c-khairpur" req 20399] ∧
  todayTotal demo_env "c-khairpur" db'
  = todayTotal demo_env "c-khairpur" busy_db ∧
  clusters db' !! "c-khairpur"
  = Some (set_utilization
            (utilization_of (todayTotal demo_env "c-khairpur" busy_db)
               (dailyCapacity khairpur)) khairpur).
Proof.
  intros req.
  refine (production_other_day demo_env demo_manager req busy_db
            (run (post_production demo_env demo_manager req) busy_db).1
            (run (post_production demo_env demo_manager req) busy_db).2
            "c-khairpur" khairpur 20399 _ _ _ _ _ _).
  - apply surjective_pairing.
  - vm_compute; reflexivity.
  - reflexivity.
  - reflexivity.
  - vm_compute; discriminate.
  - vm_compute; reflexivity.
Defined.

(** C7.  A successful [POST /api/production] appends one production row for
    the user's cluster, raises the stock of the product it names by the
    inserted quantity and leaves every other product as it was.  It then
    recomputes the utilization of that cluster from the store after the
    insert: today's total counts the new row when it is dated today, and
    the cluster's row, if there is one, has its utilization overwritten by
    the formula on that total; no other cluster row changes. *)
Theorem production_stock_and_utilization env user req db resp db' :
  run (post_production env user req) db = (resp, db') →
  http_status resp = 201 →
  ∃ id day row,
    auth_cluster_id user = Some id ∧
    pb_date req = Some day ∧
    production db' = production db ++ [row] ∧
    production_cluster_id row = id ∧
    production_product_id row = pb_product_id req ∧
    quantity row = pb_quantity req ∧
    date row = day ∧
    (∀ p, products db !! pb_product_id req = Some p →
          products db' !! pb_product_id req
          = Some (set_stock (stock p + pb_quantity req) p)) ∧
    (∀ other, other ≠ pb_product_id req →
              products db' !! other = products db !! other) ∧
    todayTotal env id db'
    = todayTotal env id db
      + (if bool_decide (day = today env) then pb_quantity req else 0) ∧
    (∀ c, clusters db !! id = Some c →
          clusters db' !! id
          = Some (set_utilization
                    (utilization_of (todayTotal env id db') (dailyCapacity c))
                    c)) ∧
    (clusters db !! id = None → clusters db' = clusters db) ∧
    (∀ other, other ≠ id → clusters db' !! other = clusters db !! other).
Proof.
  intros Hrun Hs.
  destruct (post_production_201 env user req db resp db' Hrun Hs)
    as (id & day & _ & Hid & Hday & _ & Hup).
  destruct (production_logged_tables id req day db) as (Hprod & Hcl & Hstock).
  rewrite updateClusterUtilization_spec in Hup. injection Hup as Hdb'.
  set (mid := production_logged id req day db) in *.
  assert (Htotal : todayTotal env id db' = todayTotal env id mid).
  { rewrite <- Hdb'. by destruct (clusters mid !! id). }
  assert (Hmid : todayTotal env id mid
                 = todayTotal env id db
                   + (if bool_decide (day = today env) then pb_quantity req
                      else 0)).
  { subst mid. case_bool_decide as Hd.
    - subst day. apply todayTotal_logged.
    - rewrite todayTotal_logged_other_day by done. lia. }
  assert (Htables : production db' = production mid
                    ∧ products db' = products mid).
  { rewrite <- Hdb'. by destruct (clusters mid !! id). }
  destruct Htables as [Hp' Hs'].
  exists id, day, (production_row id req day).
  do 2 (split; [done|]). split; [by rewrite Hp'|]. do 4 (split; [done|]).
  split; [|split; [|split; [|split; [|split]]]].
  - intros p Hp. rewrite Hs', Hstock, Hp. by rewrite lookup_alter_eq, Hp.
  - intros other Hne. rewrite Hs', Hstock.
    destruct (products db !! pb_product_id req); [|done].
    by rewrite lookup_alter_ne.
  - by rewrite Htotal.
  - intros c Hc. rewrite Htotal, <- Hdb', Hcl, Hc. cbn [clusters set_clusters].
    by rewrite ?Hcl, lookup_alter_eq, Hc.
  - intros Hnone. by rewrite <- Hdb', Hcl, Hnone.
  - intros other Hne. rewrite <- Hdb', Hcl.
    destruct (clusters db !! id); [|by rewrite Hcl].
    cbn [clusters set_clusters]. by rewrite ?Hcl, lookup_alter_ne.
Qed.

Lemma production_stock_and_utilization_witness :
  let req := {| pb_product_id := "p-bowl"; pb_quantity := 40;
                pb_shift := "Morning"; pb_date := Some 20400 |} in
  let db' := (run (post_production demo_env demo_manager req) busy_db).2 in
  ∃ id day row,
    auth_cluster_id demo_manager = Some id ∧
    pb_date req = Some day ∧
    production db' = production busy_db ++ [row] ∧
    production_cluster_id row = id ∧
    production_product_id row = pb_product_id req ∧
    quantity row = pb_quantity req ∧
    date row = day ∧
    (∀ p, products busy_db !! pb_product_id req = Some p →
          products db' !! pb_product_id req
          = Some (set_stock (stock p + pb_quantity req) p)) ∧
    (∀ other, other ≠ pb_product_id req →
              products db' !! other = products busy_db !! other) ∧
    todayTotal demo_env id db'
    = todayTotal demo_env id busy_db
      + (if bool_decide (day = today demo_env) then pb_quantity req else 0) ∧
    (∀ c, clusters busy_db !! id = Some c →
          clusters db' !! id
          = Some (set_utilization
                    (utilization_of (todayTotal demo_env id db')
                       (dailyCapacity c)) c)) ∧
    (clusters busy_db !! id = None → clusters db' = clusters busy_db) ∧
    (∀ other, other ≠ id → clusters db' !! other = clusters busy_db !! other).
Proof.
  intros req.
  refine (production_stock_and_utilization demo_env demo_manager req busy_db
            (run (post_production demo_env demo_manager req) busy_db).1 _ _ _).
  - apply surjective_pairing.
  - vm_compute; reflexivity.
Defined.

(** On the sample store: Khairpur had logged 100 units today; 40 more bowls
    make 140 of a capacity of 1000, and the stored utilization becomes 14. *)
Example production_stock_and_utilization_values :
  let req := {| pb_product_id := "p-bowl"; pb_quantity := 40;
                pb_shift := "Morning"; pb_date := Some 20400 |} in
  let db' := (run (post_production demo_env demo_manager req) busy_db).2 in
  stock <$> products db' !! "p-bowl" = Some 390 ∧
  todayTotal demo_env "c-khairpur" db' = 140 ∧
  utilization <$> clusters db' !! "c-khairpur" = Some 14.
Proof.
  split; [vm_compute; reflexivity|]. split; vm_compute; reflexivity.
Qed.

Lemma set_utilization_same c : set_utilization (utilization c) c = c.
Proof. by destruct c. Qed.

(** X8.  Whatever a production request answers, it leaves the users, the
    orders, the order items, the profiles and the employees alone; it adds
    and removes no cluster; and a cluster row can differ afterwards only in
    its utilization, and only if it is the cluster on the token. *)
Theorem post_production_frame env user req db resp db' :
  run (post_production env user req) db = (resp, db') →
  users db' = users db ∧
  orders db' = orders db ∧
  order_items db' = order_items db ∧
  client_profiles db' = client_profiles db ∧
  employees db' = employees db ∧
  ∀ id,
    (clusters db !! id = None → clusters db' !! id = None) ∧
    (∀ c, clusters db !! id = Some c →
          (∃ u, clusters db' !! id = Some (set_utilization u c)) ∧
          (auth_cluster_id user ≠ Some id → clusters db' !! id = Some c)).
Proof.
  intros Hrun.
  destruct (post_production_store env user req db resp db' Hrun)
    as [->|(C & day & HC & _ & Hup)].
  - do 5 (split; [done|]). intros id. split; [done|].
    intros c Hc. split; [|done]. exists (utilization c).
    by rewrite set_utilization_same.
  - rewrite updateClusterUtilization_spec in Hup.
    destruct (production_logged_tables C req day db) as (_ & Hcl & _).
    assert (Hrest :
      users (production_logged C req day db) = users db ∧
      orders (production_logged C req day db) = orders db ∧
      order_items (production_logged C req day db) = order_items db ∧
      client_profiles (production_logged C req day db) = client_profiles db ∧
      employees (production_logged C req day db) = employees db).
    { unfold production_logged.
      by destruct (products db !! pb_product_id req). }
    destruct Hrest as (Hu & Ho & Hi & Hp & He).
    rewrite Hcl in Hup.
    destruct (clusters db !! C) as [cC|] eqn:HcC; injection Hup as <-.
    + simpl. do 5 (split; [done|]). intros id.
      destruct (decide (C = id)) as [->|Hne].
      * rewrite lookup_alter_eq, HcC. split; [done|].
        intros c [= <-]. split; [by eexists|]. intros Hno. by destruct Hno.
      * rewrite lookup_alter_ne by done. split; [done|].
        intros c Hc. split; [|done]. exists (utilization c).
        by rewrite set_utilization_same.
    + do 5 (split; [done|]). intros id. rewrite Hcl. split; [done|].
      intros c Hc. split; [|done]. exists (utilization c).
      by rewrite set_utilization_same.
Qed.

Lemma post_production_frame_witness :
  let req := {| pb_product_id := "p-bowl"; pb_quantity := 45;
                pb_shift := "Evening"; pb_date := Some 20400 |} in
  let db' := (run (post_production demo_env demo_manager req) busy_db).2 in
  users db' = users busy_db ∧
  orders db' = orders busy_db ∧
  order_items db' = order_items busy_db ∧
  client_profiles db' = client_profiles busy_db ∧
  employees db' = employees busy_db ∧
  ∀ id,
    (clusters busy_db !! id = None → clusters db' !! id = None) ∧
    (∀ c, clusters busy_db !! id = Some c →
          (∃ u, clusters db' !! id = Some (set_utilization u c)) ∧
          (auth_cluster_id demo_manager ≠ Some id →
           clusters db' !! id = Some c)).
Proof.
  intros req.
  refine (post_production_frame demo_env demo_manager req busy_db _ _ _).
  apply surjective_pairing.
Defined.

(** ** The utilization recomputation and the read paths *)

Lemma todayTotal_set_clusters env id t db :
  todayTotal env id (set_clusters t db) = todayTotal env id db.
Proof. reflexivity. Qed.

(** X9.  Recomputing a cluster's utilization twice gives the store that
    recomputing it once gives: the figure depends on the production rows and
    the capacity only, not on the utilization stored before. *)
Theorem updateClusterUtilization_idempotent env id db :
  updateClusterUtilization env id (updateClusterUtilization env id db).2
  = (inr tt, (updateClusterUtilization env id db).2).
Proof.
  rewrite !updateClusterUtilization_spec. cbn [snd].
  destruct (clusters db !! id) as [c|] eqn:Hc.
  - cbn [clusters set_clusters]. rewrite lookup_alter_eq, Hc. simpl.
    rewrite todayTotal_set_clusters. f_equal.
    unfold set_clusters. simpl. f_equal.
    apply map_eq. intros k. destruct (decide (id = k)) as [->|Hne].
    + by rewrite !lookup_alter_eq, Hc.
    + by rewrite !lookup_alter_ne.
  - by rewrite Hc.
Qed.

(** X10.  Right after a recomputation, and as long as today's total of the
    cluster is not zero, the detail read path displays exactly the
    utilization that is stored. *)
Theorem read_path_agrees_with_stored env user id db c :
  clusters db !! id = Some c →
  todayTotal env id db ≠ 0 →
  let db' := (updateClusterUtilization env id db).2 in
  ∃ c',
    clusters db' !! id = Some c' ∧
    utilization c' = utilization_of (todayTotal env id db) (dailyCapacity c) ∧
    run (get_cluster env user id) db'
    = ({| http_status := 200;
          body := ClusterDetail c' (employees_count id db') |}, db').
Proof.
  intros Hc Hne. cbn zeta. rewrite updateClusterUtilization_spec, Hc.
  cbn [snd]. eexists. split.
  { cbn [clusters set_clusters]. by rewrite lookup_alter_eq, Hc. }
  split; [done|].
  unfold get_cluster. handler_unfold.
  cbn [clusters set_clusters]. rewrite lookup_alter_eq, Hc. simpl.
  unfold cluster_view, displayed_total.
  rewrite todayTotal_set_clusters.
  destruct (todayTotal env id db =? 0) eqn:E; [apply Z.eqb_eq in E; done|].
  done.
Qed.

Lemma read_path_agrees_with_stored_witness :
  let db' := (updateClusterUtilization demo_env "c-khairpur" busy_db).2 in
  ∃ c',
    clusters db' !! "c-khairpur" = Some c' ∧
    utilization c'
    = utilization_of (todayTotal demo_env "c-khairpur" busy_db)
        (dailyCapacity khairpur) ∧
    run (get_cluster demo_env demo_admin "c-khairpur") db'
    = ({| http_status := 200;
          body := ClusterDetail c' (employees_count "c-khairpur" db') |}, db').
Proof.
  refine (read_path_agrees_with_stored demo_env demo_admin "c-khairpur"
            busy_db khairpur _ _).
  - vm_compute; reflexivity.
  - vm_compute; discriminate.
Defined.

(** With no production today the two part ways: the recomputation stores 0
    for Khairpur, the read path falls back to the day before and shows 90. *)
Example read_path_differs_from_stored :
  let db :=
    set_production
      [ {| production_cluster_id := "c-khairpur";
           production_product_id := "p-bowl"; quantity := 900;
           shift := "Evening"; date := 20399 |} ] demo_db in
  let db' := (updateClusterUtilization demo_env "c-khairpur" db).2 in
  utilization <$> clusters db' !! "c-khairpur" = Some 0 ∧
  ∃ c n,
    body (run (get_cluster demo_env demo_admin "c-khairpur") db').1
    = ClusterDetail c n ∧ utilization c = 90.
Proof.
  split; [vm_compute; reflexivity|].
  eexists _, _. split; vm_compute; reflexivity.
Qed.

(** ** Clusters: failed creations, invariants, deletions *)

(** X11.  Whatever makes a cluster creation fail (the role guard, a missing
    field, a registered email, a refused insert of the cluster or of its
    manager), the store is left as it was. *)
Theorem post_cluster_refusal_keeps_store env user req db resp db' :
  run (post_cluster env user req) db = (resp, db') →
  http_status resp ≠ 201 →
  db' = db.
Proof. apply post_cluster_failure_leaves_store. Qed.

Lemma post_cluster_refusal_keeps_store_witness :
  (run (post_cluster demo_env demo_admin sehwan_taken) demo_db).2 = demo_db.
Proof.
  refine (post_cluster_refusal_keeps_store demo_env demo_admin sehwan_taken
            demo_db _ _ _ _).
  - apply surjective_pairing.
  - vm_compute; discriminate.
Defined.

Lemma single_filter_none {A} (P : A → Prop) `{∀ x, Decision (P x)}
    (l : list A) (x : A) :
  NoDup l → x ∈ l → P x → (∀ y, y ∈ l → P y → y = x) →
  single (filter P l) = Some x.
Proof.
  intros Hnd Hx HPx Hall.
  assert (Hin : x ∈ filter P l) by (by apply list_elem_of_filter).
  assert (Hnd' : NoDup (filter P l)) by (by apply NoDup_filter).
  assert (Hall' : ∀ y, y ∈ filter P l → y = x).
  { intros y [Hy1 Hy2]%list_elem_of_filter. by apply Hall. }
  destruct (filter P l) as [|a [|b l']]; [by apply elem_of_nil in Hin| |].
  - simpl. f_equal. apply Hall'. apply list_elem_of_here.
  - exfalso. apply NoDup_cons in Hnd' as [Hnotin _]. apply Hnotin.
    rewrite (Hall' a) by apply list_elem_of_here.
    rewrite <- (Hall' b) by apply list_elem_of_further, list_elem_of_here.
    apply list_elem_of_here.
Qed.

(** With unique emails, the lookup by email finds the registered user. *)
Lemma users_by_email_unique db k u :
  emails_unique db →
  users db !! k = Some u →
  users_by_email (email u) db = Some (k, u).
Proof.
  intros Huniq Hk. unfold users_by_email.
  apply single_filter_none.
  - apply NoDup_map_to_list.
  - by apply elem_of_map_to_list.
  - done.
  - intros [k' u'] Hin%elem_of_map_to_list Heq. simpl in Heq.
    assert (k' = k) as -> by (by eapply Huniq).
    by rewrite Hk in Hin; injection Hin as ->.
Qed.

Lemma post_cluster_201_email env user req db resp db' :
  run (post_cluster env user req) db = (resp, db') →
  http_status resp = 201 →
  users_by_email (cb_email req) db = None.
Proof.
  cluster_unfold.
  destruct (bool_decide (auth_role user ∈ [role_admin]));
    [|intros [= <- _]; discriminate].
  destruct (missing_cluster_fields req); [intros [= <- _]; discriminate|].
  by destruct (users_by_email (cb_email req) db);
    [intros [= <- _]; discriminate|].
Qed.

Lemma post_cluster_store env user req db resp db' :
  run (post_cluster env user req) db = (resp, db') →
  db' = db ∨
  (users_by_email (cb_email req) db = None ∧
   clusters db !! new_cluster_id env = None ∧
   users db !! new_user_id env = None ∧
   db' = cluster_created env req db).
Proof.
  intros Hrun. destruct (decide (http_status resp = 201)) as [Hs|Hs].
  - right.
    destruct (post_cluster_201 env user req db resp db' Hrun Hs)
      as (Hc & Hu & ->).
    split; [by eapply post_cluster_201_email|done].
  - left. by eapply post_cluster_failure_leaves_store.
Qed.

(** X12.  Cluster creation keeps emails unique: on a store where no two users
    share an email, whatever the request and the answer, no two users share
    one afterwards. *)
Theorem post_cluster_emails_unique env user req db resp db' :
  emails_unique db →
  run (post_cluster env user req) db = (resp, db') →
  emails_unique db'.
Proof.
  intros Huniq Hrun.
  destruct (post_cluster_store env user req db resp db' Hrun)
    as [->|(Hnone & _ & Hfresh & ->)]; [done|].
  assert (Hnew : ∀ k u, users db !! k = Some u → email u ≠ cb_email req).
  { intros k u Hk Heq.
    pose proof (users_by_email_unique db k u Huniq Hk) as Hsome.
    rewrite Heq in Hsome. congruence. }
  intros k1 k2 u1 u2. simpl.
  rewrite !lookup_insert_Some.
  intros [[<- <-]|[Hne1 H1]] [[<- <-]|[Hne2 H2]] Heq; [done| | |].
  - simpl in Heq. by destruct (Hnew k2 u2 H2).
  - simpl in Heq. by destruct (Hnew k1 u1 H1).
  - by eapply Huniq.
Qed.

Lemma demo_db_emails_unique : emails_unique demo_db.
Proof.
  intros k1 k2 u1 u2 H1 H2. unfold demo_db in H1, H2. simpl in H1, H2.
  apply lookup_insert_Some in H1 as [[<- <-]|[? H1]];
    [|apply lookup_insert_Some in H1 as [[<- <-]|[? H1]]; [|done]];
    (apply lookup_insert_Some in H2 as [[<- <-]|[? H2]];
       [|apply lookup_insert_Some in H2 as [[<- <-]|[? H2]]; [|done]]);
    done.
Defined.

Lemma post_cluster_emails_unique_witness :
  emails_unique (run (post_cluster demo_env demo_admin sehwan) demo_db).2.
Proof.
  refine (post_cluster_emails_unique demo_env demo_admin sehwan demo_db _ _
            demo_db_emails_unique _).
  apply surjective_pairing.
Defined.

(** The handler's second delete never takes effect: the user it aims at is
    the one the cluster row, still there, names as its manager. *)
Lemma manager_delete_no_effect db id :
  users_delete_unchecked (clusters db !! id ≫= manager_id) db = (inr tt, db).
Proof.
  destruct (clusters db !! id) as [c|] eqn:Hc; [|done]. simpl.
  destruct (manager_id c) as [k|] eqn:Hm; [|done].
  unfold users_delete_unchecked, modify.
  destruct (users db !! k); [|done].
  by rewrite (manager_referenced db id c k).
Qed.

Lemma delete_cluster_store env user id db resp db' :
  run (delete_cluster env user id) db = (resp, db') →
  (http_status resp ≠ 200 ∧ db' = db) ∨
  (http_status resp = 500 ∧ db' = without_members id db) ∨
  (http_status resp = 200 ∧
   existsb (λ kv, user_referenced db kv.1) (map_to_list (members id db))
   = false ∧
   (db' = without_members id db ∧ clusters db !! id = None ∨
    db' = without_cluster id (without_members id db))).
Proof.
  unfold delete_cluster, authorizeRole, users_delete_of_cluster. handler_unfold.
  destruct (bool_decide (auth_role user ∈ [role_admin]));
    [|simpl; intros [= <- <-]; left; by split].
  destruct (users_delete_error env);
    [simpl; intros [= <- <-]; left; by split|].
  simpl. destruct (existsb _ _) eqn:Href;
    [simpl; intros [= <- <-]; left; by split|].
  unfold gets. simpl.
  change (clusters db) with (clusters (without_members id db)).
  rewrite manager_delete_no_effect.
  unfold clusters_delete.
  destruct (clusters_delete_error env);
    [simpl; intros [= <- <-]; right; left; by split|].
  destruct (clusters (without_members id db) !! id) eqn:Hc;
    [|simpl; intros [= <- <-]; right; right; repeat split; by left].
  destruct (cluster_referenced _ _);
    simpl; intros [= <- <-]; [right; left; by split|].
  right; right. repeat split. by right.
Qed.

Lemma without_members_users id db k u :
  users (without_members id db) !! k = Some u ↔
  users db !! k = Some u ∧ cluster_id u ≠ Some id.
Proof. unfold without_members. simpl. by rewrite map_lookup_filter_Some. Qed.

(** X13.  Cluster creation and cluster deletion keep the users'
    [cluster_id] pointing at existing clusters: on a store where every
    user's cluster exists, it does so after either request, whatever the
    answer (also when a deletion stops half way). *)
Theorem cluster_routes_keep_references db :
  users_reference_clusters db →
  (∀ env user req resp db',
     run (post_cluster env user req) db = (resp, db') →
     users_reference_clusters db') ∧
  (∀ env user id resp db',
     run (delete_cluster env user id) db = (resp, db') →
     users_reference_clusters db').
Proof.
  intros Hfk. split.
  - intros env user req resp db' Hrun.
    destruct (post_cluster_store env user req db resp db' Hrun)
      as [->|(_ & _ & _ & ->)]; [done|].
    intros k u id. simpl. rewrite lookup_insert_Some.
    intros [[<- <-]|[_ Hk]] Hid.
    + injection Hid as <-. rewrite lookup_insert_eq. by eexists.
    + destruct (Hfk k u id Hk Hid) as [c Hc].
      destruct (decide (new_cluster_id env = id)) as [->|Hne].
      * rewrite lookup_insert_eq. by eexists.
      * rewrite lookup_insert_ne by done. by eexists.
  - intros env user id resp db' Hrun.
    destruct (delete_cluster_store env user id db resp db' Hrun)
      as [[_ ->]|[(_ & ->)|(_ & _ & [[-> _]| ->])]]; [done| | |].
    + intros k u id'. intros (Hk & _)%without_members_users Hid.
      by eapply Hfk.
    + intros k u id'. intros (Hk & _)%without_members_users Hid.
      by eapply Hfk.
    + intros k u id'. intros (Hk & Hne)%without_members_users Hid.
      simpl. rewrite lookup_delete_ne by congruence. by eapply Hfk.
Qed.

Lemma cluster_routes_keep_references_witness :
  (∀ env user req resp db',
     run (post_cluster env user req) demo_db = (resp, db') →
     users_reference_clusters db') ∧
  (∀ env user id resp db',
     run (delete_cluster env user id) demo_db = (resp, db') →
     users_reference_clusters db').
Proof.
  exact (cluster_routes_keep_references demo_db demo_db_references).
Defined.

(** X14.  A deletion answered 200 has removed the cluster row and nothing
    else from the clusters, and exactly the users whose [cluster_id] it is,
    each with their profile.  The user the cluster row names as its manager
    is not removed: the delete aimed at the manager is refused by
    [clusters.manager_id REFERENCES users(id)] while the cluster row is
    there, and a manager who is one of the cluster's users keeps the
    deletion from reaching 200 at all. *)
Theorem delete_cluster_removes env user id db resp db' :
  run (delete_cluster env user id) db = (resp, db') →
  http_status resp = 200 →
  clusters db' = delete id (clusters db) ∧
  (∀ k u,
     users db' !! k = Some u ↔
     users db !! k = Some u ∧ cluster_id u ≠ Some id) ∧
  (∀ c k,
     clusters db !! id = Some c → manager_id c = Some k →
     users db' !! k = users db !! k) ∧
  (∀ k p,
     client_profiles db' !! k = Some p ↔
     client_profiles db !! k = Some p ∧
     ¬ ∃ u, users db !! k = Some u ∧ cluster_id u = Some id).
Proof.
  intros Hrun Hs.
  destruct (delete_cluster_store env user id db resp db' Hrun)
    as [[Hn _]|[(Hn & _)|(_ & Href & Hdb')]]; [done|lia|].
  assert (Hclusters : clusters db' = delete id (clusters db)).
  { destruct Hdb' as [[-> Hnone]| ->]; simpl; [|done].
    by rewrite delete_id. }
  assert (Husers : users db' = users (without_members id db))
    by (by destruct Hdb' as [[-> _]| ->]).
  assert (Hprofiles : client_profiles db'
                      = client_profiles (without_members id db))
    by (by destruct Hdb' as [[-> _]| ->]).
  split; [done|]. split; [|split].
  - intros k u. rewrite Husers. apply without_members_users.
  - intros c k Hc Hm. rewrite Husers.
    destruct (users db !! k) as [u|] eqn:Hk.
    + apply without_members_users. split; [done|]. intros Hid.
      assert (Htrue : existsb (λ kv, user_referenced db kv.1)
                        (map_to_list (members id db)) = true).
      { apply (existsb_elem _ _ (k, u)).
        - apply elem_of_map_to_list. by apply members_lookup.
        - simpl. by eapply manager_referenced. }
      congruence.
    + destruct (users (without_members id db) !! k) as [u|] eqn:E; [|done].
      apply without_members_users in E as [E _]. congruence.
  - intros k p. rewrite Hprofiles. unfold without_members. simpl.
    rewrite map_lookup_filter_Some. simpl.
    split; intros [Hp Hm]; (split; [done|]).
    + intros (u & Hk & Hid).
      assert (members id db !! k = Some u) by (by apply members_lookup).
      congruence.
    + destruct (members id db !! k) as [u|] eqn:E; [|done].
      apply members_lookup in E. destruct Hm. by exists u.
Qed.

Lemma delete_cluster_removes_witness :
  let out := run (delete_cluster demo_env demo_admin "c-sukkur") staffed_db in
  clusters out.2 = delete "c-sukkur" (clusters staffed_db) ∧
  (∀ k u,
     users out.2 !! k = Some u ↔
     users staffed_db !! k = Some u ∧ cluster_id u ≠ Some "c-sukkur") ∧
  (∀ c k,
     clusters staffed_db !! "c-sukkur" = Some c → manager_id c = Some k →
     users out.2 !! k = users staffed_db !! k) ∧
  (∀ k p,
     client_profiles out.2 !! k = Some p ↔
     client_profiles staffed_db !! k = Some p ∧
     ¬ ∃ u, users staffed_db !! k = Some u ∧ cluster_id u = Some "c-sukkur").
Proof.
  refine (delete_cluster_removes demo_env demo_admin "c-sukkur" staffed_db
            (run (delete_cluster demo_env demo_admin "c-sukkur") staffed_db).1
            _ _ _).
  - apply surjective_pairing.
  - vm_compute; reflexivity.
Defined.

(** On that store the clerk is removed and the lead, the manager, stays. *)
Example delete_cluster_keeps_manager :
  let out := run (delete_cluster demo_env demo_admin "c-sukkur") staffed_db in
  http_status out.1 = 200 ∧
  clusters out.2 !! "c-sukkur" = None ∧
  users out.2 !! "u-clerk" = None ∧
  user_name <$> users out.2 !! "u-lead" = Some "Sukkur Lead".
Proof.
  split; [vm_compute; reflexivity|].
  split; [vm_compute; reflexivity|]. split; vm_compute; reflexivity.
Qed.

(** X15.  A deletion is not undone when it stops half way: if none of the
    cluster's users is referenced by a cluster (as manager) or by an order,
    so that the datastore takes the delete of the users, and it then refuses
    the cluster delete, the answer is 500, the cluster row is still there,
    and the users of the cluster are gone. *)
Theorem delete_cluster_half_way env user id db :
  auth_role user = role_admin →
  users_delete_error env = false →
  (∀ k u, users db !! k = Some u → cluster_id u = Some id →
          user_referenced db k = false) →
  clusters_delete_error env = true →
  (run (delete_cluster env user id) db).1
  = {| http_status := 500; body := Error "Failed to delete cluster" |} ∧
  clusters (run (delete_cluster env user id) db).2 = clusters db ∧
  ∀ k u,
    users db !! k = Some u → cluster_id u = Some id →
    users (run (delete_cluster env user id) db).2 !! k = None.
Proof.
  intros Hadmin Hue Hfree Hce.
  assert (Href : existsb (λ kv, user_referenced db kv.1)
                   (map_to_list (members id db)) = false).
  { apply not_true_is_false. intros ([k u] & Hin & Hr)%existsb_exists.
    apply list_elem_of_In, elem_of_map_to_list, members_lookup in Hin
      as [Hk Hid].
    simpl in Hr. rewrite (Hfree k u Hk Hid) in Hr. discriminate. }
  assert (Hrun : run (delete_cluster env user id) db
                 = ({| http_status := 500;
                       body := Error "Failed to delete cluster" |},
                    without_members id db)).
  { unfold delete_cluster, authorizeRole, users_delete_of_cluster.
    handler_unfold.
    rewrite bool_decide_true
      by (rewrite Hadmin; by apply list_elem_of_singleton).
    rewrite Hue, Href. simpl. unfold gets. simpl.
    change (clusters db) with (clusters (without_members id db)).
    rewrite manager_delete_no_effect. unfold clusters_delete.
    by rewrite Hce. }
  rewrite Hrun. do 2 (split; [done|]).
  intros k u Hk Hid.
  destruct (users (without_members id db) !! k) as [u'|] eqn:E; [|done].
  apply without_members_users in E as (Hk' & Hne). congruence.
Qed.

Lemma delete_cluster_half_way_witness :
  (run (delete_cluster refusing_cluster_delete_env demo_admin "c-khairpur")
     demo_db).1
  = {| http_status := 500; body := Error "Failed to delete cluster" |} ∧
  clusters
    (run (delete_cluster refusing_cluster_delete_env demo_admin "c-khairpur")
       demo_db).2 = clusters demo_db ∧
  ∀ k u,
    users demo_db !! k = Some u → cluster_id u = Some "c-khairpur" →
    users
      (run (delete_cluster refusing_cluster_delete_env demo_admin
              "c-khairpur") demo_db).2 !! k = None.
Proof.
  refine (delete_cluster_half_way refusing_cluster_delete_env demo_admin
            "c-khairpur" demo_db _ _ _ _); [reflexivity|reflexivity| |reflexivity].
  intros k u Hk _. unfold demo_db in Hk. simpl in Hk.
  apply lookup_insert_Some in Hk as [[<- _]|[_ Hk]]; [vm_compute; reflexivity|].
  apply lookup_insert_Some in Hk as [[<- _]|[_ Hk]]; [vm_compute; reflexivity|].
  done.
Defined.

(** X16.  Deleting a cluster id that is not in the table is answered 200 all
    the same, and leaves the store as it was when every user's cluster
    exists. *)
Theorem delete_cluster_unknown env user id db :
  users_reference_clusters db →
  clusters db !! id = None →
  auth_role user = role_admin →
  users_delete_error env = false →
  clusters_delete_error env = false →
  run (delete_cluster env user id) db
  = ({| http_status := 200;
        body := Message "Cluster and associated users deleted successfully" |},
     db).
Proof.
  intros Hfk Hnone Hadmin Hue Hce.
  assert (Hempty : members id db = ∅).
  { apply map_empty. intros k.
    destruct (members id db !! k) as [u|] eqn:E; [|done].
    apply members_lookup in E as [Hk Hid].
    destruct (Hfk k u id Hk Hid) as [c Hc]. congruence. }
  assert (Hsame : without_members id db = db).
  { unfold without_members. rewrite Hempty.
    rewrite !map_filter_id; [by destruct db| |].
    - intros k u Hk. simpl. intros Hid.
      destruct (Hfk k u id Hk Hid) as [c Hc]. congruence.
    - intros k p _. simpl. apply lookup_empty. }
  unfold delete_cluster, authorizeRole, users_delete_of_cluster.
  handler_unfold.
  rewrite bool_decide_true
    by (rewrite Hadmin; by apply list_elem_of_singleton).
  rewrite Hue, Hempty, map_to_list_empty. simpl. unfold gets. simpl.
  rewrite Hnone. simpl. unfold clusters_delete. rewrite Hce, Hsame, Hnone.
  done.
Qed.

Lemma delete_cluster_unknown_witness :
  run (delete_cluster demo_env demo_admin "c-nowhere") demo_db
  = ({| http_status := 200;
        body := Message "Cluster and associated users deleted successfully" |},
     demo_db).
Proof.
  refine (delete_cluster_unknown demo_env demo_admin "c-nowhere" demo_db
            demo_db_references _ _ _ _).
  - vm_compute; reflexivity.
  - reflexivity.
  - reflexivity.
  - reflexivity.
Defined.

(** * Profile, order and statistics routes *)

Ltac route_unfold :=
  unfold serve, get_profile, post_profile, get_profile_check, get_orders,
    get_order, get_production_stats, allow, mbind, Route_bind, mret,
    Route_ret, read, write, answer in *.

(** ** The profile routes and the checkout gate *)

Lemma falsy_field_truthy s :
  negb (JS.truthy s) = false → falsy_field (Some s) = false.
Proof. done. Qed.

Lemma post_profile_200 faults user req db a db' :
  serve (post_profile faults user req) db = (a, db') →
  answer_status a = 200 →
  profile_incomplete (Some (profile_of req)) = false ∧
  db' = set_client_profiles
          (<[auth_id user := profile_of req]> (client_profiles db)) db.
Proof.
  route_unfold.
  destruct (bool_decide (auth_role user ∈ [role_client]));
    [|intros [= <- _]; discriminate].
  destruct (_ || _) eqn:Hmissing; [intros [= <- _]; discriminate|].
  simpl.
  destruct (client_profiles_write_error faults);
    [intros [= <- _]; discriminate|].
  apply orb_false_elim in Hmissing as [Hmissing H5].
  apply orb_false_elim in Hmissing as [Hmissing H4].
  apply orb_false_elim in Hmissing as [Hmissing H3].
  apply orb_false_elim in Hmissing as [H1 H2].
  assert (Hcomplete : profile_incomplete (Some (profile_of req)) = false).
  { unfold profile_incomplete, profile_of, falsy_field. simpl.
    by rewrite H1, H2, H3, H4, H5. }
  destruct (client_profiles db !! auth_id user) as [old|] eqn:Hold; simpl;
    intros [= _ <-] _; split; try done.
  f_equal. apply map_eq. intros k.
  destruct (decide (auth_id user = k)) as [<-|Hne].
  - by rewrite lookup_alter_eq, lookup_insert_eq, Hold.
  - by rewrite lookup_alter_ne, lookup_insert_ne.
Qed.

Lemma check_items_inl_body items : ∀ t ds db r db',
  check_items items t ds db = (inl r, db') → ∃ msg, body r = Error msg.
Proof.
  induction items as [|l items IH]; intros t ds db r db'; simpl.
  - handler_unfold. discriminate.
  - destruct (_ || _); [handler_unfold; intros [= <- _]; by eexists|].
    handler_unfold.
    destruct (products db !! product_id l) as [p|];
      [|intros [= <- _]; by eexists].
    destruct (stock p <? line_quantity l); [intros [= <- _]; by eexists|].
    apply IH.
Qed.

Lemma post_cart_complete_profile env user req db resp db' :
  profile_incomplete (client_profiles db !! auth_id user) = false →
  run (post_cart env user req) db = (resp, db') →
  ∀ msg, body resp ≠ ProfileIncomplete msg.
Proof.
  intros Hprof. unfold post_cart.
  destruct (items req) as [[|l ls]|];
    [handler_unfold; intros [= <- _]; done| |
     handler_unfold; intros [= <- _]; done].
  handler_unfold. rewrite Hprof.
  destruct (check_items (l :: ls) (JS.of_Z 0) [] db)
    as [[r|[t ds]] db1] eqn:Hc.
  - intros [= <- _] msg. apply check_items_inl_body in Hc as [m ->]. done.
  - destruct ds as [|first ds]; [intros [= <- _]; done|].
    unfold insert_row.
    destruct (orders_insert_error env); [intros [= <- _]; done|].
    destruct (orders db1 !! new_order_id env); [intros [= <- _]; done|].
    simpl.
    destruct (order_items_insert_error env); [intros [= <- _]; done|].
    handler_unfold. simpl. rewrite update_stocks_spec. intros [= <- _]. done.
Qed.

(** X17.  A profile save answered 200 stores the five submitted fields for
    the requesting user and touches no other profile; from then on the
    checkout gate lets that user through: no cart checkout of theirs on the
    resulting store is answered with [profileIncomplete]. *)
Theorem profile_save_opens_checkout faults user req db a db' :
  serve (post_profile faults user req) db = (a, db') →
  answer_status a = 200 →
  client_profiles db' !! auth_id user = Some (profile_of req) ∧
  (∀ other, other ≠ auth_id user →
            client_profiles db' !! other = client_profiles db !! other) ∧
  profile_incomplete (client_profiles db' !! auth_id user) = false ∧
  (∀ env cart resp db'',
     run (post_cart env user cart) db' = (resp, db'') →
     ∀ msg, body resp ≠ ProfileIncomplete msg).
Proof.
  intros Hserve Hs.
  destruct (post_profile_200 faults user req db a db' Hserve Hs)
    as [Hcomplete ->].
  assert (Hrow : client_profiles
                   (set_client_profiles
                      (<[auth_id user := profile_of req]> (client_profiles db))
                      db) !! auth_id user = Some (profile_of req))
    by (simpl; by rewrite lookup_insert_eq).
  split; [done|]. split.
  { intros other Hne. simpl. by rewrite lookup_insert_ne. }
  split; [by rewrite Hrow|].
  intros env cart resp db'' Hrun.
  eapply post_cart_complete_profile; [|done]. by rewrite Hrow.
Qed.

Lemma profile_save_opens_checkout_witness :
  let db' := (serve (post_profile no_faults demo_guest guest_profile)
                demo_db).2 in
  client_profiles db' !! auth_id demo_guest = Some (profile_of guest_profile) ∧
  (∀ other, other ≠ auth_id demo_guest →
            client_profiles db' !! other = client_profiles demo_db !! other) ∧
  profile_incomplete (client_profiles db' !! auth_id demo_guest) = false ∧
  (∀ env cart resp db'',
     run (post_cart env demo_guest cart) db' = (resp, db'') →
     ∀ msg, body resp ≠ ProfileIncomplete msg).
Proof.
  refine (profile_save_opens_checkout no_faults demo_guest guest_profile
            demo_db
            (serve (post_profile no_faults demo_guest guest_profile)
               demo_db).1 _ _ _).
  - apply surjective_pairing.
  - vm_compute; reflexivity.
Defined.

(** X18.  A profile save that is not answered 200 writes nothing; and for a
    client, a request with an empty field is answered 400 with the flags of
    [missing] marking exactly the empty fields. *)
Theorem profile_save_refusal faults user req db :
  (answer_status (serve (post_profile faults user req) db).1 ≠ 200 →
   (serve (post_profile faults user req) db).2 = db) ∧
  (auth_role user = role_client →
   pf_phone req = "" ∨ pf_city req = "" ∨ pf_district req = ""
   ∨ pf_state req = "" ∨ pf_address_line req = "" →
   serve (post_profile faults user req) db
   = ({| answer_status := 400;
         payload := PMissing "All fields are required"
                      (bool_decide (pf_phone req = ""))
                      (bool_decide (pf_city req = ""))
                      (bool_decide (pf_district req = ""))
                      (bool_decide (pf_state req = ""))
                      (bool_decide (pf_address_line req = "")) |}, db)).
Proof.
  assert (Hflag : ∀ s, negb (JS.truthy s) = bool_decide (s = "")).
  { intros s. unfold JS.truthy.
    destruct (decide (s = "")) as [->|Hne]; [done|].
    by rewrite bool_decide_true, bool_decide_false. }
  split.
  - route_unfold.
    destruct (bool_decide (auth_role user ∈ [role_client])); [|done].
    destruct (_ || _); [done|]. simpl.
    destruct (client_profiles_write_error faults); [done|].
    destruct (client_profiles db !! auth_id user); simpl; intros Hs;
      by destruct Hs.
  - intros Hrole Hempty. route_unfold.
    rewrite bool_decide_true
      by (rewrite Hrole; by apply list_elem_of_singleton).
    rewrite !Hflag.
    assert (Hany : bool_decide (pf_phone req = "")
                   || bool_decide (pf_city req = "")
                   || bool_decide (pf_district req = "")
                   || bool_decide (pf_state req = "")
                   || bool_decide (pf_address_line req = "") = true).
    { destruct Hempty as [H|[H|[H|[H|H]]]]; rewrite H;
        rewrite ?orb_true_r; done. }
    by rewrite Hany.
Qed.

Lemma js_and_falsy a b :
  falsy_field (js_and a b) = falsy_field a || falsy_field b.
Proof.
  unfold js_and. destruct (falsy_field a) eqn:Ha; [by rewrite Ha|done].
Qed.

Lemma isComplete_falsy profile :
  falsy_field (isComplete profile) = profile_incomplete profile.
Proof.
  destruct profile as [p|]; [|done]. simpl. by rewrite !js_and_falsy.
Qed.

(** X19.  The profile check and the checkout gate agree: for a client,
    [isComplete] is falsy exactly when a checkout would be refused for the
    profile; and when the profile is complete, [isComplete] is not [true]
    but the profile's address line. *)
Theorem profile_check_agrees user db :
  auth_role user = role_client →
  ∃ v,
    serve (get_profile_check user) db
    = ({| answer_status := 200;
          payload := PProfileCheck v (client_profiles db !! auth_id user) |},
       db) ∧
    falsy_field v = profile_incomplete (client_profiles db !! auth_id user) ∧
    (profile_incomplete (client_profiles db !! auth_id user) = false →
     ∃ p, client_profiles db !! auth_id user = Some p ∧ v = address_line p).
Proof.
  intros Hrole. exists (isComplete (client_profiles db !! auth_id user)).
  split.
  { route_unfold.
    by rewrite bool_decide_true
      by (rewrite Hrole; by apply list_elem_of_singleton). }
  split; [apply isComplete_falsy|].
  destruct (client_profiles db !! auth_id user) as [p|]; [|done].
  simpl. intros Hc. exists p. split; [done|].
  apply orb_false_elim in Hc as [Hc H5].
  apply orb_false_elim in Hc as [Hc H4].
  apply orb_false_elim in Hc as [Hc H3].
  apply orb_false_elim in Hc as [H1 H2].
  unfold js_and. by rewrite H1, H2, H3, H4.
Qed.

Lemma profile_check_agrees_witness :
  ∃ v,
    serve (get_profile_check demo_client) demo_db
    = ({| answer_status := 200;
          payload := PProfileCheck v
                       (client_profiles demo_db !! auth_id demo_client) |},
       demo_db) ∧
    falsy_field v
    = profile_incomplete (client_profiles demo_db !! auth_id demo_client) ∧
    (profile_incomplete (client_profiles demo_db !! auth_id demo_client)
     = false →
     ∃ p, client_profiles demo_db !! auth_id demo_client = Some p ∧
          v = address_line p).
Proof.
  refine (profile_check_agrees demo_client demo_db _). reflexivity.
Defined.

Example profile_check_value :
  payload (serve (get_profile_check demo_client) demo_db).1
  = PProfileCheck (Some "Station Road") (Some full_profile) ∧
  payload (serve (get_profile_check demo_guest) demo_db).1
  = PProfileCheck None None.
Proof. split; vm_compute; reflexivity. Qed.

(** X20.  Save, then read: after a save answered 200 the profile read
    returns the five submitted fields, and saving the same request again
    changes nothing. *)
Theorem profile_save_then_read faults user req db a db' :
  serve (post_profile faults user req) db = (a, db') →
  answer_status a = 200 →
  serve (get_profile user) db'
  = ({| answer_status := 200; payload := PProfile (Some (profile_of req)) |},
     db') ∧
  serve (post_profile faults user req) db' = (a, db').
Proof.
  intros Hserve Hs.
  destruct (post_profile_200 faults user req db a db' Hserve Hs)
    as [Hcomplete ->].
  revert Hserve. route_unfold.
  destruct (bool_decide (auth_role user ∈ [role_client]));
    [|intros [= <- _]; discriminate].
  destruct (_ || _); [intros [= <- _]; discriminate|].
  simpl.
  destruct (client_profiles_write_error faults);
    [intros [= <- _]; discriminate|].
  rewrite lookup_insert_eq. simpl.
  assert (Ha : ∀ x : Answer * Db,
            x.1 = a → x = (a, x.2)) by (by intros [? ?] <-).
  intros Hserve. split; [done|].
  assert (a = {| answer_status := 200;
                 payload := PProfileSaved "Profile saved successfully"
                              (profile_of req) |}) as ->.
  { by destruct (client_profiles db !! auth_id user); simpl in Hserve;
      injection Hserve as <-. }
  f_equal. unfold set_client_profiles. simpl. f_equal.
  apply map_eq. intros k.
  destruct (decide (auth_id user = k)) as [<-|Hne].
  - by rewrite lookup_alter_eq, lookup_insert_eq.
  - by rewrite lookup_alter_ne.
Qed.

Lemma profile_save_then_read_witness :
  let out := serve (post_profile no_faults demo_guest guest_profile) demo_db in
  serve (get_profile demo_guest) out.2
  = ({| answer_status := 200;
        payload := PProfile (Some (profile_of guest_profile)) |}, out.2) ∧
  serve (post_profile no_faults demo_guest guest_profile) out.2
  = (out.1, out.2).
Proof.
  refine (profile_save_then_read no_faults demo_guest guest_profile demo_db
            _ _ _ _).
  - apply surjective_pairing.
  - vm_compute; reflexivity.
Defined.

(** ** Order status, deletion and reads *)

Ltac order_unfold :=
  unfold patch_order_status, delete_order, authorizeRole,
    orders_update_status, orders_delete in *;
  handler_unfold.

Lemma set_status_same o : set_status (status o) o = o.
Proof. by destruct o. Qed.

Lemma patch_order_status_ok faults user id v db o :
  auth_role user = role_admin →
  orders_update_error faults = false →
  v ≠ "" →
  orders db !! id = Some o →
  run (patch_order_status faults user id v) db
  = ({| http_status := 200;
        body := OrderPlaced "Order status updated successfully" id
                  (set_status v o) |},
     set_orders (<[id := set_status v o]> (orders db)) db).
Proof.
  intros Hadmin Hue Hv Ho. order_unfold. unfold JS.truthy.
  rewrite bool_decide_true
    by (rewrite Hadmin; by apply list_elem_of_singleton).
  rewrite bool_decide_true by done. simpl. by rewrite Hue, Ho.
Qed.

(** X21.  The status route checks no transition: for an admin, any non-empty
    status replaces any current one (200), only the status of that order
    changes, and patching the previous status back restores the store
    exactly. *)
Theorem order_status_any_transition faults user id v db o :
  auth_role user = role_admin →
  orders_update_error faults = false →
  orders db !! id = Some o →
  v ≠ "" →
  status o ≠ "" →
  let out := run (patch_order_status faults user id v) db in
  http_status out.1 = 200 ∧
  orders out.2 !! id = Some (set_status v o) ∧
  (∀ other, other ≠ id → orders out.2 !! other = orders db !! other) ∧
  products out.2 = products db ∧
  order_items out.2 = order_items db ∧
  run (patch_order_status faults user id (status o)) out.2
  = ({| http_status := 200;
        body := OrderPlaced "Order status updated successfully" id o |}, db).
Proof.
  intros Hadmin Hue Ho Hv Hold. cbn zeta.
  rewrite (patch_order_status_ok faults user id v db o) by done.
  cbn [fst snd http_status]. split; [done|].
  split; [simpl; by rewrite lookup_insert_eq|].
  split; [intros other Hne; simpl; by rewrite lookup_insert_ne|].
  do 2 (split; [done|]).
  rewrite (patch_order_status_ok faults user id (status o) _ (set_status v o))
    by (try done; simpl; by rewrite lookup_insert_eq).
  assert (Hback : set_status (status o) (set_status v o) = o) by (by destruct o).
  rewrite Hback. f_equal. simpl. rewrite insert_insert_eq.
  rewrite insert_id by done. by destruct db.
Qed.

Lemma order_status_any_transition_witness :
  let out := run (patch_order_status no_faults demo_admin "o-0" "Pending")
               shipped_db in
  http_status out.1 = 200 ∧
  orders out.2 !! "o-0" = Some (set_status "Pending" delivered_order) ∧
  (∀ other, other ≠ "o-0" → orders out.2 !! other = orders shipped_db !! other) ∧
  products out.2 = products shipped_db ∧
  order_items out.2 = order_items shipped_db ∧
  run (patch_order_status no_faults demo_admin "o-0" (status delivered_order))
    out.2
  = ({| http_status := 200;
        body := OrderPlaced "Order status updated successfully" "o-0"
                  delivered_order |}, shipped_db).
Proof.
  refine (order_status_any_transition no_faults demo_admin "o-0" "Pending"
            shipped_db delivered_order _ _ _ _ _).
  - reflexivity.
  - reflexivity.
  - vm_compute; reflexivity.
  - discriminate.
  - discriminate.
Defined.

(** X22.  A status patch that is not answered 200 writes nothing, and for an
    admin an order id that is not in the table is answered 500. *)
Theorem order_status_refusal faults user id v db :
  (http_status (run (patch_order_status faults user id v) db).1 ≠ 200 →
   (run (patch_order_status faults user id v) db).2 = db) ∧
  (auth_role user = role_admin → v ≠ "" → orders db !! id = None →
   run (patch_order_status faults user id v) db
   = ({| http_status := 500; body := Error "Failed to update order" |}, db)).
Proof.
  split.
  - order_unfold.
    destruct (bool_decide (auth_role user ∈ [role_admin])); [|done].
    destruct (negb (JS.truthy v)); [done|]. simpl.
    destruct (orders_update_error faults); [done|].
    destruct (orders db !! id); [|done]. simpl. intros Hs. by destruct Hs.
  - intros Hadmin Hv Hnone. order_unfold. unfold JS.truthy.
    rewrite bool_decide_true
      by (rewrite Hadmin; by apply list_elem_of_singleton).
    rewrite bool_decide_true by done. simpl.
    destruct (orders_update_error faults); [done|]. by rewrite Hnone.
Qed.

Lemma filter_all {A} (P : A → Prop) `{∀ x, Decision (P x)} (l : list A) :
  Forall P l → filter P l = l.
Proof.
  induction 1 as [|x l Hx _ IH]; [done|].
  by rewrite filter_cons_True, IH.
Qed.

Lemma filter_none {A} (P : A → Prop) `{∀ x, Decision (P x)} (l : list A) :
  Forall (λ x, ¬ P x) l → filter P l = [].
Proof.
  induction 1 as [|x l Hx _ IH]; [done|].
  by rewrite filter_cons_False, IH.
Qed.

Lemma fresh_order_items db id :
  items_reference_orders db →
  orders db !! id = None →
  Forall (λ i, order_id i ≠ id) (order_items db).
Proof.
  intros Hfk Hfresh. apply Forall_forall. intros i Hi Heq.
  destruct (Hfk i Hi) as [o Ho]. rewrite Heq in Ho. congruence.
Qed.

(** X23.  Deleting the order that a checkout has just placed brings the
    orders and the order items back to what they were before the checkout,
    but not the stock: the products stay as the checkout left them. *)
Theorem checkout_then_delete env user req db resp db1 faults admin :
  items_reference_orders db →
  run (post_cart env user req) db = (resp, db1) →
  http_status resp = 201 →
  auth_role admin = role_admin →
  orders_delete_error faults = false →
  let out := run (delete_order faults admin (new_order_id env)) db1 in
  out.1 = {| http_status := 200; body := Message "Order deleted successfully" |} ∧
  orders out.2 = orders db ∧
  order_items out.2 = order_items db ∧
  products out.2 = products db1 ∧
  ∃ lines,
    items req = Some lines ∧
    products out.2
    = apply_stock_writes (map (line_write db) lines) (products db).
Proof.
  intros Hfk Hrun Hs Hadmin Hde. cbn zeta.
  destruct (post_cart_201 env user req db resp db1 Hrun Hs)
    as (l & ls & Hitems & Hprof & Hok & Hoe & Hfresh & Hie).
  destruct (post_cart_pass env user req db l ls Hitems Hprof Hok Hoe Hfresh Hie)
    as (first & rest & Hd & Hrun').
  rewrite Hrun' in Hrun. injection Hrun as _ <-.
  order_unfold.
  rewrite bool_decide_true
    by (rewrite Hadmin; by apply list_elem_of_singleton).
  rewrite Hde. cbn [fst snd]. split; [done|].
  unfold cart_committed. cbn [orders order_items products set_orders
    set_order_items set_products].
  split; [by rewrite delete_insert_id|]. split.
  - rewrite filter_app.
    rewrite filter_all by (by apply fresh_order_items).
    rewrite filter_none; [by rewrite app_nil_r|].
    apply Forall_map, Forall_map, Forall_true. intros d Hne. by apply Hne.
  - split; [done|]. exists (l :: ls). split; [done|].
    by rewrite cart_writes.
Qed.

Lemma demo_db_items : items_reference_orders demo_db.
Proof. intros i Hi. by apply elem_of_nil in Hi. Defined.

Lemma checkout_then_delete_witness :
  let req := cart [("p-bowl", 2); ("p-cutlery", 10)] in
  let db1 := (run (post_cart demo_env demo_client req) demo_db).2 in
  let out := run (delete_order no_faults demo_admin (new_order_id demo_env))
               db1 in
  out.1 = {| http_status := 200; body := Message "Order deleted successfully" |} ∧
  orders out.2 = orders demo_db ∧
  order_items out.2 = order_items demo_db ∧
  products out.2 = products db1 ∧
  ∃ lines,
    items req = Some lines ∧
    products out.2
    = apply_stock_writes (map (line_write demo_db) lines) (products demo_db).
Proof.
  intros req.
  refine (checkout_then_delete demo_env demo_client req demo_db
            (run (post_cart demo_env demo_client req) demo_db).1
            (run (post_cart demo_env demo_client req) demo_db).2
            no_faults demo_admin demo_db_items _ _ _ _).
  - apply surjective_pairing.
  - vm_compute; reflexivity.
  - reflexivity.
  - reflexivity.
Defined.

(** X24.  Reading one order: an id that is not in the table is answered 500
    (never 404), a client asking for someone else's order is answered 403,
    and whatever order view a client is sent is of an order of their own. *)
Theorem get_order_access user id db :
  (orders db !! id = None →
   serve (get_order user id) db
   = ({| answer_status := 500; payload := PError "Failed to fetch order" |},
      db)) ∧
  (∀ o, orders db !! id = Some o →
        auth_role user = role_client →
        order_user_id o ≠ auth_id user →
        serve (get_order user id) db
        = ({| answer_status := 403; payload := PError "Access denied" |}, db)) ∧
  answer_status (serve (get_order user id) db).1 ≠ 404 ∧
  (∀ v, payload (serve (get_order user id) db).1 = POrder v →
        orders db !! id = Some (ov_order v) ∧
        (auth_role user = role_client →
         order_user_id (ov_order v) = auth_id user)).
Proof.
  route_unfold.
  destruct (orders db !! id) as [o|]; simpl.
  - split; [done|]. split.
    + intros o' [= <-] Hrole Hne.
      by rewrite !bool_decide_true.
    + destruct (bool_decide (auth_role user = role_client)) eqn:Hrole;
        destruct (bool_decide (order_user_id o ≠ auth_id user)) eqn:Hown;
        simpl; (split; [done|]); intros v [= <-]; simpl;
        (split; [done|]); intros Hc.
      * apply bool_decide_eq_false in Hown.
        by destruct (decide (order_user_id o = auth_id user)).
      * by apply bool_decide_eq_false in Hrole.
      * by apply bool_decide_eq_false in Hrole.
  - split; [done|]. split; [done|]. split; [done|]. done.
Qed.

(** X25.  The order list of a client holds exactly the orders of that
    client, each with the item rows that reference it and the owner's
    profile; any other role is sent every order. *)
Theorem get_orders_lists user db :
  ∃ views,
    serve (get_orders user) db
    = ({| answer_status := 200; payload := POrders views |}, db) ∧
    ∀ id v,
      views !! id = Some v ↔
      ∃ o, orders db !! id = Some o ∧
           (auth_role user = role_client → order_user_id o = auth_id user) ∧
           v = {| ov_order := o;
                  ov_items := filter (λ i, order_id i = id) (order_items db);
                  ov_profile := client_profiles db !! order_user_id o |}.
Proof.
  eexists. split; [reflexivity|].
  intros id v. rewrite map_lookup_imap.
  destruct (bool_decide (auth_role user = role_client)) eqn:Hrole.
  - apply bool_decide_eq_true in Hrole.
    destruct (filter _ (orders db) !! id) as [o|] eqn:E; simpl.
    + apply map_lookup_filter_Some in E as [Ho Hown]. simpl in Hown.
      split.
      * intros [= <-]. exists o. by repeat split.
      * intros (o' & Ho' & _ & ->). rewrite Ho in Ho'. by injection Ho' as <-.
    + split; [done|]. intros (o & Ho & Hown & _).
      assert (filter (λ kv : uuid * Order, order_user_id kv.2 = auth_id user)
                (orders db) !! id = Some o)
        by (apply map_lookup_filter_Some; split; [done|by apply Hown]).
      congruence.
  - apply bool_decide_eq_false in Hrole.
    destruct (orders db !! id) as [o|]; simpl.
    + split.
      * intros [= <-]. exists o. by repeat split.
      * by intros (o' & [= <-] & _ & ->).
    + split; [done|]. by intros (o & ? & _).
Qed.

(** X26.  Place, then read: after a checkout answered 201 on a store whose
    item rows all belong to orders, the buyer's read of the new order
    returns the order row that the checkout answered with, the buyer's
    profile, and the item rows as the table keeps them: those the checkout
    answered with, which are the handler's own, with their two prices
    rounded to hundredths. *)
Theorem checkout_then_read env user req db resp db1 :
  items_reference_orders db →
  run (post_cart env user req) db = (resp, db1) →
  http_status resp = 201 →
  ∃ order rows,
    body resp
    = CartOrderPlaced "Order placed successfully" (new_order_id env) order
        rows ∧
    serve (get_order user (new_order_id env)) db1
    = ({| answer_status := 200;
          payload := POrder {| ov_order := order;
                               ov_items := map stored_item rows;
                               ov_profile :=
                                 client_profiles db !! auth_id user |} |},
       db1).
Proof.
  intros Hfk Hrun Hs.
  destruct (post_cart_201 env user req db resp db1 Hrun Hs)
    as (l & ls & Hitems & Hprof & Hok & Hoe & Hfresh & Hie).
  destruct (post_cart_pass env user req db l ls Hitems Hprof Hok Hoe Hfresh Hie)
    as (first & rest & Hd & Hrun').
  rewrite Hrun' in Hrun. injection Hrun as <- <-.
  eexists _, _. split; [reflexivity|].
  route_unfold. unfold cart_committed.
  cbn [orders set_products set_order_items set_orders].
  rewrite lookup_insert_eq.
  cbn [cart_order stored_order order_user_id].
  rewrite (bool_decide_false (auth_id user ≠ auth_id user)) by (by intros Hne).
  rewrite andb_false_r. unfold order_view.
  cbn [order_items client_profiles set_products set_order_items set_orders
       order_user_id cart_order stored_order].
  rewrite filter_app.
  rewrite (filter_none (λ i, order_id i = new_order_id env) (order_items db)).
  - rewrite filter_all; [done|]. by apply Forall_map, Forall_map, Forall_true.
  - eapply Forall_impl; [by apply fresh_order_items|]. simpl. by intros i Hi.
Qed.

Lemma checkout_then_read_witness :
  let req := cart [("p-straw", 3); ("p-cutlery", 10)] in
  let out := run (post_cart demo_env demo_client req) demo_db in
  ∃ order rows,
    body out.1
    = CartOrderPlaced "Order placed successfully" (new_order_id demo_env)
        order rows ∧
    serve (get_order demo_client (new_order_id demo_env)) out.2
    = ({| answer_status := 200;
          payload := POrder {| ov_order := order;
                               ov_items := map stored_item rows;
                               ov_profile :=
                                 client_profiles demo_db
                                   !! auth_id demo_client |} |},
       out.2).
Proof.
  intros req.
  refine (checkout_then_read demo_env demo_client req demo_db _ _
            demo_db_items _ _).
  - apply surjective_pairing.
  - vm_compute; reflexivity.
Defined.

Example get_order_of_another_client :
  serve (get_order demo_other_client "o-0") shipped_db
  = ({| answer_status := 403; payload := PError "Access denied" |}, shipped_db) ∧
  answer_status (serve (get_order demo_client "o-0") shipped_db).1 = 200 ∧
  answer_status (serve (get_order demo_client "o-9") shipped_db).1 = 500.
Proof.
  split; [vm_compute; reflexivity|]. split; vm_compute; reflexivity.
Qed.

(** ** The production statistics of a cluster *)

Lemma sum_quantity_app rows rows' :
  sum_quantity (rows ++ rows') = sum_quantity rows + sum_quantity rows'.
Proof.
  unfold sum_quantity at 1. rewrite fold_left_app.
  by rewrite sum_quantity_from.
Qed.

Lemma sum_quantity_filter_mono (P Q : Production → Prop)
    `{∀ p, Decision (P p)} `{∀ p, Decision (Q p)} rows :
  Forall (λ p, 0 ≤ quantity p) rows →
  (∀ p, P p → Q p) →
  0 ≤ sum_quantity (filter P rows) ≤ sum_quantity (filter Q rows).
Proof.
  intros Hpos Hsub. induction Hpos as [|p rows Hp _ IH].
  - by rewrite !filter_nil.
  - destruct (decide (P p)) as [HP|HP].
    + rewrite !filter_cons_True by auto. rewrite !sum_quantity_cons. lia.
    + rewrite (filter_cons_False P) by done.
      destruct (decide (Q p)).
      * rewrite filter_cons_True by done. rewrite sum_quantity_cons. lia.
      * by rewrite filter_cons_False.
Qed.

Lemma filter_True_id {A} (l : list A) : filter (λ _, True) l = l.
Proof. apply filter_all, Forall_true. done. Qed.

Lemma production_stats_answer env monthStart user db :
  auth_role user = role_cluster →
  serve (get_production_stats env monthStart user) db
  = (let rows := match auth_cluster_id user with
                 | Some id => production_of id db
                 | None => []
                 end in
     {| answer_status := 200;
        payload :=
          PProductionStats (sum_quantity (dated (today env) rows))
            (sum_quantity (filter (λ p, monthStart ≤ date p) rows))
            (sum_quantity rows) |}, db).
Proof.
  intros Hrole. route_unfold.
  by rewrite bool_decide_true
    by (rewrite Hrole; by apply list_elem_of_singleton).
Qed.

(** X27.  For a cluster whose records all carry non-negative quantities, the
    statistics are ordered: 0 <= today's production <= the month's
    production <= the total production, the month being counted from a day
    that is not after today; the route writes nothing. *)
Theorem production_stats_ordered env monthStart user db :
  auth_role user = role_cluster →
  monthStart ≤ today env →
  (∀ p, p ∈ production db → 0 ≤ quantity p) →
  ∃ todayProduction monthProduction totalProduction,
    serve (get_production_stats env monthStart user) db
    = ({| answer_status := 200;
          payload := PProductionStats todayProduction monthProduction
                       totalProduction |}, db) ∧
    0 ≤ todayProduction ∧
    todayProduction ≤ monthProduction ∧
    monthProduction ≤ totalProduction.
Proof.
  intros Hrole Hmonth Hpos. eexists _, _, _.
  split; [by apply production_stats_answer|]. cbn zeta.
  set (rows := match auth_cluster_id user with
               | Some id => production_of id db
               | None => []
               end).
  assert (Hrows : Forall (λ p, 0 ≤ quantity p) rows).
  { apply Forall_forall. intros p Hp. apply Hpos. subst rows.
    destruct (auth_cluster_id user); [|by apply elem_of_nil in Hp].
    unfold production_of in Hp. by apply list_elem_of_filter in Hp as [_ ?]. }
  unfold dated.
  pose proof (sum_quantity_filter_mono (λ p, date p = today env)
                (λ p, monthStart ≤ date p) rows Hrows) as H1.
  pose proof (sum_quantity_filter_mono (λ p, monthStart ≤ date p)
                (λ _, True) rows Hrows) as H2.
  rewrite filter_True_id in H2.
  split; [apply H1; intros p ->; done|].
  split; [apply H1; intros p ->; done|]. by apply H2.
Qed.

Lemma production_stats_ordered_witness :
  ∃ todayProduction monthProduction totalProduction,
    serve (get_production_stats demo_env 20393 demo_manager) busy_db
    = ({| answer_status := 200;
          payload := PProductionStats todayProduction monthProduction
                       totalProduction |}, busy_db) ∧
    0 ≤ todayProduction ∧
    todayProduction ≤ monthProduction ∧
    monthProduction ≤ totalProduction.
Proof.
  refine (production_stats_ordered demo_env 20393 demo_manager busy_db _ _ _).
  - reflexivity.
  - vm_compute; discriminate.
  - intros p Hp. apply list_elem_of_In in Hp. simpl in Hp.
    destruct Hp as [<-|[<-|[<-|[]]]]; vm_compute; discriminate.
Defined.

(** A correction by a negative quantity breaks the order: the month can
    show less than today. *)
Example production_stats_after_correction :
  payload
    (serve (get_production_stats demo_env 20393 demo_manager)
       (set_production
          [ {| production_cluster_id := "c-khairpur";
               production_product_id := "p-bowl"; quantity := -5;
               shift := "Evening"; date := 20399 |};
            {| production_cluster_id := "c-khairpur";
               production_product_id := "p-bowl"; quantity := 3;
               shift := "Morning"; date := 20400 |} ] demo_db)).1
  = PProductionStats 3 (-2) (-2).
Proof. vm_compute; reflexivity. Qed.

(** X28.  Log, then read the statistics: after a production record of
    quantity Q is accepted (201), the cluster's total has grown by Q, the
    month's production by Q when the record is dated on or after the month's
    start, and today's production by Q when it is dated today. *)
Theorem production_then_stats env user req db resp db' monthStart :
  run (post_production env user req) db = (resp, db') →
  http_status resp = 201 →
  ∃ day todayProduction monthProduction totalProduction,
    pb_date req = Some day ∧
    serve (get_production_stats env monthStart user) db
    = ({| answer_status := 200;
          payload := PProductionStats todayProduction monthProduction
                       totalProduction |}, db) ∧
    serve (get_production_stats env monthStart user) db'
    = ({| answer_status := 200;
          payload :=
            PProductionStats
              (todayProduction
               + if bool_decide (day = today env) then pb_quantity req else 0)
              (monthProduction
               + if bool_decide (monthStart ≤ day) then pb_quantity req else 0)
              (totalProduction + pb_quantity req) |}, db').
Proof.
  intros Hrun Hs.
  destruct (post_production_201 env user req db resp db' Hrun Hs)
    as (id & day & Hrole & Hid & Hday & _ & Hup).
  rewrite updateClusterUtilization_spec in Hup. injection Hup as Hdb'.
  assert (Hprod : production db' = production db ++ [production_row id req day]).
  { rewrite <- Hdb'.
    rewrite <- (proj1 (production_logged_tables id req day db)).
    by destruct (clusters (production_logged id req day db) !! id). }
  exists day. eexists _, _, _. split; [done|].
  split; [by apply production_stats_answer|].
  rewrite production_stats_answer by done. cbn zeta. rewrite Hid.
  unfold production_of, dated. rewrite Hprod, filter_app.
  rewrite (filter_cons_True _ (production_row id req day)) by done.
  rewrite filter_nil, !filter_app, !sum_quantity_app.
  do 3 f_equal.
  - f_equal. case_bool_decide as Hd.
    + by rewrite filter_cons_True by done.
    + by rewrite filter_cons_False by done.
  - f_equal. case_bool_decide as Hd.
    + by rewrite filter_cons_True by done.
    + by rewrite filter_cons_False by done.
Qed.

Lemma production_then_stats_witness :
  let req := {| pb_product_id := "p-bowl"; pb_quantity := 40;
                pb_shift := "Night"; pb_date := Some 20400 |} in
  let out := run (post_production demo_env demo_manager req) busy_db in
  ∃ day todayProduction monthProduction totalProduction,
    pb_date req = Some day ∧
    serve (get_production_stats demo_env 20400 demo_manager) busy_db
    = ({| answer_status := 200;
          payload := PProductionStats todayProduction monthProduction
                       totalProduction |}, busy_db) ∧
    serve (get_production_stats demo_env 20400 demo_manager) out.2
    = ({| answer_status := 200;
          payload :=
            PProductionStats
              (todayProduction
               + if bool_decide (day = today demo_env) then pb_quantity req
                 else 0)
              (monthProduction
               + if bool_decide (20400 ≤ day) then pb_quantity req else 0)
              (totalProduction + pb_quantity req) |}, out.2).
Proof.
  intros req.
  refine (production_then_stats demo_env demo_manager req busy_db _ _ 20400
            _ _).
  - apply surjective_pairing.
  - vm_compute; reflexivity.
Defined.
